(** * goki/ki: the conversion helpers of packages [bools] and [kit]

    A shallow embedding of [bools/bools.go], [kit/convert.go] and of the
    [kit.Type] JSON wrapper, together with the parts of the Go runtime they
    rest on:

    - machine integers are [Z] with their wrap-around written out
      ([int] and [uintptr] are 64 bits wide, as on amd64 and arm64);
    - [float64] and [float32] are IEEE-754 binary64 / binary32 numbers in the
      representation of [SpecFloat];
    - a Go [string] is a sequence of bytes, here a [string] of [ascii];
    - [strconv.ParseBool], [strconv.FormatBool], [strconv.FormatInt],
      [strconv.FormatUint], [strconv.ParseUint] and [strconv.ParseInt] follow
      the Go standard library;
    - [strconv.FormatFloat], [strconv.ParseFloat], the generic [%v] verb of
      [fmt], [encoding/json], user-defined methods and the registry
      [kit.Types] are collaborators, gathered in the class [Host]. *)

From Stdlib Require Import ZArith List String Ascii Bool Lia SpecFloat.
Import ListNotations.

Open Scope string_scope.
Open Scope Z_scope.

Set Warnings "-register-all".

(** ** Results of code that may panic *)

Inductive result (A : Type) : Type :=
| Ok (a : A)
| Panic.
Arguments Ok {A} a.
Arguments Panic {A}.

Definition bind {A B : Type} (r : result A) (k : A -> result B) : result B :=
  match r with
  | Ok a => k a
  | Panic => Panic
  end.

Notation "x <- r ;; k" := (bind r (fun x => k))
  (at level 61, r at next level, right associativity).

(** ** Machine numbers *)

Module num.

Definition wrap_unsigned (bits n : Z) : Z := n mod 2 ^ bits.

Definition wrap_signed (bits n : Z) : Z :=
  let m := n mod 2 ^ bits in
  if m <? 2 ^ (bits - 1) then m else m - 2 ^ bits.

Definition minInt64 : Z := - 2 ^ 63.
Definition maxInt64 : Z := 2 ^ 63 - 1.
Definition maxUint64 : Z := 2 ^ 64 - 1.

Definition is_int64 (n : Z) : bool := (minInt64 <=? n) && (n <=? maxInt64).

(** binary64 and binary32, both carried by [spec_float]. *)
Definition float64 : Type := spec_float.
Definition float32 : Type := spec_float.

Definition fzero : spec_float := S754_zero false.
Definition f64_of_Z (n : Z) : float64 := binary_normalize 53 1024 n 0 false.
Definition f32_of_Z (n : Z) : float32 := binary_normalize 24 128 n 0 false.

(** the conversion [float32(x)] of a [float64]: round to nearest even. *)
Definition f32_of_f64 (f : float64) : float32 :=
  match f with
  | S754_finite s m e => binary_normalize 24 128 (cond_Zopp s (Zpos m)) e s
  | _ => f
  end.

(** the conversion [float64(x)] of a [float32]: the same number in the form
    of a binary64 (no rounding: 24 bits fit in 53). *)
Definition f64_of_f32 (f : float32) : float64 :=
  match f with
  | S754_finite s m e => binary_normalize 53 1024 (cond_Zopp s (Zpos m)) e s
  | _ => f
  end.

(** the comparison [x == 0] and [x != 0] on floats. *)
Definition f_is_zero (f : spec_float) : bool := SFeqb f fzero.
Definition f_nonzero (f : spec_float) : bool := negb (f_is_zero f).

(** the conversion [int64(x)] of a float: the fraction is discarded; a
    value that does not fit, an infinity or a NaN gives the value the amd64
    conversion instruction produces (Go leaves it to the implementation). *)
Definition f_trunc (f : spec_float) : option Z :=
  match f with
  | S754_zero _ => Some 0
  | S754_finite s m e =>
      Some (cond_Zopp s (if 0 <=? e then Zpos m * 2 ^ e
                         else Zpos m / 2 ^ (- e)))
  | _ => None
  end.

Definition int64_of_float (f : spec_float) : Z :=
  match f_trunc f with
  | Some z => if is_int64 z then z else minInt64
  | None => minInt64
  end.

End num.

(** ** Package strconv *)

Module strconv.

Definition code (c : ascii) : Z := Z.of_N (N_of_ascii c).
Definition chr (n : Z) : ascii := ascii_of_N (Z.to_N n).

(** [lower(c)] is [c | ('x' - 'X')]. *)
Definition lower (c : ascii) : Z := Z.lor (code c) 32.

(** *** ParseBool and FormatBool *)

Definition ParseBool (str : string) : option bool :=
  if existsb (String.eqb str) ["1"; "t"; "T"; "true"; "TRUE"; "True"]
  then Some true
  else if existsb (String.eqb str) ["0"; "f"; "F"; "false"; "FALSE"; "False"]
  then Some false
  else None.

Definition FormatBool (b : bool) : string := if b then "true" else "false".

(** *** FormatUint and FormatInt, base 10 *)

Definition digit (d : Z) : ascii := chr (48 + d).

(** The digits of [n] are produced from the least significant one, in front
    of [acc]; 20 rounds cover every 64-bit number. *)
Fixpoint format_digits (fuel : nat) (n : Z) (acc : string) : string :=
  match fuel with
  | O => acc
  | S fuel' =>
      if n <? 10 then String (digit n) acc
      else format_digits fuel' (n / 10) (String (digit (n mod 10)) acc)
  end.

Definition FormatUint (n : Z) : string := format_digits 20 n EmptyString.

Definition FormatInt (n : Z) : string :=
  if n <? 0 then String "-" (FormatUint (- n)) else FormatUint n.

(** *** ParseUint and ParseInt *)

Inductive num_result : Type :=
| NumOk (n : Z)
| NumSyntax
| NumRange (n : Z).

(** the digit loop of [ParseUint]: [base0] tells whether underscores are
    skipped, [n] is the number read so far; the result also tells whether an
    underscore was seen. *)
Fixpoint parse_loop (base0 : bool) (base cutoff maxVal : Z)
         (s : string) (n : Z) (underscores : bool) : num_result * bool :=
  match s with
  | EmptyString => (NumOk n, underscores)
  | String c s' =>
      if (code c =? 95) && base0
      then parse_loop base0 base cutoff maxVal s' n true
      else
        let d :=
          if (48 <=? code c) && (code c <=? 57) then Some (code c - 48)
          else if (97 <=? lower c) && (lower c <=? 122)
               then Some (lower c - 97 + 10)
               else None in
        match d with
        | None => (NumSyntax, underscores)
        | Some d =>
            if base <=? d then (NumSyntax, underscores)
            else if cutoff <=? n then (NumRange maxVal, underscores)
            else
              let n := num.wrap_unsigned 64 (n * base) in
              let n1 := num.wrap_unsigned 64 (n + d) in
              if (n1 <? n) || (maxVal <? n1)
              then (NumRange maxVal, underscores)
              else parse_loop base0 base cutoff maxVal s' n1 underscores
        end
  end.

Definition is_prefix_letter (c : ascii) : bool :=
  (lower c =? 98) || (lower c =? 111) || (lower c =? 120).

(** the scan of [underscoreOK] after the sign and the base prefix; [saw] is
    the class of the last character: 0 start, 1 digit, 2 underscore,
    3 anything else. *)
Fixpoint underscore_scan (hex : bool) (s : string) (saw : nat) : bool :=
  match s with
  | EmptyString => negb (Nat.eqb saw 2)
  | String c s' =>
      if ((48 <=? code c) && (code c <=? 57))
         || (hex && (97 <=? lower c) && (lower c <=? 102))
      then underscore_scan hex s' 1%nat
      else if code c =? 95
           then if Nat.eqb saw 1 then underscore_scan hex s' 2%nat else false
           else if Nat.eqb saw 2 then false
                else underscore_scan hex s' 3%nat
  end.

Definition underscoreOK (s : string) : bool :=
  let s :=
    match s with
    | String c s' => if (code c =? 45) || (code c =? 43) then s' else s
    | EmptyString => s
    end in
  match s with
  | String c0 (String c1 s') =>
      if (code c0 =? 48) && is_prefix_letter c1
      then underscore_scan (lower c1 =? 120) s' 1%nat
      else underscore_scan false s 0%nat
  | _ => underscore_scan false s 0%nat
  end.

(** [ParseUint(s, 0, bitSize)] and [ParseUint(s, 10, bitSize)]: the two
    bases the package uses ([base] is 0 or between 2 and 36). *)
Definition ParseUint (s : string) (base bitSize : Z) : num_result :=
  match s with
  | EmptyString => NumSyntax
  | String c0 rest =>
      let base0 := base =? 0 in
      let '(base', digits) :=
        if base0 then
          if code c0 =? 48 then
            match rest with
            | String c1 (String c2 r2) =>
                if lower c1 =? 98 then (2, String c2 r2)
                else if lower c1 =? 111 then (8, String c2 r2)
                else if lower c1 =? 120 then (16, String c2 r2)
                else (8, rest)
            | _ => (8, rest)
            end
          else (10, s)
        else (base, s) in
      let bitSize := if bitSize =? 0 then 64 else bitSize in
      let cutoff := num.maxUint64 / base' + 1 in
      let maxVal := 2 ^ bitSize - 1 in
      match parse_loop base0 base' cutoff maxVal digits 0 false with
      | (NumOk n, underscores) =>
          if underscores && negb (underscoreOK s) then NumSyntax
          else NumOk n
      | (r, _) => r
      end
  end.

Definition ParseInt (s : string) (base bitSize : Z) : num_result :=
  match s with
  | EmptyString => NumSyntax
  | String c0 rest =>
      let '(neg, s') :=
        if code c0 =? 43 then (false, rest)
        else if code c0 =? 45 then (true, rest)
        else (false, s) in
      match ParseUint s' base bitSize with
      | NumSyntax => NumSyntax
      | NumOk un | NumRange un =>
          let bitSize := if bitSize =? 0 then 64 else bitSize in
          let cutoff := 2 ^ (bitSize - 1) in
          if negb neg && (cutoff <=? un) then NumRange (cutoff - 1)
          else if neg && (cutoff <? un) then NumRange (- cutoff)
          else
            let n := num.wrap_signed 64 un in
            NumOk (if neg then num.wrap_signed 64 (- n) else n)
      end
  end.

(** [fmt.Sprintf("%#x", n)] for an unsigned [n]: lower-case hexadecimal
    digits after [0x]. *)
Definition hex_digit (d : Z) : ascii :=
  if d <? 10 then chr (48 + d) else chr (87 + d).

Fixpoint hex_digits (fuel : nat) (n : Z) (acc : string) : string :=
  match fuel with
  | O => acc
  | S fuel' =>
      if n <? 16 then String (hex_digit n) acc
      else hex_digits fuel' (n / 16) (String (hex_digit (n mod 16)) acc)
  end.

Definition Sprintf_sharp_x (n : Z) : string := "0x" ++ hex_digits 16 n EmptyString.

End strconv.

(** ** Package bools *)

Module bools.

Definition ToFloat32 (b : bool) : num.float32 :=
  if b then num.f32_of_Z 1 else num.f32_of_Z 0.

Definition ToFloat64 (b : bool) : num.float64 :=
  if b then num.f64_of_Z 1 else num.f64_of_Z 0.

Definition ToInt (b : bool) : Z := if b then 1 else 0.
Definition ToInt32 (b : bool) : Z := if b then 1 else 0.
Definition ToInt64 (b : bool) : Z := if b then 1 else 0.

Definition ToString (b : bool) : string := if b then "true" else "false".

Definition FromFloat32 (v : num.float32) : bool :=
  if num.f_is_zero v then false else true.

Definition FromFloat64 (v : num.float64) : bool :=
  if num.f_is_zero v then false else true.

Definition FromInt (v : Z) : bool := if v =? 0 then false else true.
Definition FromInt32 (v : Z) : bool := if v =? 0 then false else true.
Definition FromInt64 (v : Z) : bool := if v =? 0 then false else true.

Definition FromString (v : string) : bool :=
  if String.eqb v "true" then true else false.

End bools.

(** ** Package bytes: the two trimming functions [kit.Type] uses *)

Module bytes.

Fixpoint TrimLeftFunc (f : ascii -> bool) (s : string) : string :=
  match s with
  | String c s' => if f c then TrimLeftFunc f s' else s
  | EmptyString => EmptyString
  end.

Fixpoint TrimRightFunc (f : ascii -> bool) (s : string) : string :=
  match s with
  | String c s' =>
      match TrimRightFunc f s' with
      | EmptyString => if f c then EmptyString else String c EmptyString
      | r => String c r
      end
  | EmptyString => EmptyString
  end.

(** [Trim(s, cutset)] for a cutset of single-byte characters. *)
Definition Trim (s : string) (cutset : list ascii) : string :=
  let f c := existsb (Ascii.eqb c) cutset in
  TrimRightFunc f (TrimLeftFunc f s).

(** the white space of [TrimSpace] among the single-byte characters: tab,
    line feed, vertical tab, form feed, carriage return and space (the
    multi-byte white space of Unicode is not modelled). *)
Definition isSpace (c : ascii) : bool :=
  let n := strconv.code c in
  ((9 <=? n) && (n <=? 13)) || (n =? 32).

Definition TrimSpace (s : string) : string :=
  TrimRightFunc isSpace (TrimLeftFunc isSpace s).

End bytes.

(** ** Package reflect: kinds, types, values *)

Module reflect.

Inductive Kind : Type :=
| Invalid | Bool | Int | Int8 | Int16 | Int32 | Int64
| Uint | Uint8 | Uint16 | Uint32 | Uint64 | Uintptr
| Float32 | Float64 | Complex64 | Complex128
| Array | Chan | Func | Interface | Map | Ptr | Slice | String | Struct
| UnsafePointer.

(** the numeric value of a kind: the order of the declaration in Go. *)
Definition kind_num (k : Kind) : Z :=
  match k with
  | Invalid => 0 | Bool => 1 | Int => 2 | Int8 => 3 | Int16 => 4
  | Int32 => 5 | Int64 => 6 | Uint => 7 | Uint8 => 8 | Uint16 => 9
  | Uint32 => 10 | Uint64 => 11 | Uintptr => 12 | Float32 => 13
  | Float64 => 14 | Complex64 => 15 | Complex128 => 16 | Array => 17
  | Chan => 18 | Func => 19 | Interface => 20 | Map => 21 | Ptr => 22
  | Slice => 23 | String => 24 | Struct => 25 | UnsafePointer => 26
  end.

Definition kind_eqb (a b : Kind) : bool := kind_num a =? kind_num b.

(** [lo <= k && k <= hi] on kinds. *)
Definition kind_in (lo hi k : Kind) : bool :=
  (kind_num lo <=? kind_num k) && (kind_num k <=? kind_num hi).

(** the width in bits of the integer kinds. *)
Definition kind_bits (k : Kind) : Z :=
  match k with
  | Int8 | Uint8 => 8
  | Int16 | Uint16 => 16
  | Int32 | Uint32 => 32
  | _ => 64
  end.

(** the kinds that have a predeclared type. *)
Definition predeclared (k : Kind) : bool :=
  kind_in Bool Complex128 k || kind_eqb k String || kind_eqb k UnsafePointer.

(** Types.  [TBasic k] is the predeclared type of kind [k] ([bool], [int32],
    [uintptr], [string], ...; [byte] is [TBasic Uint8]); [TNamed n u] is the
    defined type [n] with the underlying type of [u]; function, interface
    and struct types are told apart by a description.  Types that refer to
    themselves are outside this model. *)
Inductive rtype : Type :=
| TBasic (k : Kind)
| TNamed (name : string) (underlying : rtype)
| TPtr (elem : rtype)
| TSlice (elem : rtype)
| TArray (len : Z) (elem : rtype)
| TMap (key elem : rtype)
| TChan (elem : rtype)
| TFunc (sig : string)
| TInterface (descr : string)
| TStruct (descr : string).

Fixpoint kind_of (t : rtype) : Kind :=
  match t with
  | TBasic k => if predeclared k then k else Invalid
  | TNamed _ u => kind_of u
  | TPtr _ => Ptr
  | TSlice _ => Slice
  | TArray _ _ => Array
  | TMap _ _ => Map
  | TChan _ => Chan
  | TFunc _ => Func
  | TInterface _ => Interface
  | TStruct _ => Struct
  end.

Fixpoint underlying (t : rtype) : rtype :=
  match t with
  | TNamed _ u => underlying u
  | _ => t
  end.

(** [t.Elem()] for the kinds that have an element type. *)
Definition type_elem (t : rtype) : rtype :=
  match underlying t with
  | TPtr e | TSlice e | TArray _ e | TMap _ e | TChan e => e
  | _ => TBasic Invalid
  end.

(** the number of pointer layers on top of a type. *)
Fixpoint ptr_depth (t : rtype) : nat :=
  match t with
  | TNamed _ u => ptr_depth u
  | TPtr e => S (ptr_depth e)
  | _ => O
  end.

Fixpoint rtype_eqb (a b : rtype) : bool :=
  match a, b with
  | TBasic k, TBasic k' => kind_eqb k k'
  | TNamed n u, TNamed n' u' => String.eqb n n' && rtype_eqb u u'
  | TPtr e, TPtr e' => rtype_eqb e e'
  | TSlice e, TSlice e' => rtype_eqb e e'
  | TArray l e, TArray l' e' => (l =? l') && rtype_eqb e e'
  | TMap k e, TMap k' e' => rtype_eqb k k' && rtype_eqb e e'
  | TChan e, TChan e' => rtype_eqb e e'
  | TFunc s, TFunc s' => String.eqb s s'
  | TInterface s, TInterface s' => String.eqb s s'
  | TStruct s, TStruct s' => String.eqb s s'
  | _, _ => false
  end.

(** Only defined types, struct types (through embedded fields) and the
    pointers to them have methods. *)
Definition has_method_set (t : rtype) : bool :=
  match t with
  | TNamed _ _ | TStruct _ | TPtr (TNamed _ _) | TPtr (TStruct _) => true
  | _ => false
  end.

Definition addr : Type := nat.

(** What a variable holds.  A pointer is nil or the address of a variable
    of the heap; a slice, map, channel or function is nil or not; an
    interface holds nothing or a type and a value. *)
Inductive data : Type :=
| VBool (b : bool)
| VInt (n : Z)
| VUint (n : N)
| VFloat (f : spec_float)
| VComplex (re im : spec_float)
| VString (s : string)
| VPtr (p : option addr)
| VSlice (elems : option (list data))
| VMap (entries : option (list (data * data)))
| VChan (c : option Z)
| VFunc (f : option Z)
| VIface (i : option (rtype * data))
| VStruct (fields : list data)
| VArray (elems : list data)
| VUnsafePointer (p : Z).

(** a value of type [any]: the nil interface, or a dynamic type and its
    value. *)
Definition iface : Type := option (rtype * data).

(** The variables that pointers can reach, by address. *)
Definition heap : Type := list data.

Definition load (h : heap) (a : addr) : data := nth a h (VStruct []).

Fixpoint store (h : heap) (a : addr) (d : data) : heap :=
  match h, a with
  | [], _ => []
  | _ :: h', O => d :: h'
  | x :: h', S a' => x :: store h' a' d
  end.

Definition data_is_nil (d : data) : bool :=
  match d with
  | VPtr None | VSlice None | VMap None | VChan None | VFunc None
  | VIface None => true
  | _ => false
  end.

Definition as_bool (d : data) : bool :=
  match d with VBool b => b | _ => false end.
Definition as_int (d : data) : Z :=
  match d with VInt n => n | _ => 0 end.
Definition as_uint (d : data) : Z :=
  match d with VUint n => Z.of_N n | _ => 0 end.
Definition as_float (d : data) : spec_float :=
  match d with VFloat f => f | _ => num.fzero end.
Definition as_complex (d : data) : spec_float * spec_float :=
  match d with VComplex re im => (re, im) | _ => (num.fzero, num.fzero) end.
Definition as_string (d : data) : string :=
  match d with VString s => s | _ => EmptyString end.
Definition as_ptr (d : data) : option addr :=
  match d with VPtr p => p | _ => None end.

(** [*p]: a nil pointer panics. *)
Definition deref (h : heap) (d : data) : result data :=
  match as_ptr d with
  | Some a => Ok (load h a)
  | None => Panic
  end.

(** [reflect.Value]: the zero Value, or a type, what it holds and, when it
    is addressable, the variable it is. *)
Inductive Value : Type :=
| Zero
| Val (t : rtype) (d : data) (loc : option addr).

Definition ValueOf (it : iface) : Value :=
  match it with
  | None => Zero
  | Some (t, d) => Val t d None
  end.

Definition TypeOf (it : iface) : option rtype :=
  match it with
  | None => None
  | Some (t, _) => Some t
  end.

Definition IsValid (v : Value) : bool :=
  match v with Zero => false | Val _ _ _ => true end.

Definition kind (v : Value) : Kind :=
  match v with Zero => Invalid | Val t _ _ => kind_of t end.

Definition val_data (v : Value) : data :=
  match v with Zero => VStruct [] | Val _ d _ => d end.

(** [v.IsNil()]; what a pointer holds is read with [as_ptr]. *)
Definition IsNil (v : Value) : bool :=
  match kind v with
  | Ptr => match as_ptr (val_data v) with None => true | Some _ => false end
  | _ => data_is_nil (val_data v)
  end.

Definition CanAddr (v : Value) : bool :=
  match v with Val _ _ (Some _) => true | _ => false end.

Definition CanSet (v : Value) : bool := CanAddr v.

Definition Addr (v : Value) : Value :=
  match v with
  | Val t _ (Some a) => Val (TPtr t) (VPtr (Some a)) None
  | _ => v
  end.

(** [v.Type()] panics on the zero Value. *)
Definition type_of_value (v : Value) : result rtype :=
  match v with Zero => Panic | Val t _ _ => Ok t end.

(** [v.Elem()] of a pointer: the zero Value for nil, else the variable
    pointed to, addressable. *)
Definition ptr_elem (h : heap) (v : Value) : Value :=
  match v with
  | Val t d _ =>
      match as_ptr d with
      | Some a => Val (type_elem t) (load h a) (Some a)
      | None => Zero
      end
  | Zero => Zero
  end.

(** [v.Elem()]: defined on pointers and interfaces, a panic elsewhere. *)
Definition Elem (h : heap) (v : Value) : result Value :=
  match kind v with
  | Ptr => Ok (ptr_elem h v)
  | Interface =>
      match val_data v with
      | VIface (Some (t, d)) => Ok (Val t d None)
      | _ => Ok Zero
      end
  | _ => Panic
  end.

(** [v.Set(x)]: the variable [v] receives what [x] holds, boxed when [v]
    is of interface type. *)
Definition Set_ (h : heap) (v x : Value) : heap :=
  match v, x with
  | Val t _ (Some a), Val tx dx _ =>
      match kind_of t with
      | Interface => store h a (VIface (Some (tx, dx)))
      | _ => store h a dx
      end
  | _, _ => h
  end.

(** [Convert] from [int64], [bool], [float64] and [string] to a type of the
    same family. *)
Definition convert_int (t : rtype) (n : Z) : Value :=
  let k := kind_of t in
  if kind_in Int Int64 k
  then Val t (VInt (num.wrap_signed (kind_bits k) n)) None
  else Val t (VUint (Z.to_N (num.wrap_unsigned (kind_bits k) n))) None.

Definition convert_bool (t : rtype) (b : bool) : Value :=
  Val t (VBool b) None.

Definition convert_float (t : rtype) (f : spec_float) : Value :=
  match kind_of t with
  | Float32 => Val t (VFloat (num.f32_of_f64 f)) None
  | _ => Val t (VFloat f) None
  end.

Definition convert_string (t : rtype) (s : string) : Value :=
  Val t (VString s) None.

(** Assignability, as [reflect] decides it; channel directions are not
    modelled, and whether a type implements an interface is the host's
    [implements]. *)
Definition hasName (t : rtype) : bool :=
  match t with
  | TBasic _ | TNamed _ _ => true
  | _ => false
  end.

Definition directlyAssignable (T V : rtype) : bool :=
  rtype_eqb T V
  || (negb (hasName T && hasName V)
      && kind_eqb (kind_of T) (kind_of V)
      && rtype_eqb (underlying T) (underlying V)).

(** the zero value of a type; the fields of a struct and the elements of an
    array are not modelled, so theirs is the empty aggregate. *)
Definition zero_data (t : rtype) : data :=
  match kind_of t with
  | Bool => VBool false
  | Int | Int8 | Int16 | Int32 | Int64 => VInt 0
  | Uint | Uint8 | Uint16 | Uint32 | Uint64 | Uintptr => VUint 0
  | Float32 | Float64 => VFloat num.fzero
  | Complex64 | Complex128 => VComplex num.fzero num.fzero
  | String => VString EmptyString
  | Ptr => VPtr None
  | Slice => VSlice None
  | Map => VMap None
  | Chan => VChan None
  | Func => VFunc None
  | Interface => VIface None
  | Array => VArray []
  | UnsafePointer => VUnsafePointer 0
  | Struct | Invalid => VStruct []
  end.

(** [reflect.New(typ)]: a pointer to a new variable that holds the zero
    value of [typ]; the variable is added at the end of the heap. *)
Definition New_ (h : heap) (typ : rtype) : Value * heap :=
  (Val (TPtr typ) (VPtr (Some (List.length h))) None, h ++ [zero_data typ])%list.

(** [v.Interface()]: panics on the zero Value. *)
Definition Interface_ (v : Value) : result iface :=
  match v with
  | Zero => Panic
  | Val t d _ => Ok (Some (t, d))
  end.

(** [v.Len()] of an array (the length of its type) and of a string. *)
Definition Len (v : Value) : Z :=
  match v with
  | Zero => 0
  | Val t d _ =>
      match underlying t with
      | TArray l _ => l
      | _ => Z.of_nat (String.length (as_string d))
      end
  end.

End reflect.

(** ** Package strings: what [StructTags] uses

    [Fields] splits at the white space of [bytes.isSpace]; this is what Go
    does on a string of ASCII characters (with a byte above 127 in the
    string Go decodes UTF-8 and splits at the Unicode white space, which is
    not modelled: the properties of [StructTags] are about ASCII tags). *)

Module strings.

(** the fields of [s] after the characters of [word], the field being read
    (empty between fields). *)
Fixpoint fields_from (s : string) (word : string) : list string :=
  match s with
  | EmptyString =>
      match word with
      | EmptyString => []
      | _ => [word]
      end
  | String c s' =>
      if bytes.isSpace c
      then match word with
           | EmptyString => fields_from s' EmptyString
           | _ => word :: fields_from s' EmptyString
           end
      else fields_from s' (word ++ String c EmptyString)
  end.

Definition Fields (s : string) : list string := fields_from s EmptyString.

(** [Index(s, sep)] for a separator of one byte: the first position of the
    byte, or -1. *)
Fixpoint IndexByte (s : string) (c : ascii) : Z :=
  match s with
  | EmptyString => -1
  | String a s' =>
      if Ascii.eqb a c then 0
      else
        let i := IndexByte s' c in
        if i <? 0 then -1 else i + 1
  end.

(** [s[:n]] and [s[n:]], for [n] within the string. *)
Fixpoint take (n : nat) (s : string) : string :=
  match n, s with
  | S n', String a s' => String a (take n' s')
  | _, _ => EmptyString
  end.

Fixpoint drop (n : nat) (s : string) : string :=
  match n, s with
  | S n', String _ s' => drop n' s'
  | _, _ => s
  end.

(** [TrimSuffix(s, suffix)] for a suffix of one byte. *)
Fixpoint TrimSuffixByte (s : string) (c : ascii) : string :=
  match s with
  | EmptyString => EmptyString
  | String a EmptyString => if Ascii.eqb a c then EmptyString else s
  | String a s' => String a (TrimSuffixByte s' c)
  end.

End strings.

(** ** Package math: Min *)

Module math.

Definition IsNaN (f : spec_float) : bool :=
  match f with S754_nan => true | _ => false end.

Definition IsNegInf (f : spec_float) : bool :=
  match f with S754_infinity true => true | _ => false end.

(** the sign bit; a NaN is taken without sign. *)
Definition Signbit (f : spec_float) : bool :=
  match f with
  | S754_zero s | S754_infinity s | S754_finite s _ _ => s
  | S754_nan => false
  end.

(** [math.Min]: minus infinity wins, then NaN, and of two zeros the
    negative one. *)
Definition Min (x y : spec_float) : spec_float :=
  if IsNegInf x || IsNegInf y then S754_infinity true
  else if IsNaN x || IsNaN y then S754_nan
  else if SFeqb x num.fzero && SFeqb x y
       then (if Signbit x then x else y)
       else if SFltb x y then x else y.

End math.

(** ** Package kit *)

Module kit.

Import reflect.

(** *** The collaborators

    What the package calls and this development does not define: the float
    formatter and parser of [strconv], the [%v] verb of [fmt] (for every
    value but a [uintptr]), the methods of user types behind the interfaces
    [fmt.Stringer], [ints.Inter] and [floats.Floater], method-set inclusion,
    [json.Unmarshal], and the two copy helpers of the package whose source
    is not among the sources.  A method receives what the interface holds and the
    heap, and may panic. *)
Class Host : Type := {
  FormatFloat : spec_float -> ascii -> Z -> Z -> string;
  ParseFloat : string -> Z -> option spec_float;
  Sprintf_v_other : iface -> heap -> string;
  Stringer_String : rtype -> option (data -> heap -> result string);
  Inter_Int : rtype -> option (data -> heap -> result Z);
  Floater_Float : rtype -> option (data -> heap -> result spec_float);
  implements : rtype -> rtype -> bool;
  json_Unmarshal : string -> iface -> heap -> bool * heap;
  CopySliceRobust : iface -> iface -> heap -> result (bool * heap);
  CopyMapRobust : iface -> iface -> heap -> result (bool * heap)
}.

(** the registry [kit.Types]: the name of a type, and the type of a name
    ([None] is the nil [reflect.Type] of a name that is not registered). *)
Class Registry : Type := {
  Types_TypeName : rtype -> string;
  Types_Type : string -> option rtype
}.

(** what [SetRobust] writes to the log. *)
Inductive diagnostic : Type :=
| CannotSet
| FromStringFailed (k : Kind).

Section WithHost.

Context {host : Host}.

(** the type assertions [it.(fmt.Stringer)], [it.(ints.Inter)] and
    [it.(floats.Floater)]: the method of the dynamic type, if any. *)
Definition method {A : Type}
           (table : rtype -> option (data -> heap -> result A))
           (it : iface) : option (data -> heap -> result A) :=
  match it with
  | Some (t, _) => if has_method_set t then table t else None
  | None => None
  end.

Definition receiver (it : iface) : data :=
  match it with
  | Some (_, d) => d
  | None => VIface None
  end.

(** [fmt.Sprintf("%v", it)]: a [uintptr] prints in base 10. *)
Definition Sprintf_v (it : iface) (h : heap) : string :=
  match it with
  | Some (TBasic Uintptr, d) => strconv.FormatUint (as_uint d)
  | _ => Sprintf_v_other it h
  end.

Definition AssignableTo (t u : rtype) : bool :=
  directlyAssignable u t
  || (kind_eqb (kind_of u) Interface && implements u t).

(** *** Helpers of [kit/ptrs.go] *)

Fixpoint NonPtrValue_loop (n : nat) (h : heap) (v : Value) : Value :=
  match n with
  | O => v
  | S n' =>
      match kind v with
      | Ptr => NonPtrValue_loop n' h (ptr_elem h v)
      | _ => v
      end
  end.

Definition value_depth (v : Value) : nat :=
  match v with
  | Zero => O
  | Val t _ _ => ptr_depth t
  end.

(** Modelled from the spec: [NonPtrValue] (kit/ptrs.go is not among the
    sources), which "dereferences through any pointer indirection": as
    long as the kind is [Ptr], take [Elem].  The pointer layers of the
    type bound the number of rounds. *)
Definition NonPtrValue (h : heap) (v : Value) : Value :=
  NonPtrValue_loop (value_depth v) h v.

(** Modelled from the spec: [NonPtrType] (kit/ptrs.go is not among the
    sources), the type under all pointer layers. *)
Fixpoint NonPtrType (t : rtype) : rtype :=
  match t with
  | TPtr e => NonPtrType e
  | TNamed _ u =>
      match kind_of u with
      | Ptr => NonPtrType u
      | _ => t
      end
  | _ => t
  end.

Fixpoint OnePtrValue_loop (n : nat) (h : heap) (v : Value) : Value :=
  match n with
  | O => v
  | S n' =>
      match kind (ptr_elem h v) with
      | Ptr => OnePtrValue_loop n' h (ptr_elem h v)
      | _ => v
      end
  end.

(** a reference to a value that has no address: [Elem] gives the value
    back, not addressable (the value held in an interface). *)
Definition unaddressable_ref (v : Value) : Value :=
  match v with
  | Val t d _ => Val (TInterface "interface {}") (VIface (Some (t, d))) None
  | Zero => Zero
  end.

(** Modelled from the spec: [OnePtrValue] (kit/ptrs.go is not among the
    sources), the reference [SetRobust] writes through with
    [OnePtrValue(vnp).Elem()].  The spec asks for "a non-nil reference to an
    addressable, settable location; if not, the operation fails (logging a
    diagnostic, not raising a fatal error)", and has [SetRobust] "into a
    non-settable destination (e.g., a constant or unaddressable value)"
    return false.  So the result is the last pointer of a chain of pointers,
    the address of an addressable value, and for a value without an address
    a reference whose [Elem] is that value, which cannot be set: the guard
    of [SetRobust] then fails with the diagnostic. *)
Definition OnePtrValue (h : heap) (v : Value) : Value :=
  match kind v with
  | Ptr => OnePtrValue_loop (value_depth v) h v
  | _ => if CanAddr v then Addr v else unaddressable_ref v
  end.

(** Modelled from the spec: [SliceElType] (not among the sources).  The
    spec has "a byte-sequence value rendered as raw text": this is the
    element type of the slice under the pointers of [it]. *)
Definition SliceElType (it : iface) : result rtype :=
  match TypeOf it with
  | Some t => Ok (type_elem (NonPtrType t))
  | None => Panic
  end.

(** *** convert.go *)

Definition IfaceIsNil (it : iface) : bool :=
  match it with
  | None => true
  | Some _ =>
      let v := ValueOf it in
      let vk := kind v in
      if kind_eqb vk Ptr || kind_eqb vk Interface || kind_eqb vk Map
         || kind_eqb vk Slice || kind_eqb vk Func || kind_eqb vk Chan
      then IsNil v
      else false
  end.

Definition KindIsBasic (vk : Kind) : bool :=
  if kind_in Bool Complex128 vk then true else false.

Definition parse_bool (s : string) : bool * bool :=
  match strconv.ParseBool s with
  | Some r => (r, true)
  | None => (false, false)
  end.

Definition parse_int (s : string) : Z * bool :=
  match strconv.ParseInt s 0 64 with
  | strconv.NumOk r => (r, true)
  | _ => (0, false)
  end.

Definition parse_float (s : string) : spec_float * bool :=
  match ParseFloat s 64 with
  | Some r => (r, true)
  | None => (num.fzero, false)
  end.

Definition parse_float32 (s : string) : spec_float * bool :=
  match ParseFloat s 32 with
  | Some r => (num.f32_of_f64 r, true)
  | None => (num.fzero, false)
  end.

(** the type switch of [ToBool]: [None] when no case applies. *)
Definition ToBool_switch (it : iface) (h : heap)
  : option (result (bool * bool)) :=
  match it with
  | Some (TBasic k, d) =>
      match k with
      | Bool => Some (Ok (as_bool d, true))
      | Int | Int32 | Int64 => Some (Ok (negb (as_int d =? 0), true))
      | Uint8 => Some (Ok (negb (as_uint d =? 0), true))
      | Float64 | Float32 => Some (Ok (num.f_nonzero (as_float d), true))
      | String => Some (Ok (parse_bool (as_string d)))
      | _ => None
      end
  | Some (TPtr (TBasic k), d) =>
      match k with
      | Bool => Some (bt <- deref h d ;; Ok (as_bool bt, true))
      | Int => Some (bt <- deref h d ;; Ok (negb (as_int bt =? 0), true))
      | Float64 | Float32 =>
          Some (bt <- deref h d ;; Ok (num.f_nonzero (as_float bt), true))
      | String => Some (bt <- deref h d ;; Ok (parse_bool (as_string bt)))
      | _ => None
      end
  | _ => None
  end.

Definition ToBool (it : iface) (h : heap) : result (bool * bool) :=
  match ToBool_switch it h with
  | Some r => r
  | None =>
      if IfaceIsNil it then Ok (false, false)
      else
        let v := NonPtrValue h (ValueOf it) in
        let vk := kind v in
        if kind_in Int Int64 vk
        then Ok (negb (as_int (val_data v) =? 0), true)
        else if kind_in Uint Uint64 vk
        then Ok (negb (as_uint (val_data v) =? 0), true)
        else if kind_eqb vk Bool
        then Ok (as_bool (val_data v), true)
        else if kind_in Float32 Float64 vk
        then Ok (num.f_nonzero (as_float (val_data v)), true)
        else if kind_in Complex64 Complex128 vk
        then Ok (num.f_nonzero (fst (as_complex (val_data v))), true)
        else if kind_eqb vk String
        then Ok (parse_bool (as_string (val_data v)))
        else Ok (false, false)
  end.

Definition int_of_bool (b : bool) : Z := if b then 1 else 0.

Definition ToInt_switch (it : iface) (h : heap)
  : option (result (Z * bool)) :=
  match it with
  | Some (TBasic k, d) =>
      match k with
      | Bool => Some (Ok (int_of_bool (as_bool d), true))
      | Int | Int32 | Int64 => Some (Ok (as_int d, true))
      | Uint8 => Some (Ok (as_uint d, true))
      | Float64 | Float32 =>
          Some (Ok (num.int64_of_float (as_float d), true))
      | String => Some (Ok (parse_int (as_string d)))
      | _ => None
      end
  | Some (TPtr (TBasic k), d) =>
      match k with
      | Bool => Some (x <- deref h d ;; Ok (int_of_bool (as_bool x), true))
      | Int | Int32 | Int64 => Some (x <- deref h d ;; Ok (as_int x, true))
      | Uint8 => Some (x <- deref h d ;; Ok (as_uint x, true))
      | Float64 | Float32 =>
          Some (x <- deref h d ;;
                Ok (num.int64_of_float (as_float x), true))
      | String => Some (x <- deref h d ;; Ok (parse_int (as_string x)))
      | _ => None
      end
  | _ => None
  end.

Definition ToInt (it : iface) (h : heap) : result (Z * bool) :=
  match ToInt_switch it h with
  | Some r => r
  | None =>
      if IfaceIsNil it then Ok (0, false)
      else
        match method Inter_Int it with
        | Some m => n <- m (receiver it) h ;; Ok (n, true)
        | None =>
            let v := NonPtrValue h (ValueOf it) in
            let vk := kind v in
            if kind_in Int Int64 vk
            then Ok (as_int (val_data v), true)
            else if kind_in Uint Uint64 vk
            then Ok (num.wrap_signed 64 (as_uint (val_data v)), true)
            else if kind_eqb vk Bool
            then Ok (int_of_bool (as_bool (val_data v)), true)
            else if kind_in Float32 Float64 vk
            then Ok (num.int64_of_float (as_float (val_data v)), true)
            else if kind_in Complex64 Complex128 vk
            then Ok (num.int64_of_float (fst (as_complex (val_data v))),
                     true)
            else if kind_eqb vk String
            then Ok (parse_int (as_string (val_data v)))
            else Ok (0, false)
        end
  end.

Definition float_of_bool (b : bool) : spec_float :=
  if b then num.f64_of_Z 1 else num.f64_of_Z 0.

(** what [v.Float()] and [real(v.Complex())] return is a [float64]: the
    float of a [float32] or [complex64] is widened. *)
Definition widen (vk : Kind) (f : spec_float) : spec_float :=
  match vk with
  | Float32 | Complex64 => num.f64_of_f32 f
  | _ => f
  end.

Definition ToFloat_switch (it : iface) (h : heap)
  : option (result (spec_float * bool)) :=
  match it with
  | Some (TBasic k, d) =>
      match k with
      | Bool => Some (Ok (float_of_bool (as_bool d), true))
      | Int | Int32 | Int64 => Some (Ok (num.f64_of_Z (as_int d), true))
      | Uint8 => Some (Ok (num.f64_of_Z (as_uint d), true))
      | Float64 => Some (Ok (as_float d, true))
      | Float32 => Some (Ok (num.f64_of_f32 (as_float d), true))
      | String => Some (Ok (parse_float (as_string d)))
      | _ => None
      end
  | Some (TPtr (TBasic k), d) =>
      match k with
      | Bool =>
          Some (x <- deref h d ;; Ok (float_of_bool (as_bool x), true))
      | Int | Int32 | Int64 =>
          Some (x <- deref h d ;; Ok (num.f64_of_Z (as_int x), true))
      | Uint8 =>
          Some (x <- deref h d ;; Ok (num.f64_of_Z (as_uint x), true))
      | Float64 => Some (x <- deref h d ;; Ok (as_float x, true))
      | Float32 =>
          Some (x <- deref h d ;; Ok (num.f64_of_f32 (as_float x), true))
      | String => Some (x <- deref h d ;; Ok (parse_float (as_string x)))
      | _ => None
      end
  | _ => None
  end.

Definition ToFloat (it : iface) (h : heap) : result (spec_float * bool) :=
  match ToFloat_switch it h with
  | Some r => r
  | None =>
      match method Floater_Float it with
      | Some m => f <- m (receiver it) h ;; Ok (f, true)
      | None =>
          if IfaceIsNil it then Ok (num.fzero, false)
          else
            let v := NonPtrValue h (ValueOf it) in
            let vk := kind v in
            if kind_in Int Int64 vk
            then Ok (num.f64_of_Z (as_int (val_data v)), true)
            else if kind_in Uint Uint64 vk
            then Ok (num.f64_of_Z (as_uint (val_data v)), true)
            else if kind_eqb vk Bool
            then Ok (float_of_bool (as_bool (val_data v)), true)
            else if kind_in Float32 Float64 vk
            then Ok (widen vk (as_float (val_data v)), true)
            else if kind_in Complex64 Complex128 vk
            then Ok (widen vk (fst (as_complex (val_data v))), true)
            else if kind_eqb vk String
            then Ok (parse_float (as_string (val_data v)))
            else Ok (num.fzero, false)
      end
  end.

Definition float32_of_bool (b : bool) : spec_float :=
  if b then num.f32_of_Z 1 else num.f32_of_Z 0.

Definition ToFloat32_switch (it : iface) (h : heap)
  : option (result (spec_float * bool)) :=
  match it with
  | Some (TBasic k, d) =>
      match k with
      | Bool => Some (Ok (float32_of_bool (as_bool d), true))
      | Int | Int32 | Int64 => Some (Ok (num.f32_of_Z (as_int d), true))
      | Uint8 => Some (Ok (num.f32_of_Z (as_uint d), true))
      | Float64 => Some (Ok (num.f32_of_f64 (as_float d), true))
      | Float32 => Some (Ok (as_float d, true))
      | String => Some (Ok (parse_float32 (as_string d)))
      | _ => None
      end
  | Some (TPtr (TBasic k), d) =>
      match k with
      | Bool =>
          Some (x <- deref h d ;; Ok (float32_of_bool (as_bool x), true))
      | Int | Int32 | Int64 =>
          Some (x <- deref h d ;; Ok (num.f32_of_Z (as_int x), true))
      | Uint8 =>
          Some (x <- deref h d ;; Ok (num.f32_of_Z (as_uint x), true))
      | Float64 =>
          Some (x <- deref h d ;; Ok (num.f32_of_f64 (as_float x), true))
      | Float32 => Some (x <- deref h d ;; Ok (as_float x, true))
      | String => Some (x <- deref h d ;; Ok (parse_float32 (as_string x)))
      | _ => None
      end
  | _ => None
  end.

Definition ToFloat32 (it : iface) (h : heap)
  : result (spec_float * bool) :=
  match ToFloat32_switch it h with
  | Some r => r
  | None =>
      match method Floater_Float it with
      | Some m => f <- m (receiver it) h ;; Ok (num.f32_of_f64 f, true)
      | None =>
          if IfaceIsNil it then Ok (num.fzero, false)
          else
            let v := NonPtrValue h (ValueOf it) in
            let vk := kind v in
            if kind_in Int Int64 vk
            then Ok (num.f32_of_Z (as_int (val_data v)), true)
            else if kind_in Uint Uint64 vk
            then Ok (num.f32_of_Z (as_uint (val_data v)), true)
            else if kind_eqb vk Bool
            then Ok (float32_of_bool (as_bool (val_data v)), true)
            else if kind_in Float32 Float64 vk
            then Ok (num.f32_of_f64 (as_float (val_data v)), true)
            else if kind_in Complex64 Complex128 vk
            then Ok (num.f32_of_f64 (fst (as_complex (val_data v))), true)
            else if kind_eqb vk String
            then Ok (parse_float32 (as_string (val_data v)))
            else Ok (num.fzero, false)
      end
  end.

Definition bytes_to_string (d : data) : string :=
  match d with
  | VSlice (Some l) =>
      fold_right (fun b acc => String.String (strconv.chr (as_uint b)) acc)
                 EmptyString l
  | _ => EmptyString
  end.

(** [string(it.([]byte))]: the assertion panics unless the dynamic type
    is [[]byte] itself. *)
Definition assert_bytes (it : iface) : result string :=
  match it with
  | Some (TSlice (TBasic Uint8), d) => Ok (bytes_to_string d)
  | _ => Panic
  end.

Definition ToString_switch (it : iface) (h : heap)
  : option (result string) :=
  match it with
  | Some (TBasic k, d) =>
      match k with
      | String => Some (Ok (as_string d))
      | Bool => Some (Ok (if as_bool d then "true" else "false"))
      | Int | Int32 | Int64 => Some (Ok (strconv.FormatInt (as_int d)))
      | Uint8 => Some (Ok (strconv.FormatInt (as_uint d)))
      | Float64 => Some (Ok (FormatFloat (as_float d) "G" (-1) 64))
      | Float32 => Some (Ok (FormatFloat (as_float d) "G" (-1) 32))
      | Uintptr => Some (Ok (strconv.Sprintf_sharp_x (as_uint d)))
      | _ => None
      end
  | Some (TPtr (TBasic k), d) =>
      match k with
      | String => Some (x <- deref h d ;; Ok (as_string x))
      | Bool =>
          Some (x <- deref h d ;;
                Ok (if as_bool x then "true" else "false"))
      | Int | Int32 | Int64 =>
          Some (x <- deref h d ;; Ok (strconv.FormatInt (as_int x)))
      | Uint8 =>
          Some (x <- deref h d ;; Ok (strconv.FormatInt (as_uint x)))
      | Float64 =>
          Some (x <- deref h d ;;
                Ok (FormatFloat (as_float x) "G" (-1) 64))
      | Float32 =>
          Some (x <- deref h d ;;
                Ok (FormatFloat (as_float x) "G" (-1) 32))
      | Uintptr =>
          Some (x <- deref h d ;;
                Ok (strconv.Sprintf_sharp_x (as_uint x)))
      | _ => None
      end
  | _ => None
  end.

Definition ToString (it : iface) (h : heap) : result string :=
  match ToString_switch it h with
  | Some r => r
  | None =>
      match method Stringer_String it with
      | Some m => m (receiver it) h
      | None =>
          if IfaceIsNil it then Ok "nil"
          else
            let v := NonPtrValue h (ValueOf it) in
            let vk := kind v in
            if kind_in Int Int64 vk
            then Ok (strconv.FormatInt (as_int (val_data v)))
            else if kind_in Uint Uint64 vk
            then Ok (strconv.FormatUint (as_uint (val_data v)))
            else if kind_eqb vk Bool
            then Ok (strconv.FormatBool (as_bool (val_data v)))
            else if kind_in Float32 Float64 vk
            then Ok (FormatFloat (as_float (val_data v)) "G" (-1) 64)
            else if kind_in Complex64 Complex128 vk
            then
              let cv := as_complex (val_data v) in
              Ok (FormatFloat (fst cv) "G" (-1) 64 ++ ","
                  ++ FormatFloat (snd cv) "G" (-1) 64)
            else if kind_eqb vk String
            then Ok (as_string (val_data v))
            else if kind_eqb vk Slice
            then
              eltyp <- SliceElType it ;;
              if kind_eqb (kind_of eltyp) Uint8
              then assert_bytes it
              else Ok (Sprintf_v it h)
            else Ok (Sprintf_v it h)
      end
  end.

Definition ToStringPrec (it : iface) (prec : Z) (h : heap)
  : result string :=
  if IfaceIsNil it then Ok "nil"
  else
    match method Stringer_String it with
    | Some m => m (receiver it) h
    | None =>
        let v := NonPtrValue h (ValueOf it) in
        let vk := kind v in
        if kind_in Int Int64 vk
        then Ok (strconv.FormatInt (as_int (val_data v)))
        else if kind_in Uint Uint64 vk
        then Ok (strconv.FormatUint (as_uint (val_data v)))
        else if kind_eqb vk Bool
        then Ok (strconv.FormatBool (as_bool (val_data v)))
        else if kind_in Float32 Float64 vk
        then Ok (FormatFloat (as_float (val_data v)) "G" prec 64)
        else if kind_in Complex64 Complex128 vk
        then
          let cv := as_complex (val_data v) in
          Ok (FormatFloat (fst cv) "G" prec 64 ++ ","
              ++ FormatFloat (snd cv) "G" prec 64)
        else if kind_eqb vk String
        then Ok (as_string (val_data v))
        else if kind_eqb vk Slice
        then
          eltyp <- SliceElType it ;;
          if kind_eqb (kind_of eltyp) Uint8
          then assert_bytes it
          else Ok (Sprintf_v it h)
        else Ok (Sprintf_v it h)
    end.

(** [NonPtrType(reflect.TypeOf(frm)).Kind()]: calling [Kind] on the nil
    type of the nil interface panics. *)
Definition source_kind (frm : iface) : result Kind :=
  match TypeOf frm with
  | Some t => Ok (kind_of (NonPtrType t))
  | None => Panic
  end.

(** the end of [SetRobust]: "just set it if possible to assign". *)
Definition set_if_assignable (typ : rtype) (dst : Value) (frm : iface)
           (h : heap) : result (bool * heap * list diagnostic) :=
  let fv := ValueOf frm in
  ft <- type_of_value fv ;;
  if AssignableTo ft typ then Ok (true, Set_ h dst fv, [])
  else Ok (false, h, []).

(** the branch shared by struct, slice and map destinations when the
    source is a string: [json.Unmarshal] into [to], a diagnostic on
    failure. *)
Definition set_from_json (vk : Kind) (to frm : iface) (h : heap)
  : result (bool * heap * list diagnostic) :=
  s <- ToString frm h ;;
  let '(ok, h') := json_Unmarshal s to h in
  Ok (ok, h', if ok then [] else [FromStringFailed vk]).

Definition SetRobust (to frm : iface) (h : heap)
  : result (bool * heap * list diagnostic) :=
  if IfaceIsNil to then Ok (false, h, [])
  else
    let v := ValueOf to in
    let vnp := NonPtrValue h v in
    if negb (IsValid vnp) then Ok (false, h, [])
    else
      typ <- type_of_value vnp ;;
      let vp := OnePtrValue h vnp in
      let vk := kind vnp in
      dst <- Elem h vp ;;
      if negb (CanSet dst) then Ok (false, h, [CannotSet])
      else if kind_in Int Int64 vk
      then
        r <- ToInt frm h ;;
        if snd r then Ok (true, Set_ h dst (convert_int typ (fst r)), [])
        else set_if_assignable typ dst frm h
      else if kind_in Uint Uint64 vk
      then
        r <- ToInt frm h ;;
        if snd r then Ok (true, Set_ h dst (convert_int typ (fst r)), [])
        else set_if_assignable typ dst frm h
      else if kind_eqb vk Bool
      then
        r <- ToBool frm h ;;
        if snd r then Ok (true, Set_ h dst (convert_bool typ (fst r)), [])
        else set_if_assignable typ dst frm h
      else if kind_in Float32 Float64 vk
      then
        r <- ToFloat frm h ;;
        if snd r then Ok (true, Set_ h dst (convert_float typ (fst r)), [])
        else set_if_assignable typ dst frm h
      else if kind_in Complex64 Complex128 vk
      then set_if_assignable typ dst frm h
      else if kind_eqb vk String
      then
        fm <- ToString frm h ;;
        Ok (true, Set_ h dst (convert_string typ fm), [])
      else if kind_eqb vk Struct
      then
        fk <- source_kind frm ;;
        if kind_eqb fk String then set_from_json vk to frm h
        else set_if_assignable typ dst frm h
      else if kind_eqb vk Slice
      then
        fk <- source_kind frm ;;
        if kind_eqb fk String then set_from_json vk to frm h
        else
          r <- CopySliceRobust to frm h ;;
          Ok (fst r, snd r, [])
      else if kind_eqb vk Map
      then
        fk <- source_kind frm ;;
        if kind_eqb fk String then set_from_json vk to frm h
        else
          r <- CopyMapRobust to frm h ;;
          Ok (fst r, snd r, [])
      else set_if_assignable typ dst frm h.

End WithHost.

(** *** The wrapper [kit.Type] *)

Record Type_ : Type := { T : option rtype }.

(** the double quote character. *)
Definition dquote : ascii := strconv.chr 34.

Section WithRegistry.

Context {registry : Registry}.

Definition ShortTypeName (k : Type_) : string :=
  match T k with
  | Some t => Types_TypeName t
  | None => EmptyString
  end.

(** [MarshalJSON] gives the bytes; its error is always nil. *)
Definition MarshalJSON (k : Type_) : string :=
  match T k with
  | None => "null"
  | Some _ =>
      String.String dquote
        (ShortTypeName k ++ String.String dquote EmptyString)
  end.

(** [UnmarshalJSON]: the wrapper afterwards and the error, if any. *)
Definition UnmarshalJSON (k : Type_) (b : string)
  : Type_ * option string :=
  if String.eqb b "null" then ({| T := None |}, None)
  else
    let tn := bytes.Trim (bytes.TrimSpace b) [dquote] in
    match Types_Type tn with
    | None =>
        (k, Some ("Type UnmarshalJSON: Types type name not found: " ++ tn))
    | Some typ => ({| T := Some typ |}, None)
    end.

End WithRegistry.

(** *** More of convert.go *)

(** [ValueIsZero].  For a function the source compares the Value with
    [reflect.Zero] of its type: equal when the function is nil and the Value
    is not an addressable one. *)
Definition ValueIsZero (v : Value) : bool :=
  if negb (IsValid v) then true
  else
    match kind v with
    | Array | String => Len v =? 0
    | Bool => negb (as_bool (val_data v))
    | Int | Int8 | Int16 | Int32 | Int64 => as_int (val_data v) =? 0
    | Uint | Uint8 | Uint16 | Uint32 | Uint64 | Uintptr =>
        as_uint (val_data v) =? 0
    | Float32 | Float64 => num.f_is_zero (as_float (val_data v))
    | Interface | Map | Ptr | Slice => IsNil v
    | Func => data_is_nil (val_data v) && negb (CanAddr v)
    | _ => false
    end.

Definition Max32 (a b : num.float32) : num.float32 :=
  if SFltb b a then a else b.

Definition Min32 (a b : num.float32) : num.float32 :=
  if SFltb a b then a else b.

(** "minimum excluding 0". *)
Definition MinPos (a b : num.float64) : num.float64 :=
  if SFltb num.fzero a && SFltb num.fzero b then math.Min a b
  else if SFltb num.fzero a then a
  else if SFltb num.fzero b then b
  else a.

Definition MinPos32 (a b : num.float32) : num.float32 :=
  if SFltb num.fzero a && SFltb num.fzero b then Min32 a b
  else if SFltb num.fzero a then a
  else if SFltb num.fzero b then b
  else a.

(** [CloneToType]: a new variable of type [typ], set from [val] with
    [SetRobust], whose result is dropped; the pointer to the variable is
    returned. *)
Definition CloneToType {host : Host} (typ : rtype) (val : iface) (h : heap)
  : result (Value * heap * list diagnostic) :=
  let '(vn, h1) := New_ h typ in
  evi <- Interface_ vn ;;
  r <- SetRobust evi val h1 ;;
  Ok (vn, snd (fst r), snd r).

(** *** StructTags

    A [map[string]string] is the list of its entries, one for a key;
    [None] is the nil map. *)

Definition smap : Type := list (string * string).

Definition smap_get (m : smap) (k : string) : option string :=
  match find (fun p => String.eqb (fst p) k) m with
  | Some p => Some (snd p)
  | None => None
  end.

(** [m[k] = v] *)
Definition smap_set (m : smap) (k v : string) : smap :=
  (k, v) :: filter (fun p => negb (String.eqb (fst p) k)) m.

(** the body of the loop of [StructTags] for one field. *)
Definition tag_field (m : smap) (fld : string) : smap :=
  let cli := strings.IndexByte fld ":" in
  if (cli <? 0) || (Z.of_nat (String.length fld) <? cli + 3) then m
  else
    let vl := strings.TrimSuffixByte
                (strings.drop (Z.to_nat (cli + 2)) fld) dquote in
    smap_set m (strings.take (Z.to_nat cli) fld) vl.

Definition StructTags (tags : string) : option smap :=
  if Nat.eqb (String.length tags) 0 then None
  else Some (fold_left tag_field (strings.Fields tags) []).

(** *** The XML side of [kit.Type]

    The decoder is what its [Token] calls will return, in order: a token or
    an error, and the error of the end of input when nothing is left.  The
    encoder is a collaborator. *)

Record Name : Type := { Space : string; Local : string }.

Inductive Token : Type :=
| StartElement (name : Name) (attr : list (Name * string))
| EndElement (name : Name)
| CharData (data : string)
| OtherToken (descr : string).

Inductive read : Type :=
| Tok (t : Token)
| Fail (err : string).

Definition Decoder : Type := list read.

(** the errors [UnmarshalXML] returns: one of the decoder, or one of the
    three messages the function formats. *)
Inductive xml_error : Type :=
| DecoderError (err : string)
| NameNotFound (tn : string)
| EndElementMismatch (et start : Name)
| NotEndElement.

(** [d.Token()] *)
Definition next_token (d : Decoder) : (Token + string) * Decoder :=
  match d with
  | [] => (inr "EOF", [])
  | Tok t :: d' => (inl t, d')
  | Fail e :: d' => (inr e, d')
  end.

Definition name_eqb (a b : Name) : bool :=
  String.eqb (Space a) (Space b) && String.eqb (Local a) (Local b).

Class Encoder : Type := {
  encoder : Type;
  EncodeToken : encoder -> Token -> encoder * option string;
  Flush : encoder -> encoder * option string
}.

Fixpoint encode_tokens {enc : Encoder} (e : encoder) (tokens : list Token)
  : encoder * option string :=
  match tokens with
  | [] => (e, None)
  | t :: rest =>
      match EncodeToken e t with
      | (e', Some err) => (e', Some err)
      | (e', None) => encode_tokens e' rest
      end
  end.

Section WithRegistryXML.

Context {registry : Registry}.

(** [String(k)] *)
Definition String_ (k : Type_) : string :=
  match T k with
  | None => "nil"
  | Some _ => ShortTypeName k
  end.

(** the tokens [MarshalXML] builds. *)
Definition xml_tokens (k : Type_) (name : Name) (attr : list (Name * string))
  : list Token :=
  [StartElement name attr;
   CharData (match T k with None => "null" | Some _ => ShortTypeName k end);
   EndElement name].

Definition MarshalXML {enc : Encoder} (k : Type_) (e : encoder)
           (name : Name) (attr : list (Name * string))
  : encoder * option string :=
  match encode_tokens e (xml_tokens k name attr) with
  | (e', Some err) => (e', Some err)
  | (e', None) => Flush e'
  end.

(** [UnmarshalXML]: the wrapper and the decoder afterwards, and the error. *)
Definition UnmarshalXML (k : Type_) (d : Decoder) (start : Name)
  : Type_ * Decoder * option xml_error :=
  match next_token d with
  | (inr err, d1) => (k, d1, Some (DecoderError err))
  | (inl (CharData ct), d1) =>
      let tn := bytes.TrimSpace ct in
      let looked :=
        if String.eqb tn "null" then inl {| T := None |}
        else
          match Types_Type tn with
          | None => inr (NameNotFound tn)
          | Some typ => inl {| T := Some typ |}
          end in
      match looked with
      | inr err => (k, d1, Some err)
      | inl k' =>
          match next_token d1 with
          | (inr err, d2) => (k', d2, Some (DecoderError err))
          | (inl (EndElement et), d2) =>
              if negb (name_eqb et start)
              then (k', d2, Some (EndElementMismatch et start))
              else (k', d2, None)
          | (inl _, d2) => (k', d2, Some NotEndElement)
          end
      end
  | (inl _, d1) => (k, d1, Some NotEndElement)
  end.

End WithRegistryXML.

End kit.

(** ** The integer literals of [strconv.ParseInt] with base 0

    A second description of the strings [ParseInt(s, 0, 64)] accepts and of
    the numbers they write, after the documentation of the function and the
    syntax of Go's integer literals, not after its code: an optional sign;
    the base by the prefix, 2 for [0b], 8 for [0o] or a leading [0], 16 for
    [0x], and 10 otherwise; then digits of that base, where one underscore
    may stand between two digits, or between the prefix and the first
    digit. *)

Module literal.

(** the value of a digit of the base: [0]-[9], [a]-[f] or [A]-[F]. *)
Definition digit_value (base : Z) (c : ascii) : option Z :=
  let n := strconv.code c in
  let v :=
    if (48 <=? n) && (n <=? 57) then n - 48
    else if (97 <=? n) && (n <=? 102) then n - 87
    else if (65 <=? n) && (n <=? 70) then n - 55
    else base in
  if v <? base then Some v else None.

(** the number a string of digits writes, the most significant digit
    first, after the digits that gave [acc]. *)
Fixpoint number (base : Z) (s : string) (acc : Z) : option Z :=
  match s with
  | EmptyString => Some acc
  | String c s' =>
      match digit_value base c with
      | Some d => number base s' (acc * base + d)
      | None => None
      end
  end.

(** what stands between the underscores of [s]: the first group and the
    groups after each underscore. *)
Fixpoint groups (s : string) : string * list string :=
  match s with
  | EmptyString => (EmptyString, [])
  | String c s' =>
      let '(g, gs) := groups s' in
      if Ascii.eqb c "_" then (EmptyString, g :: gs) else (String c g, gs)
  end.

Fixpoint flat (gs : list string) : string :=
  match gs with
  | [] => EmptyString
  | g :: gs' => g ++ flat gs'
  end.

Definition nonempty (s : string) : bool :=
  match s with
  | EmptyString => false
  | String _ _ => true
  end.

(** digits with underscores: every underscore is followed by a digit, and
    preceded by a digit or, right after a prefix, by the prefix; there is
    at least one digit. *)
Definition digits (base : Z) (after_prefix : bool) (s : string) : option Z :=
  let '(g, gs) := groups s in
  if (nonempty g || (after_prefix && negb (Nat.eqb (List.length gs) 0)))
     && forallb nonempty gs
  then number base (g ++ flat gs) 0
  else None.

Definition prefix_base (c : ascii) : option Z :=
  if Ascii.eqb c "x" || Ascii.eqb c "X" then Some 16
  else if Ascii.eqb c "b" || Ascii.eqb c "B" then Some 2
  else if Ascii.eqb c "o" || Ascii.eqb c "O" then Some 8
  else None.

Definition unsigned (s : string) : option Z :=
  match s with
  | EmptyString => None
  | String c0 rest =>
      if Ascii.eqb c0 "0"
      then
        match rest with
        | String c1 r =>
            match prefix_base c1 with
            | Some base => digits base true r
            | None => digits 8 false s
            end
        | EmptyString => Some 0
        end
      else digits 10 false s
  end.

Definition int_literal (s : string) : option Z :=
  match s with
  | EmptyString => None
  | String c r =>
      if Ascii.eqb c "+" then unsigned r
      else if Ascii.eqb c "-" then option_map Z.opp (unsigned r)
      else unsigned s
  end.

(** The narrower grammar: a prefix [0x] for hexadecimal, a leading [0] for
    octal, decimal otherwise, after an optional sign, with no other prefix
    and no underscore. *)
Definition plain_digits (base : Z) (s : string) : option Z :=
  if nonempty s then number base s 0 else None.

Definition plain_unsigned (s : string) : option Z :=
  match s with
  | EmptyString => None
  | String c0 rest =>
      if Ascii.eqb c0 "0"
      then
        match rest with
        | String c1 r =>
            if Ascii.eqb c1 "x" || Ascii.eqb c1 "X" then plain_digits 16 r
            else plain_digits 8 s
        | EmptyString => Some 0
        end
      else plain_digits 10 s
  end.

Definition plain_literal (s : string) : option Z :=
  match s with
  | EmptyString => None
  | String c r =>
      if Ascii.eqb c "+" then plain_unsigned r
      else if Ascii.eqb c "-" then option_map Z.opp (plain_unsigned r)
      else plain_unsigned s
  end.



End literal.

(** ** Notions the properties are stated with *)

Module prop.

Import reflect.

(** the interface value that holds the string [s]. *)
Definition of_string (s : string) : iface := Some (TBasic String, VString s).

(** [conv(ToString(it))]: a value is rendered, the text is converted. *)
Definition via_string {host : kit.Host} {A : Type}
           (conv : iface -> heap -> result A) (it : iface) (h : heap)
  : result A :=
  s <- kit.ToString it h ;; conv (of_string s) h.

(** A value of type [t] that holds [d] designates a variable: it is a
    pointer that is not nil, to a variable that is not a pointer, or to a
    pointer that designates a variable in turn; [n] bounds the pointers
    that are followed. *)
Fixpoint designates (n : nat) (h : heap) (t : rtype) (d : data) : bool :=
  match n with
  | O => false
  | S n' =>
      kind_eqb (kind_of t) Ptr
      && match as_ptr d with
         | Some a =>
             negb (kind_eqb (kind_of (type_elem t)) Ptr)
             || designates n' h (type_elem t) (load h a)
         | None => false
         end
  end.

(** [to] is a reference to a settable location: what the caller passes
    designates a variable.  The nil interface, a value that is not a pointer
    (a constant, a temporary: it has no address), a nil pointer and a
    pointer whose chain ends in a nil pointer are not. *)
Definition settable_destination (to : iface) (h : heap) : bool :=
  match to with
  | Some (t, d) => designates (ptr_depth t) h t d
  | None => false
  end.

(** The destination [SetRobust] writes to, when its prologue accepts [to]:
    the static type and the settable variable. *)
Definition destination {host : kit.Host} (to : iface) (h : heap)
  : option (rtype * Value) :=
  if kit.IfaceIsNil to then None
  else
    match kit.NonPtrValue h (ValueOf to) with
    | Zero => None
    | Val typ d loc =>
        match Elem h (kit.OnePtrValue h (Val typ d loc)) with
        | Ok dst => if CanSet dst then Some (typ, dst) else None
        | Panic => None
        end
    end.

Definition is_complex (t : rtype) : bool :=
  kind_in Complex64 Complex128 (kind_of t).

(** the dynamic type is [uintptr] or [*uintptr]. *)
Definition is_uintptr (it : iface) : bool :=
  match it with
  | Some (TBasic Uintptr, _) | Some (TPtr (TBasic Uintptr), _) => true
  | _ => false
  end.


(** a pointer type the type switch of [ToString] has a case for. *)
Definition switched_pointer (it : iface) : bool :=
  match it with
  | Some (TPtr (TBasic k), _) =>
      match k with
      | String | Bool | Int | Int32 | Int64 | Uint8 | Float64 | Float32
      | Uintptr => true
      | _ => false
      end
  | _ => false
  end.

(** the nil inputs for which [ToString] does not get to its guard
    [IfaceIsNil]: a nil pointer its type switch has a case for, which it
    dereferences, and a nil value with a [String] method, which it calls. *)
Definition nil_before_guard {host : kit.Host} (it : iface) : bool :=
  kit.IfaceIsNil it
  && (switched_pointer it
      || match kit.method kit.Stringer_String it with
         | Some _ => true
         | None => false
         end).

(** the bit size at which [ToString] formats a float: 32 for a [float32]
    and a [*float32], which its type switch names, 64 everywhere else. *)
Definition shortest_bits (it : iface) : Z :=
  match it with
  | Some (TBasic Float32, _) | Some (TPtr (TBasic Float32), _) => 32
  | _ => 64
  end.

(** every character of [s] passes the test [f]. *)
Fixpoint all_chars (f : ascii -> bool) (s : string) : bool :=
  match s with
  | String.String c s' => f c && all_chars f s'
  | EmptyString => true
  end.








(** a name that [Trim] with the double quote would leave as it is: it
    neither starts nor ends with a double quote. *)
Definition unquoted (n : string) : Prop := bytes.Trim n [kit.dquote] = n.

(** what a result of [SetRobust] on the variable at [a] may be, when only
    that variable is written. *)
Definition frame_of (h : heap) (a : addr)
           (r : result (bool * heap * list kit.diagnostic)) : Prop :=
  match r with
  | Panic => True
  | Ok (ok, h', log) =>
      List.length h' = List.length h
      /\ (forall a', a' <> a -> load h' a' = load h a')
      /\ (ok = false -> h' = h)
      /\ log = []
  end.

(** a struct tag as it is written: the key, a colon and the value between
    double quotes; several of them with a space in between. *)
Definition render_tag (kv : string * string) : string :=
  fst kv ++ String.String ":"
      (String.String kit.dquote (snd kv ++ String.String kit.dquote EmptyString)).

Fixpoint join_tags (kvs : list (string * string)) : string :=
  match kvs with
  | [] => EmptyString
  | [kv] => render_tag kv
  | kv :: rest => render_tag kv ++ String.String " " (join_tags rest)
  end.

(** the characters of a tag: ASCII, and for [no_space] none of the white
    space [strings.Fields] splits at; a key has no colon either. *)
Definition ascii_char (c : ascii) : bool := strconv.code c <? 128.

Definition no_space (c : ascii) : bool :=
  ascii_char c && negb (bytes.isSpace c).

Definition key_char (c : ascii) : bool :=
  no_space c && negb (Ascii.eqb c ":").

Definition plain_tag (kv : string * string) : bool :=
  all_chars key_char (fst kv) && all_chars no_space (snd kv).

End prop.

(** ** A host without user methods, for closed examples

    Its float formatter writes zeros, infinities and NaN as Go does and a
    finite number as mantissa, [p] and exponent (the ['b'] format of Go); its
    parser knows the zeros, the infinities and NaN.  Nothing implements an
    interface but the empty one, and [json.Unmarshal] and the copy helpers
    fail and leave the heap alone. *)

Module sample.

Import reflect.

Definition format_float (f : spec_float) (fmt : ascii) (prec bits : Z)
  : string :=
  match f with
  | S754_zero false => "0"
  | S754_zero true => "-0"
  | S754_infinity false => "+Inf"
  | S754_infinity true => "-Inf"
  | S754_nan => "NaN"
  | S754_finite s m e =>
      (if s then "-" else EmptyString)
        ++ strconv.FormatUint (Zpos m) ++ "p" ++ strconv.FormatInt e
  end.

Definition parse_float (s : string) (bits : Z) : option spec_float :=
  if String.eqb s "0" then Some (S754_zero false)
  else if String.eqb s "-0" then Some (S754_zero true)
  else if String.eqb s "+Inf" then Some (S754_infinity false)
  else if String.eqb s "-Inf" then Some (S754_infinity true)
  else if String.eqb s "NaN" then Some S754_nan
  else None.

#[export] Instance host : kit.Host := {|
  kit.FormatFloat := format_float;
  kit.ParseFloat := parse_float;
  kit.Sprintf_v_other := fun _ _ => "?";
  kit.Stringer_String := fun _ => None;
  kit.Inter_Int := fun _ => None;
  kit.Floater_Float := fun _ => None;
  kit.implements :=
    fun u _ => rtype_eqb u (TInterface "interface {}");
  kit.json_Unmarshal := fun _ _ h => (false, h);
  kit.CopySliceRobust := fun _ _ h => Ok (false, h);
  kit.CopyMapRobust := fun _ _ h => Ok (false, h)
|}.

(** The same host with one user type that has a [String] method:
    [Duration], an [int64] whose method writes the number and its unit (as
    [time.Duration] writes 5 as [5ns]). *)
Definition Duration : rtype := TNamed "time.Duration" (TBasic Int64).

Definition Duration_String (d : data) (h : heap) : result string :=
  Ok (strconv.FormatInt (as_int d) ++ "ns").

Definition host_with_String : kit.Host := {|
  kit.FormatFloat := format_float;
  kit.ParseFloat := parse_float;
  kit.Sprintf_v_other := fun _ _ => "?";
  kit.Stringer_String :=
    fun t => if rtype_eqb t Duration then Some Duration_String else None;
  kit.Inter_Int := fun _ => None;
  kit.Floater_Float := fun _ => None;
  kit.implements :=
    fun u _ => rtype_eqb u (TInterface "interface {}");
  kit.json_Unmarshal := fun _ _ h => (false, h);
  kit.CopySliceRobust := fun _ _ h => Ok (false, h);
  kit.CopyMapRobust := fun _ _ h => Ok (false, h)
|}.

(** a registry of three types. *)
Definition type_name (t : rtype) : string :=
  match t with
  | TNamed n _ => n
  | TBasic Int => "int"
  | TBasic String => "string"
  | _ => "?"
  end.

Definition type_of_name (n : string) : option rtype :=
  if String.eqb n "int" then Some (TBasic Int)
  else if String.eqb n "string" then Some (TBasic String)
  else if String.eqb n "kit.Type" then Some (TNamed "kit.Type" (TStruct "T"))
  else None.

#[export] Instance registry : kit.Registry := {|
  kit.Types_TypeName := type_name;
  kit.Types_Type := type_of_name
|}.

(** some values *)
Definition nil_ptr (k : Kind) : iface := Some (TPtr (TBasic k), VPtr None).
Definition ptr_to (t : rtype) (a : addr) : iface :=
  Some (TPtr t, VPtr (Some a)).
Definition f64 (n : Z) : spec_float := num.f64_of_Z n.

(** an encoder that takes every token and keeps them in order. *)
#[export] Instance recorder : kit.Encoder := {|
  kit.encoder := list kit.Token;
  kit.EncodeToken := fun e t => ((e ++ [t])%list, None);
  kit.Flush := fun e => (e, None)
|}.

End sample.

(** * Properties *)

(** Closed examples run on the sample host and registry. *)
#[local] Existing Instance sample.host.
#[local] Existing Instance sample.registry.

(** ** Package bools *)

(** C10: for every boolean [b] and each of the six targets, converting [b]
    and converting back gives [b]; [FromString] takes only the text [true]
    for true, so [True] and [1] give false. *)
Theorem bools_roundtrip (b : bool) :
  bools.FromFloat32 (bools.ToFloat32 b) = b
  /\ bools.FromFloat64 (bools.ToFloat64 b) = b
  /\ bools.FromInt (bools.ToInt b) = b
  /\ bools.FromInt32 (bools.ToInt32 b) = b
  /\ bools.FromInt64 (bools.ToInt64 b) = b
  /\ bools.FromString (bools.ToString b) = b
  /\ bools.FromString "True" = false
  /\ bools.FromString "1" = false
  /\ (forall s, bools.FromString s = true <-> s = "true").
Proof.
  repeat split; try (destruct b; reflexivity).
  - unfold bools.FromString.
    destruct (String.eqb_spec s "true"); congruence.
  - intros ->. reflexivity.
Qed.

(** ** Text to bool and to int *)

Lemma existsb_eqb_In (s : string) (l : list string) :
  existsb (String.eqb s) l = true <-> In s l.
Proof.
  rewrite existsb_exists. split.
  - intros [x [Hin Heq]]. apply String.eqb_eq in Heq. subst. exact Hin.
  - intros Hin. exists s. split; [exact Hin | apply String.eqb_refl].
Qed.

Lemma ParseBool_true (s : string) :
  strconv.ParseBool s = Some true
  <-> In s ["1"; "t"; "T"; "true"; "TRUE"; "True"].
Proof.
  unfold strconv.ParseBool. rewrite <- existsb_eqb_In.
  destruct (existsb (String.eqb s) ["1"; "t"; "T"; "true"; "TRUE"; "True"]).
  - tauto.
  - destruct (existsb _ _); split; discriminate.
Qed.

Lemma ParseBool_false (s : string) :
  strconv.ParseBool s = Some false
  <-> In s ["0"; "f"; "F"; "false"; "FALSE"; "False"].
Proof.
  unfold strconv.ParseBool. rewrite <- existsb_eqb_In.
  destruct (existsb (String.eqb s) ["1"; "t"; "T"; "true"; "TRUE"; "True"])
    eqn:Ht.
  - split; [discriminate |].
    intros Hf. apply existsb_eqb_In in Ht. apply existsb_eqb_In in Hf.
    simpl in Ht, Hf. exfalso.
    repeat (destruct Ht as [Ht | Ht]; [subst s; intuition discriminate |]).
    exact Ht.
  - destruct (existsb (String.eqb s)
                      ["0"; "f"; "F"; "false"; "FALSE"; "False"]);
      split; intros; congruence.
Qed.

(** C8: on a string, [ToBool] is the boolean-literal parser of the host
    library: the flag is true exactly on the twelve literals of
    [strconv.ParseBool], where the value is the parsed one; every other
    string gives (false, false).  So [true] gives (true, true) and [yes]
    gives (false, false). *)
Theorem ToBool_string_literals (host : kit.Host) (h : reflect.heap)
        (s : string) :
  kit.ToBool (prop.of_string "true") h = Ok (true, true)
  /\ kit.ToBool (prop.of_string "yes") h = Ok (false, false)
  /\ exists b ok : bool,
      kit.ToBool (prop.of_string s) h = Ok (b, ok)
      /\ (b = true <-> In s ["1"; "t"; "T"; "true"; "TRUE"; "True"])
      /\ (ok = true <->
          In s ["1"; "t"; "T"; "true"; "TRUE"; "True";
                "0"; "f"; "F"; "false"; "FALSE"; "False"]).
Proof.
  split; [reflexivity | split; [reflexivity |]].
  change (kit.ToBool (prop.of_string s) h) with (Ok (kit.parse_bool s)).
  unfold kit.parse_bool.
  pose proof (ParseBool_true s) as Ht.
  pose proof (ParseBool_false s) as Hf.
  change ["1"; "t"; "T"; "true"; "TRUE"; "True";
          "0"; "f"; "F"; "false"; "FALSE"; "False"]
    with (["1"; "t"; "T"; "true"; "TRUE"; "True"]
            ++ ["0"; "f"; "F"; "false"; "FALSE"; "False"])%list.
  destruct (strconv.ParseBool s) as [[|]|].
  - exists true, true. split; [reflexivity |].
    rewrite in_app_iff. tauto.
  - exists false, true. split; [reflexivity |].
    rewrite in_app_iff. split; [| tauto].
    split; [discriminate |]. intros Hin. apply Ht in Hin. discriminate.
  - exists false, false. split; [reflexivity |].
    rewrite in_app_iff. split.
    + split; [discriminate |]. intros Hin. apply Ht in Hin. discriminate.
    + split; [discriminate |]. intros [Hin | Hin].
      * apply Ht in Hin. discriminate.
      * apply Hf in Hin. discriminate.
Qed.

(** ** Decimal text of 64-bit integers *)

Lemma code_chr (z : Z) : 0 <= z < 256 -> strconv.code (strconv.chr z) = z.
Proof.
  intros Hz. unfold strconv.code, strconv.chr.
  rewrite N_ascii_embedding by lia. lia.
Qed.

Lemma code_digit (d : Z) :
  0 <= d < 10 -> strconv.code (strconv.digit d) = 48 + d.
Proof. intros Hd. unfold strconv.digit. apply code_chr. lia. Qed.

(** one round of the digit loop, on a decimal digit that fits. *)
Lemma parse_loop_digit (base0 : bool) (cutoff maxVal d n : Z) (s : string)
      (u : bool) :
  0 <= d < 10 -> 0 <= n < cutoff -> n * 10 + d <= maxVal ->
  maxVal < 2 ^ 64 ->
  strconv.parse_loop base0 10 cutoff maxVal
                     (String (strconv.digit d) s) n u
  = strconv.parse_loop base0 10 cutoff maxVal s (n * 10 + d) u.
Proof.
  intros Hd Hn Hfit Hmax. cbn [strconv.parse_loop].
  rewrite (code_digit d Hd).
  replace (48 + d =? 95) with false by lia.
  replace ((48 <=? 48 + d) && (48 + d <=? 57)) with true
    by (symmetry; apply andb_true_iff; lia).
  cbn [andb]. replace (48 + d - 48) with d by lia.
  replace (10 <=? d) with false by lia.
  replace (cutoff <=? n) with false by lia.
  unfold num.wrap_unsigned.
  rewrite (Z.mod_small (n * 10)) by lia.
  rewrite (Z.mod_small (n * 10 + d)) by lia.
  replace (n * 10 + d <? n * 10) with false by lia.
  replace (maxVal <? n * 10 + d) with false by lia.
  reflexivity.
Qed.

Lemma parse_format_digits (fuel : nat) :
  forall (n : Z) (acc : string) (u : bool),
    0 <= n -> n < 10 ^ Z.of_nat fuel -> n <= 18446744073709551615 ->
    strconv.parse_loop true 10 1844674407370955162 18446744073709551615
                       (strconv.format_digits fuel n acc) 0 u
    = strconv.parse_loop true 10 1844674407370955162 18446744073709551615
                         acc n u.
Proof.
  induction fuel as [| fuel IH]; intros n acc u Hn Hlt Hmax.
  - change (10 ^ Z.of_nat 0) with 1 in Hlt.
    replace n with 0 by lia. reflexivity.
  - cbn [strconv.format_digits].
    rewrite Nat2Z.inj_succ, Z.pow_succ_r in Hlt by lia.
    destruct (Z.ltb_spec n 10) as [Hsmall | Hbig].
    + rewrite parse_loop_digit by (try lia; reflexivity).
      reflexivity.
    + pose proof (Z.div_mod n 10 ltac:(lia)) as Hdm.
      pose proof (Z.mod_pos_bound n 10 ltac:(lia)) as Hm.
      assert (Hq : n / 10 < 10 ^ Z.of_nat fuel)
        by (apply Z.div_lt_upper_bound; lia).
      rewrite IH by lia.
      rewrite parse_loop_digit by (try lia; reflexivity).
      f_equal. lia.
Qed.

Lemma format_digits_head (fuel : nat) :
  forall (n : Z) (acc : string),
    0 < n -> n < 10 ^ Z.of_nat fuel ->
    exists d rest,
      1 <= d <= 9
      /\ strconv.format_digits fuel n acc = String (strconv.digit d) rest.
Proof.
  induction fuel as [| fuel IH]; intros n acc Hn Hlt.
  - change (10 ^ Z.of_nat 0) with 1 in Hlt. lia.
  - cbn [strconv.format_digits].
    rewrite Nat2Z.inj_succ, Z.pow_succ_r in Hlt by lia.
    destruct (Z.ltb_spec n 10) as [Hsmall | Hbig].
    + exists n, acc. split; [lia | reflexivity].
    + pose proof (Z.div_mod n 10 ltac:(lia)) as Hdm.
      pose proof (Z.mod_pos_bound n 10 ltac:(lia)) as Hm.
      apply IH; [lia | apply Z.div_lt_upper_bound; lia].
Qed.

Lemma ParseUint_FormatUint (n : Z) :
  0 <= n <= num.maxUint64 ->
  strconv.ParseUint (strconv.FormatUint n) 0 64 = strconv.NumOk n.
Proof.
  change num.maxUint64 with 18446744073709551615. intros Hn.
  destruct (Z.eq_dec n 0) as [-> | Hnz]; [reflexivity |].
  assert (Hlt : n < 10 ^ Z.of_nat 20)
    by (change (10 ^ Z.of_nat 20) with 100000000000000000000; lia).
  destruct (format_digits_head 20 n EmptyString ltac:(lia) Hlt)
    as [d [rest [Hd Heq]]].
  pose proof (parse_format_digits 20 n EmptyString false
                ltac:(lia) Hlt ltac:(lia)) as Hloop.
  unfold strconv.FormatUint. unfold strconv.ParseUint.
  rewrite Heq in *.
  rewrite (code_digit d) by lia.
  replace (48 + d =? 48) with false by lia.
  change (0 =? 0) with true. cbv iota beta.
  change (64 =? 0) with false. cbv iota beta.
  change (num.maxUint64 / 10 + 1) with 1844674407370955162.
  change (2 ^ 64 - 1) with 18446744073709551615.
  rewrite Hloop. reflexivity.
Qed.

Lemma wrap_signed_64 (n : Z) :
  - 2 ^ 63 <= n < 2 ^ 63 -> num.wrap_signed 64 n = n.
Proof.
  unfold num.wrap_signed.
  change (2 ^ (64 - 1)) with 9223372036854775808.
  change (2 ^ 63) with 9223372036854775808.
  change (2 ^ 64) with 18446744073709551616.
  intros Hn.
  pose proof (Z.div_mod n 18446744073709551616 ltac:(lia)) as Hdm.
  pose proof (Z.mod_pos_bound n 18446744073709551616 ltac:(lia)) as Hm.
  destruct (Z.ltb_spec (n mod 18446744073709551616) 9223372036854775808);
    lia.
Qed.

Lemma wrap_signed_64_min :
  num.wrap_signed 64 (2 ^ 63) = - 2 ^ 63.
Proof. reflexivity. Qed.

(** The decimal text of a 64-bit integer is read back by [ParseInt] with
    base 0: it never starts with a zero followed by more digits. *)
Lemma ParseInt_FormatInt (n : Z) :
  num.is_int64 n = true ->
  strconv.ParseInt (strconv.FormatInt n) 0 64 = strconv.NumOk n.
Proof.
  unfold num.is_int64, num.minInt64, num.maxInt64.
  intros Hn. apply andb_true_iff in Hn.
  assert (Hr : - 2 ^ 63 <= n <= 2 ^ 63 - 1) by lia. clear Hn.
  change (2 ^ 63) with 9223372036854775808 in Hr.
  unfold strconv.FormatInt.
  destruct (Z.ltb_spec n 0) as [Hneg | Hpos].
  - unfold strconv.ParseInt.
    change (strconv.code "-" =? 43) with false.
    change (strconv.code "-" =? 45) with true. cbv iota beta.
    rewrite ParseUint_FormatUint
      by (change num.maxUint64 with 18446744073709551615; lia).
    change (64 =? 0) with false. cbv iota beta.
    change (2 ^ (64 - 1)) with 9223372036854775808.
    cbn [negb andb].
    replace (9223372036854775808 <? - n) with false by lia.
    destruct (Z.eq_dec n (- 9223372036854775808)) as [-> | Hne].
    + reflexivity.
    + rewrite (wrap_signed_64 (- n))
        by (change (2 ^ 63) with 9223372036854775808; lia).
      rewrite Z.opp_involutive.
      rewrite wrap_signed_64
        by (change (2 ^ 63) with 9223372036854775808; lia).
      reflexivity.
  - destruct (Z.eq_dec n 0) as [-> | Hnz]; [reflexivity |].
    assert (Hlt : n < 10 ^ Z.of_nat 20)
      by (change (10 ^ Z.of_nat 20) with 100000000000000000000; lia).
    destruct (format_digits_head 20 n EmptyString ltac:(lia) Hlt)
      as [d [rest [Hd Heq]]].
    pose proof (ParseUint_FormatUint n) as HU.
    unfold strconv.FormatUint in *. unfold strconv.ParseInt.
    rewrite Heq in *.
    rewrite (code_digit d) by lia.
    replace (48 + d =? 43) with false by lia.
    replace (48 + d =? 45) with false by lia.
    cbv iota beta.
    rewrite HU by (change num.maxUint64 with 18446744073709551615; lia).
    change (64 =? 0) with false. cbv iota beta.
    change (2 ^ (64 - 1)) with 9223372036854775808.
    cbn [negb andb].
    replace (9223372036854775808 <=? n) with false by lia.
    rewrite wrap_signed_64
      by (change (2 ^ 63) with 9223372036854775808; lia).
    reflexivity.
Qed.

(** ** The grammar of ParseInt

    [strconv.ParseInt] with base 0 against the grammar of module
    [literal]. *)

(** *** Characters, case by case *)

Ltac each_char c :=
  destruct c as [[] [] [] [] [] [] [] []]; vm_compute; reflexivity.








(** *** The digit loop *)






(** *** Underscores *)





(** *** ParseUint *)




(** a letter of a prefix is no octal digit and no underscore. *)
Lemma prefix_letter_no_digit (c : ascii) :
  match literal.prefix_base c with
  | Some _ =>
      match literal.digit_value 8 c with
      | Some _ => false
      | None => negb (Ascii.eqb c "_")
      end
  | None => true
  end = true.
Proof. each_char c. Qed.













(** *** The narrower grammar *)

Lemma number_groups (base : Z) (s : string) :
  forall acc v,
    literal.number base s acc = Some v -> literal.groups s = (s, []).
Proof.
  induction s as [| c s IH]; intros acc v H; [reflexivity |].
  cbn [literal.number] in H. cbn [literal.groups].
  destruct (literal.digit_value base c) as [d |] eqn:Ed; [| discriminate H].
  rewrite (IH _ _ H).
  destruct (Ascii.eqb c "_") eqn:Eus; [| reflexivity].
  apply Ascii.eqb_eq in Eus. subst c. exfalso.
  unfold literal.digit_value in Ed. cbn in Ed.
  rewrite Z.ltb_irrefl in Ed. discriminate Ed.
Qed.

Lemma append_empty (s : string) : s ++ EmptyString = s.
Proof. induction s as [| c s IH]; cbn; [| rewrite IH]; reflexivity. Qed.

Lemma plain_digits_digits (base : Z) (lead : bool) (s : string) (v : Z) :
  literal.plain_digits base s = Some v ->
  literal.digits base lead s = Some v.
Proof.
  unfold literal.plain_digits, literal.digits.
  destruct (literal.nonempty s) eqn:Es; [| discriminate].
  intros H. rewrite (number_groups base s 0 v H), Es.
  cbn [orb forallb andb literal.flat]. rewrite append_empty. exact H.
Qed.

Lemma plain_unsigned_unsigned (s : string) (v : Z) :
  literal.plain_unsigned s = Some v -> literal.unsigned s = Some v.
Proof.
  destruct s as [| c0 rest]; [discriminate |].
  unfold literal.plain_unsigned, literal.unsigned.
  destruct (Ascii.eqb c0 "0") eqn:E0; [| apply plain_digits_digits].
  destruct rest as [| c1 r]; [exact (fun H => H) |].
  destruct (Ascii.eqb c1 "x" || Ascii.eqb c1 "X") eqn:Ex.
  - unfold literal.prefix_base. rewrite Ex. apply plain_digits_digits.
  - intros H. pose proof (prefix_letter_no_digit c1) as Hp.
    destruct (literal.prefix_base c1) as [b |];
      [| exact (plain_digits_digits 8 false _ v H)].
    exfalso. unfold literal.plain_digits in H. cbn [literal.nonempty] in H.
    cbn [literal.number] in H.
    destruct (literal.digit_value 8 c0); [| discriminate H].
    destruct (literal.digit_value 8 c1); discriminate.
Qed.

(** a literal of the narrower grammar is one of the grammar of [ParseInt]
    and writes the same number. *)
Lemma plain_literal_literal (s : string) (n : Z) :
  literal.plain_literal s = Some n -> literal.int_literal s = Some n.
Proof.
  destruct s as [| c rest]; [discriminate |].
  unfold literal.plain_literal, literal.int_literal.
  destruct (Ascii.eqb c "+"); [apply plain_unsigned_unsigned |].
  destruct (Ascii.eqb c "-"); [| apply plain_unsigned_unsigned].
  destruct (literal.plain_unsigned rest) as [v |] eqn:E; [| discriminate].
  rewrite (plain_unsigned_unsigned rest v E). exact (fun H => H).
Qed.


(** a binary literal and a number with an underscore are no literals of the
    narrower grammar (hexadecimal by [0x], octal by a leading [0], decimal
    otherwise), and [ToInt] reads them. *)
Lemma ToInt_binary_literal_counterexample :
  literal.plain_literal "0b11" = None
  /\ kit.ToInt (prop.of_string "0b11") [] = Ok (3, true)
  /\ literal.plain_literal "1_000" = None
  /\ kit.ToInt (prop.of_string "1_000") [] = Ok (1000, true).
Proof. repeat split. Qed.

(** ** Pointer chains *)

Lemma ptr_depth_kind (t : reflect.rtype) :
  reflect.ptr_depth t = O <-> reflect.kind_of t <> reflect.Ptr.
Proof.
  induction t as [k | n u IH | e _ | e _ | l e _ | k _ e _ | e _ | s | s | s];
    cbn; try (split; [discriminate | reflexivity]); try exact IH.
  - split; [| reflexivity]. intros _.
    destruct (reflect.predeclared k) eqn:Hk; [| discriminate].
    destruct k; try discriminate; discriminate Hk.
  - split; [discriminate | congruence].
Qed.

Lemma type_elem_depth (t : reflect.rtype) :
  reflect.kind_of t = reflect.Ptr ->
  reflect.ptr_depth t = S (reflect.ptr_depth (reflect.type_elem t)).
Proof.
  induction t as [k | n u IH | e _ | e _ | l e _ | k _ e _ | e _ | s | s | s];
    cbn [reflect.kind_of reflect.ptr_depth]; try discriminate.
  - destruct (reflect.predeclared k) eqn:Hk; [| discriminate].
    destruct k; try discriminate; discriminate Hk.
  - exact IH.
  - reflexivity.
Qed.

Lemma NonPtrValue_loop_not_pointer (h : reflect.heap) (n : nat) :
  forall v : reflect.Value,
    (kit.value_depth v <= n)%nat ->
    reflect.kind (kit.NonPtrValue_loop n h v) <> reflect.Ptr.
Proof.
  induction n as [| n IH]; intros v Hd; cbn [kit.NonPtrValue_loop].
  - destruct v as [| t d loc]; [discriminate |].
    cbn [kit.value_depth] in Hd. cbn [reflect.kind].
    apply ptr_depth_kind. lia.
  - destruct (reflect.kind v) eqn:Hk; try (rewrite Hk; discriminate).
    apply IH.
    destruct v as [| t d loc]; [discriminate Hk |].
    cbn [reflect.kind] in Hk. cbn [kit.value_depth] in Hd.
    rewrite (type_elem_depth t Hk) in Hd.
    cbn [reflect.ptr_elem]. destruct (reflect.as_ptr d); cbn; lia.
Qed.

(** the loop of [NonPtrValue] ends: the pointer layers of the type are
    rounds enough, and what comes out is not a pointer. *)
Lemma NonPtrValue_not_pointer (h : reflect.heap) (v : reflect.Value) :
  reflect.kind (kit.NonPtrValue h v) <> reflect.Ptr.
Proof. apply NonPtrValue_loop_not_pointer. apply Nat.le_refl. Qed.

Lemma kind_eqb_eq (a b : reflect.Kind) :
  reflect.kind_eqb a b = true <-> a = b.
Proof.
  split; [| intros ->; apply Z.eqb_refl].
  unfold reflect.kind_eqb. intros H. apply Z.eqb_eq in H.
  destruct a; destruct b; try reflexivity; discriminate H.
Qed.

Lemma NonPtrValue_non_pointer (h : reflect.heap) (t : reflect.rtype)
      (d : reflect.data) (loc : option reflect.addr) :
  reflect.kind_of t <> reflect.Ptr ->
  kit.NonPtrValue h (reflect.Val t d loc) = reflect.Val t d loc.
Proof.
  intros Hk. unfold kit.NonPtrValue. cbn [kit.value_depth].
  rewrite (proj2 (ptr_depth_kind t) Hk). reflexivity.
Qed.

Lemma IfaceIsNil_by_kind (t : reflect.rtype) (d : reflect.data) :
  kit.IfaceIsNil (Some (t, d))
  = let vk := reflect.kind_of t in
    if reflect.kind_eqb vk reflect.Ptr || reflect.kind_eqb vk reflect.Interface
       || reflect.kind_eqb vk reflect.Map || reflect.kind_eqb vk reflect.Slice
       || reflect.kind_eqb vk reflect.Func || reflect.kind_eqb vk reflect.Chan
    then reflect.IsNil (reflect.Val t d None)
    else false.
Proof. reflexivity. Qed.

(** ** Nil inputs *)

(** the nil interface and a nil value that is not a pointer reach the guard
    [IfaceIsNil] of the four conversions. *)
Lemma switch_misses_non_pointers (host : kit.Host) (it : reflect.iface)
      (h : reflect.heap) :
  kit.IfaceIsNil it = true ->
  reflect.kind (reflect.ValueOf it) <> reflect.Ptr ->
  kit.ToBool_switch it h = None /\ kit.ToInt_switch it h = None
  /\ kit.ToFloat_switch it h = None /\ kit.ToFloat32_switch it h = None.
Proof.
  destruct it as [[t d] |]; [| repeat split].
  destruct t as [k | | | | | | | | |]; cbn; intros Hnil Hk;
    try (repeat split; fail); try congruence.
  destruct k; cbn in Hnil; try discriminate Hnil; repeat split.
Qed.

Lemma conversions_of_nil (host : kit.Host) (it : reflect.iface)
      (h : reflect.heap) :
  kit.IfaceIsNil it = true ->
  reflect.kind (reflect.ValueOf it) <> reflect.Ptr ->
  kit.ToBool it h = Ok (false, false)
  /\ kit.ToInt it h = Ok (0, false)
  /\ (kit.method kit.Floater_Float it = None ->
      kit.ToFloat it h = Ok (num.fzero, false)
      /\ kit.ToFloat32 it h = Ok (num.fzero, false)).
Proof.
  intros Hnil Hk.
  destruct (switch_misses_non_pointers host it h Hnil Hk)
    as [Hb [Hi [Hf Hf32]]].
  unfold kit.ToBool, kit.ToInt, kit.ToFloat, kit.ToFloat32.
  rewrite Hb, Hi, Hf, Hf32, Hnil.
  split; [reflexivity | split; [reflexivity |]].
  intros ->. split; reflexivity.
Qed.

(** C1: a typed nil pointer is a nil input, yet the type switch that comes
    before the guard [IfaceIsNil] takes it and dereferences it: [ToBool] of a
    nil [*bool], [ToInt] of a nil [*int], [ToFloat] of a nil [*float64] and
    [ToFloat32] of a nil [*float32] panic instead of reporting failure. *)
Theorem conversions_panic_on_nil_pointer (host : kit.Host)
        (h : reflect.heap) :
  kit.IfaceIsNil (sample.nil_ptr reflect.Bool) = true
  /\ kit.ToBool (sample.nil_ptr reflect.Bool) h = Panic
  /\ kit.ToInt (sample.nil_ptr reflect.Int) h = Panic
  /\ kit.ToFloat (sample.nil_ptr reflect.Float64) h = Panic
  /\ kit.ToFloat32 (sample.nil_ptr reflect.Float32) h = Panic.
Proof. repeat split. Qed.

Lemma ToStringPrec_of_nil (host : kit.Host) (it : reflect.iface) (prec : Z)
      (h : reflect.heap) :
  kit.IfaceIsNil it = true -> kit.ToStringPrec it prec h = Ok "nil".
Proof. intros Hnil. unfold kit.ToStringPrec. rewrite Hnil. reflexivity. Qed.

Lemma ToString_of_nil (host : kit.Host) (it : reflect.iface)
      (h : reflect.heap) :
  kit.IfaceIsNil it = true ->
  kit.ToString_switch it h = None ->
  kit.method kit.Stringer_String it = None ->
  kit.ToString it h = Ok "nil".
Proof.
  intros Hnil Hsw Hm. unfold kit.ToString. rewrite Hsw, Hm, Hnil.
  reflexivity.
Qed.

(** C2: [ToString] of a nil [*string] panics: the type switch dereferences
    the pointer before [IfaceIsNil] is asked, where [ToStringPrec], which
    asks first, answers [nil]. *)
Theorem ToString_panics_on_nil_pointer (host : kit.Host) (h : reflect.heap)
        (prec : Z) :
  kit.IfaceIsNil (sample.nil_ptr reflect.String) = true
  /\ kit.ToString (sample.nil_ptr reflect.String) h = Panic
  /\ kit.ToStringPrec (sample.nil_ptr reflect.String) prec h = Ok "nil".
Proof. repeat split. Qed.

(** A defined type over [[]byte] without a [String] method reaches the
    assertion [it.([]byte)], which panics in both functions. *)
Example named_bytes_panic :
  let it := Some (reflect.TNamed "json.RawMessage"
                                 (reflect.TSlice (reflect.TBasic reflect.Uint8)),
                  reflect.VSlice (Some [reflect.VUint 104; reflect.VUint 105]))
  in
  kit.ToString (host := sample.host) it [] = Panic
  /\ kit.ToStringPrec (host := sample.host) it 6 [] = Panic
  /\ kit.ToString (host := sample.host)
                  (Some (reflect.TSlice (reflect.TBasic reflect.Uint8),
                         reflect.VSlice (Some [reflect.VUint 104;
                                               reflect.VUint 105]))) []
     = Ok "hi".
Proof. repeat split. Qed.

(** ** SetRobust *)

Lemma NonPtrValue_loop_Zero (n : nat) (h : reflect.heap) :
  kit.NonPtrValue_loop n h reflect.Zero = reflect.Zero.
Proof. destruct n; reflexivity. Qed.

(** a chain of pointers that does not designate a variable ends in a nil
    pointer: [NonPtrValue] comes out with the zero Value. *)
Lemma chain_ends_in_nil (h : reflect.heap) (n : nat) :
  forall (t : reflect.rtype) (d : reflect.data) (loc : option reflect.addr),
    reflect.kind_of t = reflect.Ptr ->
    reflect.ptr_depth t = n ->
    prop.designates n h t d = false ->
    kit.NonPtrValue_loop n h (reflect.Val t d loc) = reflect.Zero.
Proof.
  induction n as [| n IH]; intros t d loc Hk Hd Hdes.
  - exfalso. exact (proj1 (ptr_depth_kind t) Hd Hk).
  - cbn [kit.NonPtrValue_loop reflect.kind]. rewrite Hk.
    cbn [prop.designates] in Hdes. rewrite Hk in Hdes.
    change (reflect.kind_eqb reflect.Ptr reflect.Ptr) with true in Hdes.
    cbn [andb] in Hdes. cbn [reflect.ptr_elem].
    destruct (reflect.as_ptr d) as [a |]; [| apply NonPtrValue_loop_Zero].
    apply orb_false_iff in Hdes. destruct Hdes as [Hke Hdes].
    apply negb_false_iff, kind_eqb_eq in Hke.
    apply IH; [exact Hke | | exact Hdes].
    rewrite (type_elem_depth t Hk) in Hd. injection Hd as Hd. exact Hd.
Qed.

(** a value that is not a pointer has no address: [SetRobust] gets to the
    guard [CanSet], which refuses it with the diagnostic. *)
Lemma SetRobust_of_value (host : kit.Host) (t : reflect.rtype)
      (d : reflect.data) (frm : reflect.iface) (h : reflect.heap) :
  reflect.kind_of t <> reflect.Ptr ->
  exists log, kit.SetRobust (Some (t, d)) frm h = Ok (false, h, log).
Proof.
  intros Hk. unfold kit.SetRobust.
  destruct (kit.IfaceIsNil (Some (t, d))); [exists []; reflexivity |].
  cbn [reflect.ValueOf]. rewrite (NonPtrValue_non_pointer h t d None Hk).
  cbn [reflect.IsValid negb reflect.type_of_value bind].
  exists [kit.CannotSet]. unfold kit.OnePtrValue. cbn [reflect.kind].
  destruct (reflect.kind_of t); try congruence; reflexivity.
Qed.

(** C3: when [to] is no reference to a settable location (it is the nil
    interface, a value that is not a pointer and so has no address, a nil
    pointer, or a pointer whose chain of pointers ends in nil), [SetRobust]
    returns false for every source and the heap is as before; when the guard
    [CanSet] is what refuses, a diagnostic is left in the log. *)
Theorem SetRobust_not_settable (host : kit.Host) (to frm : reflect.iface)
        (h : reflect.heap) :
  prop.settable_destination to h = false ->
  exists log, kit.SetRobust to frm h = Ok (false, h, log).
Proof.
  destruct to as [[t d] |]; [| intros _; exists []; reflexivity].
  cbn [prop.settable_destination]. intros Hdes.
  destruct (reflect.kind_eqb (reflect.kind_of t) reflect.Ptr) eqn:Hk.
  - apply kind_eqb_eq in Hk. unfold kit.SetRobust.
    destruct (kit.IfaceIsNil (Some (t, d))); [exists []; reflexivity |].
    unfold kit.NonPtrValue. cbn [reflect.ValueOf kit.value_depth].
    rewrite (chain_ends_in_nil h _ t d None Hk eq_refl Hdes).
    exists []. reflexivity.
  - apply SetRobust_of_value. intros E. apply kind_eqb_eq in E. congruence.
Qed.

(** a constant as destination: the guard [CanSet] refuses it. *)
Lemma SetRobust_not_settable_witness :
  let to := Some (reflect.TBasic reflect.Int, reflect.VInt 5) in
  let frm := Some (reflect.TBasic reflect.Int, reflect.VInt 7) in
  let h := [reflect.VInt 1] in
  prop.settable_destination to h = false
  /\ kit.SetRobust (host := sample.host) to frm h
     = Ok (false, h, [kit.CannotSet])
  /\ exists log, kit.SetRobust (host := sample.host) to frm h
                 = Ok (false, h, log).
Proof.
  split; [reflexivity |]. split; [reflexivity |].
  apply (SetRobust_not_settable sample.host). reflexivity.
Defined.

Lemma designates_variable (h : reflect.heap) (n : nat) :
  forall (t : reflect.rtype) (d : reflect.data) (loc : option reflect.addr),
    reflect.ptr_depth t = n ->
    prop.designates n h t d = true ->
    exists t' a,
      kit.NonPtrValue_loop n h (reflect.Val t d loc)
      = reflect.Val t' (reflect.load h a) (Some a)
      /\ reflect.kind_of t' <> reflect.Ptr.
Proof.
  induction n as [| n IH]; intros t d loc Hd Hdes; [discriminate Hdes |].
  cbn [prop.designates] in Hdes. apply andb_true_iff in Hdes.
  destruct Hdes as [Hk Hdes]. apply kind_eqb_eq in Hk.
  cbn [kit.NonPtrValue_loop reflect.kind]. rewrite Hk.
  cbn [reflect.ptr_elem].
  destruct (reflect.as_ptr d) as [a |]; [| discriminate Hdes].
  rewrite (type_elem_depth t Hk) in Hd. injection Hd as Hd.
  destruct (reflect.kind_eqb (reflect.kind_of (reflect.type_elem t))
                             reflect.Ptr) eqn:Hke.
  - cbn [negb orb] in Hdes. exact (IH _ _ _ Hd Hdes).
  - assert (Hne : reflect.kind_of (reflect.type_elem t) <> reflect.Ptr).
    { intros E. apply kind_eqb_eq in E. congruence. }
    rewrite <- Hd, (proj2 (ptr_depth_kind _) Hne).
    exists (reflect.type_elem t), a. split; [reflexivity | exact Hne].
Qed.

(** the other way round: a destination that designates a variable passes
    the three guards of [SetRobust]. *)
Lemma settable_destination_accepted (host : kit.Host) (to : reflect.iface)
      (h : reflect.heap) :
  prop.settable_destination to h = true ->
  exists typ a,
    prop.destination to h
    = Some (typ, reflect.Val typ (reflect.load h a) (Some a)).
Proof.
  destruct to as [[t d] |]; [| discriminate].
  cbn [prop.settable_destination]. intros Hdes.
  destruct (designates_variable h _ t d None eq_refl Hdes)
    as [t' [a [Hv Hk']]].
  assert (Hnil : kit.IfaceIsNil (Some (t, d)) = false).
  { destruct (reflect.ptr_depth t) eqn:Hd; [discriminate Hdes |].
    cbn [prop.designates] in Hdes. apply andb_true_iff in Hdes.
    destruct Hdes as [Hk Hp]. apply kind_eqb_eq in Hk.
    unfold kit.IfaceIsNil, reflect.IsNil.
    cbn [reflect.ValueOf reflect.kind reflect.val_data]. rewrite Hk.
    cbn. destruct (reflect.as_ptr d); [reflexivity | discriminate Hp]. }
  exists t', a. unfold prop.destination. rewrite Hnil.
  unfold kit.NonPtrValue. cbn [reflect.ValueOf kit.value_depth]. rewrite Hv.
  unfold kit.OnePtrValue. cbn [reflect.kind].
  destruct (reflect.kind_of t') eqn:Ek; try congruence;
    cbn [reflect.CanAddr reflect.Addr]; unfold reflect.Elem;
    cbn [reflect.kind reflect.kind_of reflect.ptr_elem reflect.as_ptr
         reflect.type_elem reflect.underlying reflect.CanSet reflect.CanAddr];
    reflexivity.
Qed.

(** a pointer to a pointer that is nil: the chain ends in nil and the
    destination is refused before the guard [CanSet]. *)
Example SetRobust_nil_chain :
  let to := sample.ptr_to (reflect.TPtr (reflect.TBasic reflect.Int)) 0%nat in
  let frm := Some (reflect.TBasic reflect.Int, reflect.VInt 7) in
  let h := [reflect.VPtr None] in
  prop.settable_destination to h = false
  /\ kit.SetRobust (host := sample.host) to frm h = Ok (false, h, []).
Proof. split; reflexivity. Qed.

(** the address of a variable that is not a pointer is a destination
    [SetRobust] accepts: the variable itself. *)
Lemma destination_of_pointer (host : kit.Host) (t : reflect.rtype)
      (a : reflect.addr) (h : reflect.heap) :
  reflect.kind_of t <> reflect.Ptr ->
  prop.destination (sample.ptr_to t a) h
  = Some (t, reflect.Val t (reflect.load h a) (Some a)).
Proof.
  intros Hk. pose proof (proj2 (ptr_depth_kind t) Hk) as Hd.
  unfold prop.destination, sample.ptr_to.
  cbn [kit.IfaceIsNil reflect.ValueOf reflect.kind reflect.kind_of
       reflect.kind_eqb reflect.kind_num Z.eqb Pos.eqb orb reflect.IsNil
       reflect.val_data reflect.as_ptr].
  unfold kit.NonPtrValue.
  cbn [kit.value_depth reflect.ptr_depth]. rewrite Hd.
  cbn [kit.NonPtrValue_loop reflect.kind reflect.kind_of reflect.ptr_elem
       reflect.as_ptr reflect.type_elem reflect.underlying].
  unfold kit.OnePtrValue. cbn [reflect.kind].
  destruct (reflect.kind_of t) eqn:Ek; try congruence;
    cbn [reflect.CanAddr reflect.Addr]; unfold reflect.Elem;
    cbn [reflect.kind reflect.kind_of reflect.ptr_elem reflect.as_ptr
         reflect.type_elem reflect.underlying reflect.CanSet reflect.CanAddr];
    reflexivity.
Qed.


Lemma rtype_eqb_eq (a : reflect.rtype) :
  forall b, reflect.rtype_eqb a b = true <-> a = b.
Proof.
  induction a as [k | n u IH | e IH | e IH | l e IH | k IHk e IHe | e IH
                  | s | s | s];
    intros b; destruct b; cbn [reflect.rtype_eqb];
    try (split; [discriminate | discriminate]).
  - rewrite kind_eqb_eq. split; congruence.
  - rewrite andb_true_iff, String.eqb_eq, IH. split; [intros [-> ->]; reflexivity | intros H; injection H; auto].
  - rewrite IH. split; congruence.
  - rewrite IH. split; congruence.
  - rewrite andb_true_iff, Z.eqb_eq, IH. split; [intros [-> ->]; reflexivity | intros H; injection H; auto].
  - rewrite andb_true_iff, IHk, IHe. split; [intros [-> ->]; reflexivity | intros H; injection H; auto].
  - rewrite IH. split; congruence.
  - rewrite String.eqb_eq. split; congruence.
  - rewrite String.eqb_eq. split; congruence.
  - rewrite String.eqb_eq. split; congruence.
Qed.

Lemma complex_kind (t : reflect.rtype) :
  prop.is_complex t = true ->
  reflect.kind_of t = reflect.Complex64
  \/ reflect.kind_of t = reflect.Complex128.
Proof.
  unfold prop.is_complex.
  destruct (reflect.kind_of t); try discriminate; tauto.
Qed.

Lemma complex_hasName (t : reflect.rtype) :
  prop.is_complex t = true -> reflect.hasName t = true.
Proof.
  intros H. destruct (complex_kind t H) as [Hk | Hk];
    destruct t; try reflexivity; discriminate Hk.
Qed.

(** for a destination of complex kind, assignable means the same type. *)
Lemma AssignableTo_complex (host : kit.Host) (ft typ : reflect.rtype) :
  prop.is_complex typ = true ->
  kit.AssignableTo ft typ = reflect.rtype_eqb typ ft.
Proof.
  intros Hc. unfold kit.AssignableTo, reflect.directlyAssignable.
  rewrite (complex_hasName typ Hc).
  replace (reflect.kind_eqb (reflect.kind_of typ) reflect.Interface)
    with false
    by (destruct (complex_kind typ Hc) as [-> | ->]; reflexivity).
  cbn [andb]. rewrite orb_false_r.
  destruct (reflect.rtype_eqb typ ft); [reflexivity |]. cbn [orb].
  destruct (reflect.kind_eqb (reflect.kind_of typ) (reflect.kind_of ft))
    eqn:Hk; [| rewrite andb_false_r; reflexivity].
  apply kind_eqb_eq in Hk.
  assert (Hcf : prop.is_complex ft = true)
    by (unfold prop.is_complex in *; rewrite <- Hk; exact Hc).
  rewrite (complex_hasName ft Hcf). reflexivity.
Qed.

(** C5, as the code has it: for a settable destination of complex kind
    [SetRobust] converts nothing; a source whose dynamic type is the
    destination's type is assigned as it is and the result is true; for any
    other non-nil source the result is false and the heap is as before. *)
Theorem SetRobust_complex (host : kit.Host) (to : reflect.iface)
        (h : reflect.heap) (typ : reflect.rtype) (dst : reflect.Value)
        (ft : reflect.rtype) (fd : reflect.data) :
  prop.destination to h = Some (typ, dst) ->
  prop.is_complex typ = true ->
  (ft = typ ->
   kit.SetRobust to (Some (ft, fd)) h
   = Ok (true, reflect.Set_ h dst (reflect.Val ft fd None), []))
  /\ (ft <> typ -> kit.SetRobust to (Some (ft, fd)) h = Ok (false, h, [])).
Proof.
  intros Hdst Hc.
  assert (Hrun : kit.SetRobust to (Some (ft, fd)) h
                 = if reflect.rtype_eqb typ ft
                   then Ok (true,
                            reflect.Set_ h dst (reflect.Val ft fd None), [])
                   else Ok (false, h, [])).
  { unfold prop.destination in Hdst. unfold kit.SetRobust.
    destruct (kit.IfaceIsNil to); [discriminate |].
    destruct (kit.NonPtrValue h (reflect.ValueOf to)) as [| t d loc];
      [discriminate |].
    cbn [reflect.IsValid negb reflect.type_of_value bind reflect.kind].
    destruct (reflect.Elem h (kit.OnePtrValue h (reflect.Val t d loc)))
      as [dst' |]; [| discriminate].
    cbn [bind]. destruct (reflect.CanSet dst'); [| discriminate].
    injection Hdst as -> ->. cbn [negb].
    unfold kit.set_if_assignable.
    cbn [reflect.ValueOf reflect.type_of_value bind].
    rewrite (AssignableTo_complex host ft typ Hc).
    destruct (complex_kind typ Hc) as [-> | ->]; reflexivity. }
  rewrite Hrun. split.
  - intros ->.
    rewrite (proj2 (rtype_eqb_eq typ typ) eq_refl). reflexivity.
  - intros Hne. destruct (reflect.rtype_eqb typ ft) eqn:E; [| reflexivity].
    apply rtype_eqb_eq in E. congruence.
Qed.

(** [SetRobust] into a [*complex128] from a [complex128] succeeds and the
    variable holds the source. *)
Lemma SetRobust_complex_counterexample :
  let c128 := reflect.TBasic reflect.Complex128 in
  let to := sample.ptr_to c128 0%nat in
  let frm := Some (c128, reflect.VComplex (sample.f64 1) (sample.f64 2)) in
  let h := [reflect.VComplex num.fzero num.fzero] in
  prop.destination (host := sample.host) to h
  = Some (c128, reflect.Val c128 (reflect.VComplex num.fzero num.fzero)
                            (Some 0%nat))
  /\ prop.is_complex c128 = true
  /\ kit.SetRobust (host := sample.host) to frm h
     = Ok (true, [reflect.VComplex (sample.f64 1) (sample.f64 2)], []).
Proof. repeat split. Qed.

Lemma SetRobust_complex_witness :
  let c128 := reflect.TBasic reflect.Complex128 in
  let to := sample.ptr_to c128 0%nat in
  let h := [reflect.VComplex num.fzero num.fzero] in
  let dst := reflect.Val c128 (reflect.VComplex num.fzero num.fzero)
                         (Some 0%nat) in
  let fd := reflect.VComplex (sample.f64 1) (sample.f64 2) in
  (prop.destination (host := sample.host) to h = Some (c128, dst)
   /\ prop.is_complex c128 = true)
  /\ (c128 = c128 ->
      kit.SetRobust (host := sample.host) to (Some (c128, fd)) h
      = Ok (true, reflect.Set_ h dst (reflect.Val c128 fd None), []))
  /\ (c128 <> c128 ->
      kit.SetRobust (host := sample.host) to (Some (c128, fd)) h
      = Ok (false, h, [])).
Proof.
  split; [split; reflexivity |].
  apply (SetRobust_complex sample.host); reflexivity.
Defined.

(** with the nil interface as source the last step asks the zero Value for
    its type. *)
Lemma complex_destination_nil_source (host : kit.Host) (to : reflect.iface)
      (h : reflect.heap) (typ : reflect.rtype) (dst : reflect.Value) :
  prop.destination to h = Some (typ, dst) ->
  prop.is_complex typ = true ->
  kit.SetRobust to None h = Panic.
Proof.
  intros Hdst Hc. unfold prop.destination in Hdst. unfold kit.SetRobust.
  destruct (kit.IfaceIsNil to); [discriminate |].
  destruct (kit.NonPtrValue h (reflect.ValueOf to)) as [| t d loc];
    [discriminate |].
  cbn [reflect.IsValid negb reflect.type_of_value bind reflect.kind].
  destruct (reflect.Elem h (kit.OnePtrValue h (reflect.Val t d loc)))
    as [dst' |]; [| discriminate].
  cbn [bind]. destruct (reflect.CanSet dst'); [| discriminate].
  injection Hdst as -> ->. cbn [negb].
  destruct (complex_kind typ Hc) as [-> | ->]; reflexivity.
Qed.

(** ** Round trips through text *)





(** a value of kind int64 whose type has a [String] method is not read back:
    [ToString] returns what the method writes, which is no integer
    literal. *)
Lemma roundtrip_String_method_counterexample :
  let v := Some (sample.Duration, reflect.VInt 5) in
  reflect.kind (reflect.ValueOf v) = reflect.Int64
  /\ kit.ToString (host := sample.host_with_String) v [] = Ok "5ns"
  /\ prop.via_string (host := sample.host_with_String) kit.ToInt v []
     = Ok (0, false).
Proof. repeat split. Qed.

(** the library round trip on the sample host, whose formatter writes the
    special values as Go does: a float64 and a float32 that are read
    back. *)
Example roundtrip_floats_sample :
  prop.via_string (host := sample.host) kit.ToFloat
                  (Some (reflect.TBasic reflect.Float64,
                         reflect.VFloat (S754_infinity true))) []
  = Ok (S754_infinity true, true)
  /\ prop.via_string (host := sample.host) kit.ToFloat32
                     (Some (reflect.TBasic reflect.Float32,
                            reflect.VFloat (S754_zero true))) []
     = Ok (S754_zero true, true).
Proof. split; reflexivity. Qed.

(** the same through pointers and for the other integer widths: the text of
    an [int] or [int32] is read back as well. *)
Lemma roundtrip_int_kinds (host : kit.Host) (h : reflect.heap)
      (k : reflect.Kind) (n : Z) :
  num.is_int64 n = true ->
  In k [reflect.Int; reflect.Int32; reflect.Int64] ->
  prop.via_string kit.ToInt (Some (reflect.TBasic k, reflect.VInt n)) h
  = Ok (n, true).
Proof.
  intros Hn Hk.
  assert (E : prop.via_string kit.ToInt
                (Some (reflect.TBasic k, reflect.VInt n)) h
              = Ok (kit.parse_int (strconv.FormatInt n))).
  { destruct Hk as [<- | [<- | [<- | []]]]; reflexivity. }
  rewrite E. unfold kit.parse_int.
  rewrite (ParseInt_FormatInt n Hn). reflexivity.
Qed.

(** a defined type over [int64] without a [String] method takes the
    reflective path and is read back all the same. *)
Lemma roundtrip_defined_int64 (host : kit.Host) (h : reflect.heap)
      (name : string) (n : Z) :
  num.is_int64 n = true ->
  kit.Stringer_String (reflect.TNamed name (reflect.TBasic reflect.Int64))
  = None ->
  prop.via_string kit.ToInt
                  (Some (reflect.TNamed name (reflect.TBasic reflect.Int64),
                         reflect.VInt n)) h
  = Ok (n, true).
Proof.
  intros Hn Hm.
  assert (E : kit.ToString
                (Some (reflect.TNamed name (reflect.TBasic reflect.Int64),
                       reflect.VInt n)) h
              = Ok (strconv.FormatInt n)).
  { unfold kit.ToString, kit.method.
    cbn [kit.ToString_switch reflect.has_method_set]. rewrite Hm.
    reflexivity. }
  unfold prop.via_string. rewrite E. cbn [bind].
  change (kit.ToInt (prop.of_string (strconv.FormatInt n)) h)
    with (Ok (kit.parse_int (strconv.FormatInt n))).
  unfold kit.parse_int. rewrite (ParseInt_FormatInt n Hn). reflexivity.
Qed.

(** ** ToStringPrec against ToString *)

#[local] Arguments strconv.FormatInt : simpl never.
#[local] Arguments strconv.FormatUint : simpl never.
#[local] Arguments strconv.Sprintf_sharp_x : simpl never.
#[local] Arguments kit.Sprintf_v : simpl never.
#[local] Arguments kit.SliceElType : simpl never.
#[local] Arguments kit.assert_bytes : simpl never.

Lemma FormatInt_unsigned (d : reflect.data) :
  strconv.FormatInt (reflect.as_uint d) = strconv.FormatUint (reflect.as_uint d).
Proof.
  unfold strconv.FormatInt.
  replace (reflect.as_uint d <? 0) with false; [reflexivity |].
  symmetry. apply Z.ltb_ge. destruct d; cbn; lia.
Qed.

Lemma shortest_bits_beyond_switch (host : kit.Host) (it : reflect.iface)
      (h : reflect.heap) :
  kit.ToString_switch it h = None -> prop.shortest_bits it = 64.
Proof.
  destruct it as [[t d] |]; [| reflexivity].
  destruct t as [k | | e | | | | | | |]; try reflexivity.
  - destruct k; try reflexivity; discriminate.
  - destruct e as [k | | | | | | | | |]; try reflexivity.
    destruct k; try reflexivity; discriminate.
Qed.

(** what the two functions do with a value that is not nil and that the
    type switch of [ToString] has no case for. *)
Lemma ToStringPrec_beyond_switch (host : kit.Host) (it : reflect.iface)
      (prec : Z) (h : reflect.heap) :
  kit.IfaceIsNil it = false ->
  kit.ToString_switch it h = None ->
  let v := kit.NonPtrValue h (reflect.ValueOf it) in
  let x := reflect.as_float (reflect.val_data v) in
  let c := reflect.as_complex (reflect.val_data v) in
  match kit.method kit.Stringer_String it with
  | Some _ => kit.ToStringPrec it prec h = kit.ToString it h
  | None =>
      if reflect.kind_in reflect.Float32 reflect.Float64 (reflect.kind v)
      then
        kit.ToStringPrec it prec h = Ok (kit.FormatFloat x "G" prec 64)
        /\ kit.ToString it h
           = Ok (kit.FormatFloat x "G" (-1) (prop.shortest_bits it))
      else if reflect.kind_in reflect.Complex64 reflect.Complex128
                              (reflect.kind v)
      then
        kit.ToStringPrec it prec h
        = Ok (kit.FormatFloat (fst c) "G" prec 64 ++ ","
              ++ kit.FormatFloat (snd c) "G" prec 64)
        /\ kit.ToString it h
           = Ok (kit.FormatFloat (fst c) "G" (-1) 64 ++ ","
                 ++ kit.FormatFloat (snd c) "G" (-1) 64)
      else kit.ToStringPrec it prec h = kit.ToString it h
  end.
Proof.
  intros Hnil Hsw. cbv zeta.
  rewrite (shortest_bits_beyond_switch host it h Hsw).
  unfold kit.ToStringPrec, kit.ToString. rewrite Hsw, Hnil.
  destruct (kit.method kit.Stringer_String it); [reflexivity |].
  generalize (kit.NonPtrValue h (reflect.ValueOf it)). intros v.
  destruct (reflect.kind v); cbn; try reflexivity; split; reflexivity.
Qed.

(** a nil input is of no float or complex kind under its pointers, and the
    type switch of [ToString] takes it only when it is a pointer the switch
    names. *)
Lemma nil_beyond_switch (host : kit.Host) (it : reflect.iface)
      (h : reflect.heap) :
  kit.IfaceIsNil it = true ->
  reflect.kind_in reflect.Float32 reflect.Complex128
                  (reflect.kind (kit.NonPtrValue h (reflect.ValueOf it)))
  = false
  /\ (prop.switched_pointer it = false -> kit.ToString_switch it h = None).
Proof.
  destruct it as [[t d] |]; [| intros _; split; reflexivity].
  intros Hnil. split.
  - destruct (reflect.kind_eqb (reflect.kind_of t) reflect.Ptr) eqn:Hk.
    + apply kind_eqb_eq in Hk.
      unfold kit.IfaceIsNil, reflect.IsNil in Hnil.
      cbn [reflect.ValueOf reflect.kind reflect.val_data] in Hnil.
      rewrite Hk in Hnil. cbn in Hnil.
      unfold kit.NonPtrValue. cbn [reflect.ValueOf kit.value_depth].
      rewrite (type_elem_depth t Hk).
      cbn [kit.NonPtrValue_loop reflect.kind]. rewrite Hk.
      cbn [reflect.ptr_elem].
      destruct (reflect.as_ptr d); [discriminate Hnil |].
      rewrite NonPtrValue_loop_Zero. reflexivity.
    + assert (Hne : reflect.kind_of t <> reflect.Ptr).
      { intros E. apply kind_eqb_eq in E. congruence. }
      cbn [reflect.ValueOf]. rewrite (NonPtrValue_non_pointer h t d None Hne).
      unfold kit.IfaceIsNil in Hnil.
      cbn [reflect.ValueOf reflect.kind] in Hnil |- *.
      destruct (reflect.kind_of t); try discriminate Hnil; reflexivity.
  - destruct t as [k | | e | | | | | | |]; try reflexivity.
    + destruct k; try reflexivity; discriminate Hnil.
    + destruct e as [k | | | | | | | | |]; try reflexivity.
      destruct k; try reflexivity; discriminate.
Qed.

Ltac close_prec_case :=
  first
    [ reflexivity
    | rewrite FormatInt_unsigned; reflexivity
    | split; reflexivity ].

(** C6, as the code has it: for a value whose dynamic type is neither
    [uintptr] nor [*uintptr], and that is not one of the nil inputs
    [ToString] does not get to its guard for, [ToStringPrec] returns what
    [ToString] returns (the text [nil] for a nil input), unless the value
    under its pointers is of a float or complex kind and has no [String]
    method: then [ToStringPrec] formats the float, or the two parts of the
    complex number, with [prec] digits at 64 bits where [ToString] asks for
    the shortest text, at 32 bits for a [float32] or [*float32] and at 64
    bits otherwise. *)
Theorem ToStringPrec_agrees_with_ToString (host : kit.Host)
        (it : reflect.iface) (prec : Z) (h : reflect.heap) :
  prop.is_uintptr it = false ->
  prop.nil_before_guard it = false ->
  let v := kit.NonPtrValue h (reflect.ValueOf it) in
  let x := reflect.as_float (reflect.val_data v) in
  let c := reflect.as_complex (reflect.val_data v) in
  (kit.IfaceIsNil it = true ->
   kit.ToStringPrec it prec h = Ok "nil" /\ kit.ToString it h = Ok "nil")
  /\ match kit.method kit.Stringer_String it with
     | Some _ => kit.ToStringPrec it prec h = kit.ToString it h
     | None =>
         if reflect.kind_in reflect.Float32 reflect.Float64 (reflect.kind v)
         then
           kit.ToStringPrec it prec h = Ok (kit.FormatFloat x "G" prec 64)
           /\ kit.ToString it h
              = Ok (kit.FormatFloat x "G" (-1) (prop.shortest_bits it))
         else if reflect.kind_in reflect.Complex64 reflect.Complex128
                                 (reflect.kind v)
         then
           kit.ToStringPrec it prec h
           = Ok (kit.FormatFloat (fst c) "G" prec 64 ++ ","
                 ++ kit.FormatFloat (snd c) "G" prec 64)
           /\ kit.ToString it h
              = Ok (kit.FormatFloat (fst c) "G" (-1) 64 ++ ","
                    ++ kit.FormatFloat (snd c) "G" (-1) 64)
         else kit.ToStringPrec it prec h = kit.ToString it h
     end.
Proof.
  intros Hu Hguard. cbv zeta.
  destruct (kit.IfaceIsNil it) eqn:Hnil.
  - unfold prop.nil_before_guard in Hguard. rewrite Hnil in Hguard.
    cbn [andb] in Hguard. apply orb_false_iff in Hguard.
    destruct Hguard as [Hptr Hm].
    destruct (kit.method kit.Stringer_String it) eqn:Em;
      [discriminate Hm |].
    destruct (nil_beyond_switch host it h Hnil) as [Hkind Hsw].
    specialize (Hsw Hptr).
    pose proof (ToStringPrec_of_nil host it prec h Hnil) as Ep.
    pose proof (ToString_of_nil host it h Hnil Hsw Em) as Es.
    split; [intros _; split; assumption |].
    destruct (reflect.kind
                (kit.NonPtrValue h (reflect.ValueOf it)));
      try discriminate Hkind; cbn; congruence.
  - split; [discriminate |].
    destruct (kit.ToString_switch it h) as [r |] eqn:Hsw;
      [| exact (ToStringPrec_beyond_switch host it prec h Hnil Hsw)].
    destruct it as [[t d] |]; [| discriminate Hsw].
    destruct t as [k | | e | | | | | | |]; try discriminate Hsw.
    + destruct k; try discriminate Hsw; try discriminate Hu; clear Hsw;
        cbv zeta; cbn; close_prec_case.
    + destruct e as [k | | | | | | | | |]; try discriminate Hsw.
      cbn in Hnil. destruct (reflect.as_ptr d) as [a |] eqn:Ha;
        [| discriminate Hnil].
      destruct k; try discriminate Hsw; try discriminate Hu; clear Hsw;
        cbv zeta; unfold kit.ToStringPrec, kit.ToString;
        cbn; unfold reflect.deref; rewrite ?Ha; cbn; close_prec_case.
Qed.

(** a [uintptr] is written in hexadecimal by [ToString] and in decimal by
    [ToStringPrec], which has no case for it and falls back on [%v]. *)
Lemma ToStringPrec_uintptr_counterexample :
  let it := Some (reflect.TBasic reflect.Uintptr, reflect.VUint 255) in
  kit.IfaceIsNil it = false
  /\ reflect.kind (kit.NonPtrValue [] (reflect.ValueOf it)) = reflect.Uintptr
  /\ kit.ToString it [] = Ok "0xff"
  /\ kit.ToStringPrec it 6 [] = Ok "255".
Proof. repeat split. Qed.

Lemma ToStringPrec_agrees_with_ToString_witness :
  let it := Some (reflect.TPtr (reflect.TBasic reflect.Float32),
                  reflect.VPtr (Some 0%nat)) in
  let h := [reflect.VFloat (S754_infinity false)] in
  (prop.is_uintptr it = false /\ prop.nil_before_guard it = false)
  /\ kit.ToStringPrec it 6 h
     = Ok (kit.FormatFloat (S754_infinity false) "G" 6 64)
  /\ kit.ToString it h
     = Ok (kit.FormatFloat (S754_infinity false) "G" (-1) 32).
Proof.
  split; [split; reflexivity |].
  exact (proj2 (ToStringPrec_agrees_with_ToString
                  sample.host
                  (Some (reflect.TPtr (reflect.TBasic reflect.Float32),
                         reflect.VPtr (Some 0%nat)))
                  6 [reflect.VFloat (S754_infinity false)]
                  eq_refl eq_refl)).
Defined.

(** ** The wrapper kit.Type *)

Lemma TrimRightFunc_snoc_keep (f : ascii -> bool) (c : ascii) (s : string) :
  f c = false ->
  bytes.TrimRightFunc f (s ++ String c EmptyString) = s ++ String c EmptyString.
Proof.
  intros Hc. induction s as [| a s IH]; cbn [append bytes.TrimRightFunc].
  - rewrite Hc. reflexivity.
  - rewrite IH. destruct s; reflexivity.
Qed.

Lemma TrimRightFunc_snoc_drop (f : ascii -> bool) (c : ascii) (s : string) :
  f c = true ->
  bytes.TrimRightFunc f (s ++ String c EmptyString) = bytes.TrimRightFunc f s.
Proof.
  intros Hc. induction s as [| a s IH]; cbn [append bytes.TrimRightFunc].
  - rewrite Hc. reflexivity.
  - rewrite IH. reflexivity.
Qed.

Lemma TrimLeftFunc_app (f : ascii -> bool) (s t : string) :
  bytes.TrimLeftFunc f (s ++ t)
  = match bytes.TrimLeftFunc f s with
    | EmptyString => bytes.TrimLeftFunc f t
    | r => r ++ t
    end.
Proof.
  induction s as [| a s IH]; cbn [append bytes.TrimLeftFunc].
  - reflexivity.
  - destruct (f a); [exact IH | reflexivity].
Qed.

(** what [UnmarshalJSON] makes of a quoted name. *)
Lemma trim_quoted_name (n : string) :
  prop.unquoted n ->
  bytes.Trim (bytes.TrimSpace (String kit.dquote (n ++ String kit.dquote EmptyString)))
             [kit.dquote]
  = n.
Proof.
  unfold prop.unquoted. intros Hn.
  assert (Hsp : bytes.TrimSpace
                  (String kit.dquote (n ++ String kit.dquote EmptyString))
                = String kit.dquote (n ++ String kit.dquote EmptyString)).
  { unfold bytes.TrimSpace.
    change (bytes.TrimLeftFunc bytes.isSpace
              (String kit.dquote (n ++ String kit.dquote EmptyString)))
      with (String kit.dquote n ++ String kit.dquote EmptyString).
    apply TrimRightFunc_snoc_keep. reflexivity. }
  rewrite Hsp. unfold bytes.Trim in *.
  set (f := fun c : ascii => existsb (Ascii.eqb c) [kit.dquote]) in *.
  change (bytes.TrimLeftFunc f
            (String kit.dquote (n ++ String kit.dquote EmptyString)))
    with (bytes.TrimLeftFunc f (n ++ String kit.dquote EmptyString)).
  rewrite TrimLeftFunc_app.
  destruct (bytes.TrimLeftFunc f n) as [| a r] eqn:E.
  - cbn in Hn. subst n. reflexivity.
  - rewrite TrimRightFunc_snoc_drop by reflexivity. exact Hn.
Qed.

(** C9: the JSON of the absent descriptor is read back as absent; the JSON
    of a descriptor whose name the registry maps back to it is read back as
    that descriptor (the name neither starts nor ends with a double quote);
    bytes other than [null] whose trimmed text is no registered name give an
    error that carries the name, and the wrapper keeps what it held. *)
Theorem Type_JSON_roundtrip (registry : kit.Registry) (k : kit.Type_)
        (t : reflect.rtype) (b : string) :
  kit.Types_Type (kit.Types_TypeName t) = Some t ->
  prop.unquoted (kit.Types_TypeName t) ->
  b <> "null" ->
  kit.Types_Type (bytes.Trim (bytes.TrimSpace b) [kit.dquote]) = None ->
  kit.UnmarshalJSON k (kit.MarshalJSON {| kit.T := None |})
  = ({| kit.T := None |}, None)
  /\ kit.UnmarshalJSON k (kit.MarshalJSON {| kit.T := Some t |})
     = ({| kit.T := Some t |}, None)
  /\ kit.UnmarshalJSON k b
     = (k, Some ("Type UnmarshalJSON: Types type name not found: "
                 ++ bytes.Trim (bytes.TrimSpace b) [kit.dquote])).
Proof.
  intros Hreg Hname Hb Hmiss. split; [reflexivity | split].
  - unfold kit.UnmarshalJSON, kit.MarshalJSON, kit.ShortTypeName.
    cbn [kit.T].
    change (String.eqb (String kit.dquote _) "null") with false.
    cbv iota. rewrite (trim_quoted_name _ Hname), Hreg. reflexivity.
  - unfold kit.UnmarshalJSON.
    destruct (String.eqb_spec b "null") as [E | E]; [contradiction |].
    rewrite Hmiss. reflexivity.
Qed.

Lemma Type_JSON_roundtrip_witness :
  let t := reflect.TNamed "kit.Type" (reflect.TStruct "T") in
  let b := String kit.dquote ("main.Gone" ++ String kit.dquote EmptyString) in
  let k := {| kit.T := Some (reflect.TBasic reflect.Int) |} in
  (kit.Types_Type (kit.Types_TypeName t) = Some t
   /\ prop.unquoted (kit.Types_TypeName t)
   /\ b <> "null"
   /\ kit.Types_Type (bytes.Trim (bytes.TrimSpace b) [kit.dquote]) = None)
  /\ kit.UnmarshalJSON k (kit.MarshalJSON {| kit.T := None |})
     = ({| kit.T := None |}, None)
  /\ kit.UnmarshalJSON k (kit.MarshalJSON {| kit.T := Some t |})
     = ({| kit.T := Some t |}, None)
  /\ kit.UnmarshalJSON k b
     = (k, Some ("Type UnmarshalJSON: Types type name not found: "
                 ++ bytes.Trim (bytes.TrimSpace b) [kit.dquote])).
Proof.
  split; [repeat split; discriminate |].
  apply (Type_JSON_roundtrip sample.registry);
    [reflexivity | reflexivity | discriminate | reflexivity].
Defined.

(** * More properties of the package *)

(** ** Conversions through pointers *)


(** X1: a pointer that is not nil to a value of a predeclared type ([*int8],
    [*uint32], [*bool], ...) converts as the value it points to, whether the
    type switch has a case for the pointer or the reflective path follows
    it. *)
Theorem pointer_converts_as_pointee (host : kit.Host) (h : reflect.heap)
        (k : reflect.Kind) (a : reflect.addr) :
  let p := Some (reflect.TPtr (reflect.TBasic k), reflect.VPtr (Some a)) in
  let x := Some (reflect.TBasic k, reflect.load h a) in
  kit.ToBool p h = kit.ToBool x h
  /\ kit.ToInt p h = kit.ToInt x h
  /\ kit.ToFloat p h = kit.ToFloat x h
  /\ kit.ToFloat32 p h = kit.ToFloat32 x h.
Proof. destruct k; repeat split. Qed.

(** X2: the same for the text: [ToString] of a pointer that is not nil to a
    bool, a number, a [uintptr] or a string is the text of the value it
    points to, and so is [ToStringPrec] but for [uintptr]. *)
Theorem pointer_prints_as_pointee (host : kit.Host) (h : reflect.heap)
        (k : reflect.Kind) (a : reflect.addr) (prec : Z) :
  reflect.kind_in reflect.Bool reflect.Complex128 k
  || reflect.kind_eqb k reflect.String = true ->
  let p := Some (reflect.TPtr (reflect.TBasic k), reflect.VPtr (Some a)) in
  let x := Some (reflect.TBasic k, reflect.load h a) in
  kit.ToString p h = kit.ToString x h
  /\ (k <> reflect.Uintptr ->
      kit.ToStringPrec p prec h = kit.ToStringPrec x prec h).
Proof.
  intros Hk. destruct k; try discriminate Hk; cbv zeta; split;
    try reflexivity; try (intros _; reflexivity).
  intros Hne. congruence.
Qed.

Lemma pointer_prints_as_pointee_witness :
  let h := [reflect.VUint 200] in
  let p := sample.ptr_to (reflect.TBasic reflect.Uint16) 0%nat in
  let x := Some (reflect.TBasic reflect.Uint16, reflect.VUint 200) in
  reflect.kind_in reflect.Bool reflect.Complex128 reflect.Uint16
  || reflect.kind_eqb reflect.Uint16 reflect.String = true
  /\ kit.ToString p h = kit.ToString x h
  /\ (reflect.Uint16 <> reflect.Uintptr ->
      kit.ToStringPrec p 3 h = kit.ToStringPrec x 3 h).
Proof.
  split; [reflexivity |].
  apply (pointer_prints_as_pointee sample.host [reflect.VUint 200]
                                   reflect.Uint16 0%nat 3).
  reflexivity.
Defined.

Lemma invalid_is_zero (v : reflect.Value) :
  reflect.IsValid v = false -> v = reflect.Zero.
Proof. destruct v; [reflexivity | discriminate]. Qed.

(** a value whose pointers end in nil is beyond the type switches. *)
Lemma switches_miss_broken_chains (host : kit.Host) (it : reflect.iface)
      (h : reflect.heap) :
  kit.IfaceIsNil it = false ->
  reflect.IsValid (kit.NonPtrValue h (reflect.ValueOf it)) = false ->
  kit.ToBool_switch it h = None /\ kit.ToInt_switch it h = None
  /\ kit.ToFloat_switch it h = None /\ kit.ToFloat32_switch it h = None.
Proof.
  intros Hnil Hv. destruct it as [[t d] |]; [| discriminate Hnil].
  destruct t as [k | | e | | | | | | |]; try (repeat split; fail).
  - exfalso. cbn [reflect.ValueOf] in Hv.
    rewrite NonPtrValue_non_pointer in Hv; [discriminate Hv |].
    cbn [reflect.kind_of]. destruct (reflect.predeclared k) eqn:Hk;
      [| discriminate].
    destruct k; try discriminate; discriminate Hk.
  - destruct e as [k | | | | | | | | |]; try (repeat split; fail).
    exfalso. cbn in Hnil.
    destruct (reflect.as_ptr d) as [a |] eqn:Ha; [| discriminate Hnil].
    unfold kit.NonPtrValue in Hv.
    cbn [reflect.ValueOf kit.value_depth reflect.ptr_depth
         kit.NonPtrValue_loop reflect.kind reflect.kind_of
         reflect.ptr_elem] in Hv.
    rewrite Ha in Hv. discriminate Hv.
Qed.

(** X3: when the pointers of a value end in a nil pointer (a [**int] whose
    [*int] is nil), the value itself is not nil for [IfaceIsNil], and the
    conversions report failure without a panic. *)
Theorem nil_behind_pointers_fails (host : kit.Host) (it : reflect.iface)
        (h : reflect.heap) :
  kit.IfaceIsNil it = false ->
  reflect.IsValid (kit.NonPtrValue h (reflect.ValueOf it)) = false ->
  kit.method kit.Inter_Int it = None ->
  kit.method kit.Floater_Float it = None ->
  kit.ToBool it h = Ok (false, false)
  /\ kit.ToInt it h = Ok (0, false)
  /\ kit.ToFloat it h = Ok (num.fzero, false)
  /\ kit.ToFloat32 it h = Ok (num.fzero, false).
Proof.
  intros Hnil Hv Hi Hf.
  destruct (switches_miss_broken_chains host it h Hnil Hv)
    as [Hb [Hn [Hf64 Hf32]]].
  apply invalid_is_zero in Hv.
  unfold kit.ToBool, kit.ToInt, kit.ToFloat, kit.ToFloat32.
  rewrite Hb, Hn, Hf64, Hf32, Hnil, Hi, Hf, Hv. repeat split.
Qed.

Lemma nil_behind_pointers_fails_witness :
  let it := sample.ptr_to (reflect.TPtr (reflect.TBasic reflect.Int)) 0%nat in
  let h := [reflect.VPtr None] in
  (kit.IfaceIsNil it = false
   /\ reflect.IsValid (kit.NonPtrValue h (reflect.ValueOf it)) = false
   /\ kit.method kit.Inter_Int it = None
   /\ kit.method kit.Floater_Float it = None)
  /\ kit.ToBool it h = Ok (false, false)
  /\ kit.ToInt it h = Ok (0, false)
  /\ kit.ToFloat it h = Ok (num.fzero, false)
  /\ kit.ToFloat32 it h = Ok (num.fzero, false).
Proof.
  split; [repeat split |].
  apply (nil_behind_pointers_fails sample.host); reflexivity.
Defined.

(** ** Kinds and conversions *)


(** a value of a defined type, of a kind the conversions know: rewrite the
    goal to the reflective branch of that kind. *)
Ltac by_kind Hk :=
  unfold kit.ToBool, kit.ToInt, kit.ToFloat, kit.ToFloat32;
  cbn [kit.ToBool_switch kit.ToInt_switch kit.ToFloat_switch
       kit.ToFloat32_switch];
  rewrite ?IfaceIsNil_by_kind;
  cbn [reflect.ValueOf];
  rewrite ?NonPtrValue_non_pointer by (rewrite Hk; discriminate);
  cbn [reflect.kind reflect.val_data]; cbv zeta;
  rewrite ?Hk.

(** X4: a [uintptr], predeclared or behind a defined type, is no number for
    the conversions: the kind falls between the ranges the reflective path
    tests, and the result is failure. *)
Theorem uintptr_is_not_converted (host : kit.Host) (t : reflect.rtype)
        (d : reflect.data) (h : reflect.heap) :
  reflect.kind_of t = reflect.Uintptr ->
  kit.method kit.Inter_Int (Some (t, d)) = None ->
  kit.method kit.Floater_Float (Some (t, d)) = None ->
  kit.ToBool (Some (t, d)) h = Ok (false, false)
  /\ kit.ToInt (Some (t, d)) h = Ok (0, false)
  /\ kit.ToFloat (Some (t, d)) h = Ok (num.fzero, false)
  /\ kit.ToFloat32 (Some (t, d)) h = Ok (num.fzero, false).
Proof.
  intros Hk Hi Hf.
  destruct t as [k | n u | | | | | | | |]; try discriminate Hk.
  - destruct k; try discriminate Hk. repeat split.
  - by_kind Hk. rewrite Hi, Hf. repeat split.
Qed.

Lemma uintptr_is_not_converted_witness :
  let it := Some (reflect.TBasic reflect.Uintptr, reflect.VUint 4096) in
  (reflect.kind_of (reflect.TBasic reflect.Uintptr) = reflect.Uintptr
   /\ kit.method kit.Inter_Int it = None
   /\ kit.method kit.Floater_Float it = None)
  /\ kit.ToBool it [] = Ok (false, false)
  /\ kit.ToInt it [] = Ok (0, false)
  /\ kit.ToFloat it [] = Ok (num.fzero, false)
  /\ kit.ToFloat32 it [] = Ok (num.fzero, false).
Proof.
  split; [repeat split |].
  apply (uintptr_is_not_converted sample.host); reflexivity.
Defined.

(** X5: every value of a kind that [KindIsBasic] accepts, but [uintptr], is
    converted with success by [ToBool], [ToInt], [ToFloat] and [ToFloat32],
    for predeclared and for defined types (without [Int] or [Float]
    method). *)
Theorem basic_kinds_convert (host : kit.Host) (t : reflect.rtype)
        (d : reflect.data) (h : reflect.heap) :
  kit.KindIsBasic (reflect.kind_of t) = true ->
  reflect.kind_of t <> reflect.Uintptr ->
  kit.method kit.Inter_Int (Some (t, d)) = None ->
  kit.method kit.Floater_Float (Some (t, d)) = None ->
  exists (b : bool) (n : Z) (f g : spec_float),
    kit.ToBool (Some (t, d)) h = Ok (b, true)
    /\ kit.ToInt (Some (t, d)) h = Ok (n, true)
    /\ kit.ToFloat (Some (t, d)) h = Ok (f, true)
    /\ kit.ToFloat32 (Some (t, d)) h = Ok (g, true).
Proof.
  intros Hb Hu Hi Hf.
  destruct t as [k | n u | | | | | | | |]; try discriminate Hb.
  - destruct k; try discriminate Hb; try (exfalso; apply Hu; reflexivity);
      do 4 eexists; repeat split.
  - destruct (reflect.kind_of (reflect.TNamed n u)) eqn:Hk;
      try discriminate Hb; try congruence;
      by_kind Hk; rewrite Hi, Hf; do 4 eexists; repeat split.
Qed.

Lemma basic_kinds_convert_witness :
  let t := reflect.TNamed "time.Duration" (reflect.TBasic reflect.Int64) in
  let it := Some (t, reflect.VInt 1500) in
  (kit.KindIsBasic (reflect.kind_of t) = true
   /\ reflect.kind_of t <> reflect.Uintptr
   /\ kit.method kit.Inter_Int it = None
   /\ kit.method kit.Floater_Float it = None)
  /\ exists (b : bool) (n : Z) (f g : spec_float),
      kit.ToBool it [] = Ok (b, true)
      /\ kit.ToInt it [] = Ok (n, true)
      /\ kit.ToFloat it [] = Ok (f, true)
      /\ kit.ToFloat32 it [] = Ok (g, true).
Proof.
  split; [repeat split; discriminate |].
  apply (basic_kinds_convert sample.host);
    [reflexivity | discriminate | reflexivity | reflexivity].
Defined.

(** ** The helpers of package bools against the conversions of kit *)

(** X6: on a bool the conversions of [kit] give what the helpers of [bools]
    give, and on an [int], an [int32], an [int64], a [float64] and a
    [float32] [kit.ToBool] gives what the [From] helpers give, always with
    success. *)
Theorem bools_agree_with_kit (host : kit.Host) (h : reflect.heap) (b : bool)
        (n : Z) (f : spec_float) :
  let vb := Some (reflect.TBasic reflect.Bool, reflect.VBool b) in
  kit.ToInt vb h = Ok (bools.ToInt64 b, true)
  /\ kit.ToFloat vb h = Ok (bools.ToFloat64 b, true)
  /\ kit.ToFloat32 vb h = Ok (bools.ToFloat32 b, true)
  /\ kit.ToString vb h = Ok (bools.ToString b)
  /\ kit.ToBool (Some (reflect.TBasic reflect.Int, reflect.VInt n)) h
     = Ok (bools.FromInt n, true)
  /\ kit.ToBool (Some (reflect.TBasic reflect.Int32, reflect.VInt n)) h
     = Ok (bools.FromInt32 n, true)
  /\ kit.ToBool (Some (reflect.TBasic reflect.Int64, reflect.VInt n)) h
     = Ok (bools.FromInt64 n, true)
  /\ kit.ToBool (Some (reflect.TBasic reflect.Float64, reflect.VFloat f)) h
     = Ok (bools.FromFloat64 f, true)
  /\ kit.ToBool (Some (reflect.TBasic reflect.Float32, reflect.VFloat f)) h
     = Ok (bools.FromFloat32 f, true).
Proof.
  cbv zeta. repeat split; destruct b; reflexivity.
Qed.

(** X7: on strings the two packages part: [bools.FromString] knows the text
    [true] only, [kit.ToBool] every literal of the parser; the values they
    give are the same exactly for the strings other than [1], [t], [T],
    [TRUE] and [True]. *)
Theorem FromString_against_ToBool (h : reflect.heap) (s : string) :
  exists b ok : bool,
    kit.ToBool (prop.of_string s) h = Ok (b, ok)
    /\ (b = bools.FromString s <-> ~ In s ["1"; "t"; "T"; "TRUE"; "True"]).
Proof.
  change (kit.ToBool (prop.of_string s) h) with (Ok (kit.parse_bool s)).
  unfold kit.parse_bool, bools.FromString.
  pose proof (ParseBool_true s) as Ht.
  destruct (String.eqb_spec s "true") as [-> | Hne].
  - exists true, true. split; [reflexivity |].
    split; [| reflexivity]. intros _ Hin. cbn in Hin.
    repeat (destruct Hin as [Hin | Hin]; [discriminate Hin |]). exact Hin.
  - destruct (strconv.ParseBool s) as [[|] |].
    + exists true, true. split; [reflexivity |].
      split; [discriminate |]. intros Hnot. exfalso. apply Hnot.
      destruct (proj1 Ht eq_refl) as [H | [H | [H | [H | [H | [H | []]]]]]];
        subst s; cbn; tauto.
    + exists false, true. split; [reflexivity |].
      split; [| reflexivity]. intros _ Hin.
      assert (Hin6 : In s ["1"; "t"; "T"; "true"; "TRUE"; "True"])
        by (cbn in Hin |- *; tauto).
      apply Ht in Hin6. discriminate Hin6.
    + exists false, false. split; [reflexivity |].
      split; [| reflexivity]. intros _ Hin.
      assert (Hin6 : In s ["1"; "t"; "T"; "true"; "TRUE"; "True"])
        by (cbn in Hin |- *; tauto).
      apply Ht in Hin6. discriminate Hin6.
Qed.

(** ** Text of numbers read by another conversion *)

Lemma ParseBool_FormatInt (n : Z) :
  num.is_int64 n = true ->
  strconv.ParseBool (strconv.FormatInt n)
  = if n =? 0 then Some false else if n =? 1 then Some true else None.
Proof.
  intros Hn. pose proof (ParseInt_FormatInt n Hn) as Hp.
  destruct (strconv.ParseBool (strconv.FormatInt n)) as [b |] eqn:E.
  - assert (Hin : In (strconv.FormatInt n)
                     ["1"; "t"; "T"; "true"; "TRUE"; "True";
                      "0"; "f"; "F"; "false"; "FALSE"; "False"]).
    { destruct b.
      - apply ParseBool_true in E. cbn in E |- *. tauto.
      - apply ParseBool_false in E. cbn in E |- *. tauto. }
    cbn in Hin.
    repeat (destruct Hin as [Hin | Hin];
            [rewrite <- Hin in Hp, E; vm_compute in Hp;
             try discriminate Hp; injection Hp as <-;
             vm_compute in E; rewrite <- E; reflexivity |]).
    contradiction.
  - destruct (Z.eqb_spec n 0) as [-> | H0]; [discriminate E |].
    destruct (Z.eqb_spec n 1) as [-> | H1]; [discriminate E |].
    reflexivity.
Qed.

(** X8: the text of an integer is a boolean literal only for 0 and 1:
    [ToBool] of the text of any other [int64] fails, where [ToBool] of the
    number itself gives true with success. *)
Theorem ToBool_of_integer_text (host : kit.Host) (h : reflect.heap) (n : Z) :
  num.is_int64 n = true ->
  let it := Some (reflect.TBasic reflect.Int64, reflect.VInt n) in
  prop.via_string kit.ToBool it h
  = Ok (if n =? 0 then (false, true)
        else if n =? 1 then (true, true) else (false, false))
  /\ kit.ToBool it h = Ok (negb (n =? 0), true).
Proof.
  intros Hn. cbv zeta. split; [| reflexivity].
  change (prop.via_string kit.ToBool
            (Some (reflect.TBasic reflect.Int64, reflect.VInt n)) h)
    with (Ok (kit.parse_bool (strconv.FormatInt n))).
  unfold kit.parse_bool. rewrite (ParseBool_FormatInt n Hn).
  destruct (n =? 0); [reflexivity |]. destruct (n =? 1); reflexivity.
Qed.

Lemma ToBool_of_integer_text_witness :
  let it := Some (reflect.TBasic reflect.Int64, reflect.VInt 7) in
  num.is_int64 7 = true
  /\ prop.via_string kit.ToBool it [] = Ok (false, false)
  /\ kit.ToBool it [] = Ok (true, true).
Proof.
  split; [reflexivity |].
  exact (ToBool_of_integer_text sample.host [] 7 eq_refl).
Defined.

Lemma ParseInt_FormatUint (n : Z) :
  0 <= n <= num.maxUint64 ->
  strconv.ParseInt (strconv.FormatUint n) 0 64
  = if n <=? num.maxInt64 then strconv.NumOk n
    else strconv.NumRange num.maxInt64.
Proof.
  change num.maxUint64 with 18446744073709551615.
  change num.maxInt64 with 9223372036854775807.
  intros Hn.
  destruct (Z.eq_dec n 0) as [-> | Hnz]; [reflexivity |].
  assert (Hlt : n < 10 ^ Z.of_nat 20)
    by (change (10 ^ Z.of_nat 20) with 100000000000000000000; lia).
  destruct (format_digits_head 20 n EmptyString ltac:(lia) Hlt)
    as [d [rest [Hd Heq]]].
  pose proof (ParseUint_FormatUint n) as HU.
  unfold strconv.FormatUint in *. unfold strconv.ParseInt.
  rewrite Heq in *.
  rewrite (code_digit d) by lia.
  replace (48 + d =? 43) with false by lia.
  replace (48 + d =? 45) with false by lia.
  cbv iota beta.
  rewrite HU by (change num.maxUint64 with 18446744073709551615; lia).
  change (64 =? 0) with false. cbv iota beta.
  change (2 ^ (64 - 1)) with 9223372036854775808.
  cbn [negb andb].
  destruct (Z.leb_spec n 9223372036854775807) as [Hs | Hb].
  - replace (9223372036854775808 <=? n) with false by lia.
    rewrite wrap_signed_64
      by (change (2 ^ 63) with 9223372036854775808; lia).
    reflexivity.
  - replace (9223372036854775808 <=? n) with true by lia. reflexivity.
Qed.

Lemma wrap_signed_64_high (n : Z) :
  2 ^ 63 <= n < 2 ^ 64 -> num.wrap_signed 64 n = n - 2 ^ 64.
Proof.
  unfold num.wrap_signed.
  change (2 ^ (64 - 1)) with 9223372036854775808.
  change (2 ^ 63) with 9223372036854775808.
  change (2 ^ 64) with 18446744073709551616.
  intros Hn. rewrite Z.mod_small by lia.
  destruct (Z.ltb_spec n 9223372036854775808); lia.
Qed.

(** X9: an unsigned value below 2^63 is read back from its text by [ToInt];
    from 2^63 on the text is out of the range of the parser and [ToInt] of
    the text fails, while [ToInt] of the value itself succeeds with the
    value less 2^64. *)
Theorem unsigned_text_and_ToInt (host : kit.Host) (h : reflect.heap)
        (k : reflect.Kind) (n : N) :
  In k [reflect.Uint; reflect.Uint16; reflect.Uint32; reflect.Uint64] ->
  Z.of_N n <= num.maxUint64 ->
  let it := Some (reflect.TBasic k, reflect.VUint n) in
  prop.via_string kit.ToInt it h
  = Ok (if Z.of_N n <=? num.maxInt64 then (Z.of_N n, true) else (0, false))
  /\ kit.ToInt it h
     = Ok (if Z.of_N n <=? num.maxInt64 then Z.of_N n
           else Z.of_N n - 2 ^ 64, true).
Proof.
  intros Hk Hn. cbv zeta.
  assert (Htext : prop.via_string kit.ToInt
                    (Some (reflect.TBasic k, reflect.VUint n)) h
                  = Ok (kit.parse_int (strconv.FormatUint (Z.of_N n)))).
  { destruct Hk as [<- | [<- | [<- | [<- | []]]]]; reflexivity. }
  assert (Hdirect : kit.ToInt (Some (reflect.TBasic k, reflect.VUint n)) h
                    = Ok (num.wrap_signed 64 (Z.of_N n), true)).
  { destruct Hk as [<- | [<- | [<- | [<- | []]]]]; reflexivity. }
  rewrite Htext, Hdirect. unfold kit.parse_int.
  rewrite ParseInt_FormatUint by lia.
  revert Hn. change num.maxUint64 with 18446744073709551615.
  change num.maxInt64 with 9223372036854775807. intros Hn.
  destruct (Z.leb_spec (Z.of_N n) 9223372036854775807) as [Hs | Hb].
  - rewrite wrap_signed_64
      by (change (2 ^ 63) with 9223372036854775808; lia).
    split; reflexivity.
  - rewrite wrap_signed_64_high
      by (change (2 ^ 63) with 9223372036854775808;
          change (2 ^ 64) with 18446744073709551616; lia).
    split; reflexivity.
Qed.

Lemma unsigned_text_and_ToInt_witness :
  let it := Some (reflect.TBasic reflect.Uint64,
                  reflect.VUint 18446744073709551615) in
  (In reflect.Uint64
      [reflect.Uint; reflect.Uint16; reflect.Uint32; reflect.Uint64]
   /\ Z.of_N 18446744073709551615 <= num.maxUint64)
  /\ prop.via_string kit.ToInt it [] = Ok (0, false)
  /\ kit.ToInt it [] = Ok (-1, true).
Proof.
  split; [split; [cbn; tauto | discriminate] |].
  apply (unsigned_text_and_ToInt sample.host [] reflect.Uint64
                                 18446744073709551615).
  - cbn; tauto.
  - discriminate.
Defined.

(** ** What SetRobust writes *)

Lemma load_store_same (h : reflect.heap) (a : reflect.addr) (d : reflect.data) :
  (a < List.length h)%nat -> reflect.load (reflect.store h a d) a = d.
Proof.
  revert a. induction h as [| x h IH]; intros [| a] Ha; cbn in *;
    try lia; [reflexivity |].
  apply IH. lia.
Qed.

Lemma load_store_other (h : reflect.heap) (a a' : reflect.addr)
      (d : reflect.data) :
  a' <> a -> reflect.load (reflect.store h a d) a' = reflect.load h a'.
Proof.
  revert a a'. induction h as [| x h IH]; intros [| a] [| a'] Hne; cbn;
    try reflexivity; try congruence.
  apply IH. congruence.
Qed.

Lemma length_store (h : reflect.heap) (a : reflect.addr) (d : reflect.data) :
  List.length (reflect.store h a d) = List.length h.
Proof.
  revert a. induction h as [| x h IH]; intros [| a]; cbn; try reflexivity.
  rewrite IH. reflexivity.
Qed.

(** enter [SetRobust] with a destination its prologue accepts. *)
Ltac enter_SetRobust Hdst :=
  unfold prop.destination in Hdst; unfold kit.SetRobust;
  destruct (kit.IfaceIsNil _); [discriminate Hdst |];
  destruct (kit.NonPtrValue _ (reflect.ValueOf _)); [discriminate Hdst |];
  cbn [reflect.IsValid negb reflect.type_of_value bind reflect.kind];
  destruct (reflect.Elem _ (kit.OnePtrValue _ _)); [| discriminate Hdst];
  cbn [bind]; destruct (reflect.CanSet _); [| discriminate Hdst];
  injection Hdst as -> ->; cbn [negb].

Lemma SetRobust_integer_family (host : kit.Host) (to frm : reflect.iface)
      (h : reflect.heap) (typ : reflect.rtype) (dst : reflect.Value) (n : Z) :
  prop.destination to h = Some (typ, dst) ->
  reflect.kind_in reflect.Int reflect.Uint64 (reflect.kind_of typ) = true ->
  kit.ToInt frm h = Ok (n, true) ->
  kit.SetRobust to frm h
  = Ok (true, reflect.Set_ h dst (reflect.convert_int typ n), []).
Proof.
  intros Hdst Hk Hn. enter_SetRobust Hdst. rewrite Hn. cbn [bind fst snd].
  destruct (reflect.kind_of typ); try discriminate Hk; reflexivity.
Qed.

Lemma wrap_signed_range (bits n : Z) :
  0 < bits ->
  - 2 ^ (bits - 1) <= num.wrap_signed bits n < 2 ^ (bits - 1).
Proof.
  intros Hb. unfold num.wrap_signed.
  assert (Hp : 2 ^ bits = 2 * 2 ^ (bits - 1)).
  { replace bits with (Z.succ (bits - 1)) at 1 by lia.
    apply Z.pow_succ_r. lia. }
  assert (Hpos : 0 < 2 ^ (bits - 1)) by (apply Z.pow_pos_nonneg; lia).
  pose proof (Z.mod_pos_bound n (2 ^ bits) ltac:(lia)) as Hm.
  destruct (Z.ltb_spec (n mod 2 ^ bits) (2 ^ (bits - 1))); lia.
Qed.

Lemma ToInt_through_pointer (host : kit.Host) (h : reflect.heap)
      (k : reflect.Kind) (a : reflect.addr) :
  reflect.kind_in reflect.Int reflect.Int64 k = true ->
  kit.ToInt (sample.ptr_to (reflect.TBasic k) a) h
  = Ok (reflect.as_int (reflect.load h a), true).
Proof. intros Hk. destruct k; try discriminate Hk; reflexivity. Qed.

(** X10: [SetRobust] into a signed integer variable from a source [ToInt]
    converts returns true; the variable then holds the number wrapped to
    its own width (no range check: 300 into an [int8] gives 44), [ToInt] of
    the pointer reads that number back, and the other variables are as
    before. *)
Theorem SetRobust_signed_destination (host : kit.Host) (h : reflect.heap)
        (k : reflect.Kind) (a : reflect.addr) (frm : reflect.iface) (n : Z) :
  reflect.kind_in reflect.Int reflect.Int64 k = true ->
  (a < List.length h)%nat ->
  kit.ToInt frm h = Ok (n, true) ->
  let to := sample.ptr_to (reflect.TBasic k) a in
  let w := num.wrap_signed (reflect.kind_bits k) n in
  exists h',
    kit.SetRobust to frm h = Ok (true, h', [])
    /\ reflect.load h' a = reflect.VInt w
    /\ kit.ToInt to h' = Ok (w, true)
    /\ - 2 ^ (reflect.kind_bits k - 1) <= w < 2 ^ (reflect.kind_bits k - 1)
    /\ List.length h' = List.length h
    /\ forall a', a' <> a -> reflect.load h' a' = reflect.load h a'.
Proof.
  intros Hk Ha Hn. cbv zeta.
  assert (Hkind : reflect.kind_of (reflect.TBasic k) = k)
    by (destruct k; try discriminate Hk; reflexivity).
  assert (Hdst : prop.destination (sample.ptr_to (reflect.TBasic k) a) h
                 = Some (reflect.TBasic k,
                         reflect.Val (reflect.TBasic k) (reflect.load h a)
                                     (Some a)))
    by (apply destination_of_pointer; rewrite Hkind;
        destruct k; try discriminate Hk; discriminate).
  exists (reflect.store h a
            (reflect.VInt (num.wrap_signed (reflect.kind_bits k) n))).
  assert (Hfam : reflect.kind_in reflect.Int reflect.Uint64
                                 (reflect.kind_of (reflect.TBasic k)) = true)
    by (rewrite Hkind; destruct k; try discriminate Hk; reflexivity).
  split; [| split; [| split; [| split; [| split]]]].
  - rewrite (SetRobust_integer_family host _ frm h _ _ n Hdst Hfam Hn).
    unfold reflect.Set_, reflect.convert_int. rewrite Hkind, Hk.
    destruct k; try discriminate Hk; reflexivity.
  - apply load_store_same. exact Ha.
  - rewrite (ToInt_through_pointer host _ k a Hk).
    rewrite load_store_same by exact Ha. reflexivity.
  - apply wrap_signed_range. destruct k; try discriminate Hk; reflexivity.
  - apply length_store.
  - intros a' Hne. apply load_store_other. exact Hne.
Qed.

Lemma SetRobust_signed_destination_witness :
  let h := [reflect.VInt 0; reflect.VInt 9] in
  let frm := Some (reflect.TBasic reflect.Int, reflect.VInt 300) in
  let to := sample.ptr_to (reflect.TBasic reflect.Int8) 0%nat in
  (reflect.kind_in reflect.Int reflect.Int64 reflect.Int8 = true
   /\ (0 < List.length h)%nat
   /\ kit.ToInt frm h = Ok (300, true))
  /\ exists h',
      kit.SetRobust to frm h = Ok (true, h', [])
      /\ reflect.load h' 0%nat = reflect.VInt 44
      /\ kit.ToInt to h' = Ok (44, true)
      /\ - 2 ^ (8 - 1) <= 44 < 2 ^ (8 - 1)
      /\ List.length h' = List.length h
      /\ forall a', a' <> 0%nat -> reflect.load h' a' = reflect.load h a'.
Proof.
  split; [repeat split; cbn; lia |].
  apply (SetRobust_signed_destination
           sample.host [reflect.VInt 0; reflect.VInt 9] reflect.Int8 0%nat
           (Some (reflect.TBasic reflect.Int, reflect.VInt 300)) 300);
    [reflexivity | cbn; lia | reflexivity].
Defined.



(** a [uintptr] variable takes no number: the kind is outside the ranges of
    the switch, and an [int] is not assignable to it. *)
Example SetRobust_uintptr_destination :
  let h := [reflect.VUint 0] in
  kit.SetRobust (host := sample.host)
                (sample.ptr_to (reflect.TBasic reflect.Uintptr) 0%nat)
                (Some (reflect.TBasic reflect.Int, reflect.VInt 5)) h
  = Ok (false, h, []).
Proof. reflexivity. Qed.

(** X12: a string variable takes any source [ToString] renders: the result
    of [SetRobust] is true, the variable holds the text, and [ToString] of
    the pointer gives that text back. *)
Theorem SetRobust_string_destination (host : kit.Host) (h : reflect.heap)
        (a : reflect.addr) (frm : reflect.iface) (s : string) :
  (a < List.length h)%nat ->
  kit.ToString frm h = Ok s ->
  let to := sample.ptr_to (reflect.TBasic reflect.String) a in
  exists h',
    kit.SetRobust to frm h = Ok (true, h', [])
    /\ reflect.load h' a = reflect.VString s
    /\ kit.ToString to h' = Ok s
    /\ List.length h' = List.length h
    /\ forall a', a' <> a -> reflect.load h' a' = reflect.load h a'.
Proof.
  intros Ha Hs. cbv zeta.
  exists (reflect.store h a (reflect.VString s)).
  split; [| split; [| split; [| split]]].
  - assert (Hdst : prop.destination
                     (sample.ptr_to (reflect.TBasic reflect.String) a) h
                   = Some (reflect.TBasic reflect.String,
                           reflect.Val (reflect.TBasic reflect.String)
                                       (reflect.load h a) (Some a)))
      by (apply destination_of_pointer; discriminate).
    enter_SetRobust Hdst. rewrite Hs. reflexivity.
  - apply load_store_same. exact Ha.
  - change (kit.ToString (sample.ptr_to (reflect.TBasic reflect.String) a)
                         (reflect.store h a (reflect.VString s)))
      with (Ok (reflect.as_string
                  (reflect.load (reflect.store h a (reflect.VString s)) a))).
    rewrite load_store_same by exact Ha. reflexivity.
  - apply length_store.
  - intros a' Hne. apply load_store_other. exact Hne.
Qed.

Lemma SetRobust_string_destination_witness :
  let h := [reflect.VString "old"] in
  let frm := Some (reflect.TBasic reflect.Int32, reflect.VInt (-12)) in
  let to := sample.ptr_to (reflect.TBasic reflect.String) 0%nat in
  ((0 < List.length h)%nat /\ kit.ToString frm h = Ok "-12")
  /\ exists h',
      kit.SetRobust to frm h = Ok (true, h', [])
      /\ reflect.load h' 0%nat = reflect.VString "-12"
      /\ kit.ToString to h' = Ok "-12"
      /\ List.length h' = List.length h
      /\ forall a', a' <> 0%nat -> reflect.load h' a' = reflect.load h a'.
Proof.
  split; [split; [cbn; lia | reflexivity] |].
  apply (SetRobust_string_destination
           sample.host [reflect.VString "old"] 0%nat
           (Some (reflect.TBasic reflect.Int32, reflect.VInt (-12))) "-12");
    [cbn; lia | reflexivity].
Defined.

Lemma Set_frame (h : reflect.heap) (t : reflect.rtype) (d : reflect.data)
      (a : reflect.addr) (x : reflect.Value) :
  List.length (reflect.Set_ h (reflect.Val t d (Some a)) x) = List.length h
  /\ forall a', a' <> a ->
       reflect.load (reflect.Set_ h (reflect.Val t d (Some a)) x) a'
       = reflect.load h a'.
Proof.
  unfold reflect.Set_. destruct x as [| tx dx lx]; [split; reflexivity |].
  destruct (reflect.kind_of t); split;
    try apply length_store; intros a' Hne; apply load_store_other; exact Hne.
Qed.

Lemma frame_of_set (h : reflect.heap) (t : reflect.rtype) (d : reflect.data)
      (a : reflect.addr) (x : reflect.Value) :
  prop.frame_of h a (Ok (true, reflect.Set_ h (reflect.Val t d (Some a)) x, [])).
Proof.
  destruct (Set_frame h t d a x) as [Hl Hf].
  repeat split; [exact Hl | exact Hf | discriminate].
Qed.

Lemma frame_of_assign (host : kit.Host) (h : reflect.heap)
      (typ t : reflect.rtype) (d : reflect.data) (a : reflect.addr)
      (frm : reflect.iface) :
  prop.frame_of h a
           (kit.set_if_assignable typ (reflect.Val t d (Some a)) frm h).
Proof.
  unfold kit.set_if_assignable.
  destruct frm as [[ft fd] |];
    cbn [reflect.ValueOf reflect.type_of_value bind]; [| exact I].
  destruct (kit.AssignableTo ft typ).
  - exact (frame_of_set h t d a (reflect.Val ft fd None)).
  - repeat split; reflexivity.
Qed.

Lemma frame_of_convert {A : Type} (host : kit.Host) (h : reflect.heap)
      (typ t : reflect.rtype) (d : reflect.data) (a : reflect.addr)
      (frm : reflect.iface) (r : result (A * bool))
      (conv : reflect.rtype -> A -> reflect.Value) :
  prop.frame_of h a
           (x <- r ;;
            if snd x
            then Ok (true,
                     reflect.Set_ h (reflect.Val t d (Some a))
                                  (conv typ (fst x)), [])
            else kit.set_if_assignable typ (reflect.Val t d (Some a)) frm h).
Proof.
  destruct r as [[v ok] |]; cbn [bind fst snd]; [| exact I].
  destruct ok; [apply frame_of_set | apply frame_of_assign].
Qed.

Lemma SetRobust_frame (host : kit.Host) (to frm : reflect.iface)
      (h : reflect.heap) (typ t : reflect.rtype) (d : reflect.data)
      (a : reflect.addr) :
  prop.destination to h = Some (typ, reflect.Val t d (Some a)) ->
  kit.KindIsBasic (reflect.kind_of typ)
  || reflect.kind_eqb (reflect.kind_of typ) reflect.String = true ->
  prop.frame_of h a (kit.SetRobust to frm h).
Proof.
  intros Hdst Hk. enter_SetRobust Hdst.
  destruct (reflect.kind_of typ); try discriminate Hk;
    cbn [reflect.kind_in reflect.kind_eqb reflect.kind_num Z.leb Z.eqb
         Z.compare Pos.compare Pos.compare_cont Pos.eqb andb];
    try apply (frame_of_convert host h typ t d a frm _ reflect.convert_int);
    try apply (frame_of_convert host h typ t d a frm _ reflect.convert_bool);
    try apply (frame_of_convert host h typ t d a frm _ reflect.convert_float);
    try apply frame_of_assign.
  destruct (kit.ToString frm h) as [s |]; cbn [bind]; [| exact I].
  exact (frame_of_set h t d a _).
Qed.

(** X13: [SetRobust] into a variable of a bool, number or string type
    changes nothing but that variable: whatever the source, when it returns
    the heap has the same variables, all but the destination hold what they
    held, nothing is logged, and on false the heap is the one before. *)
Theorem SetRobust_touches_only_destination
        (host : kit.Host) (to frm : reflect.iface) (h : reflect.heap)
        (typ t : reflect.rtype) (d : reflect.data) (a : reflect.addr)
        (ok : bool) (h' : reflect.heap) (log : list kit.diagnostic) :
  prop.destination to h = Some (typ, reflect.Val t d (Some a)) ->
  kit.KindIsBasic (reflect.kind_of typ)
  || reflect.kind_eqb (reflect.kind_of typ) reflect.String = true ->
  kit.SetRobust to frm h = Ok (ok, h', log) ->
  List.length h' = List.length h
  /\ (forall a', a' <> a -> reflect.load h' a' = reflect.load h a')
  /\ (ok = false -> h' = h)
  /\ log = [].
Proof.
  intros Hdst Hk Hrun.
  pose proof (SetRobust_frame host to frm h typ t d a Hdst Hk) as Hframe.
  rewrite Hrun in Hframe. exact Hframe.
Qed.

Lemma SetRobust_touches_only_destination_witness :
  let h := [reflect.VInt 1; reflect.VString "kept"] in
  let to := sample.ptr_to (reflect.TBasic reflect.Int) 0%nat in
  let frm := prop.of_string "12" in
  (prop.destination to h
   = Some (reflect.TBasic reflect.Int,
           reflect.Val (reflect.TBasic reflect.Int) (reflect.VInt 1)
                       (Some 0%nat))
   /\ kit.KindIsBasic (reflect.kind_of (reflect.TBasic reflect.Int))
      || reflect.kind_eqb (reflect.kind_of (reflect.TBasic reflect.Int))
                          reflect.String = true
   /\ kit.SetRobust to frm h
      = Ok (true, [reflect.VInt 12; reflect.VString "kept"], []))
  /\ List.length [reflect.VInt 12; reflect.VString "kept"] = List.length h
  /\ (forall a', a' <> 0%nat ->
        reflect.load [reflect.VInt 12; reflect.VString "kept"] a'
        = reflect.load h a')
  /\ (true = false -> [reflect.VInt 12; reflect.VString "kept"] = h)
  /\ [] = ([] : list kit.diagnostic).
Proof.
  split; [repeat split |].
  apply (SetRobust_touches_only_destination
           sample.host
           (sample.ptr_to (reflect.TBasic reflect.Int) 0%nat)
           (prop.of_string "12")
           [reflect.VInt 1; reflect.VString "kept"]
           (reflect.TBasic reflect.Int) (reflect.TBasic reflect.Int)
           (reflect.VInt 1) 0%nat true
           [reflect.VInt 12; reflect.VString "kept"] []);
    reflexivity.
Defined.

Lemma AssignableTo_other_kind (host : kit.Host) (ft typ : reflect.rtype) :
  reflect.kind_of ft <> reflect.kind_of typ ->
  reflect.kind_of typ <> reflect.Interface ->
  kit.AssignableTo ft typ = false.
Proof.
  intros Hk Hi. unfold kit.AssignableTo, reflect.directlyAssignable.
  replace (reflect.rtype_eqb typ ft) with false
    by (symmetry; apply not_true_is_false; intros E;
        apply rtype_eqb_eq in E; subst; congruence).
  replace (reflect.kind_eqb (reflect.kind_of typ) (reflect.kind_of ft))
    with false
    by (symmetry; apply not_true_is_false; intros E;
        apply kind_eqb_eq in E; congruence).
  replace (reflect.kind_eqb (reflect.kind_of typ) reflect.Interface)
    with false
    by (symmetry; apply not_true_is_false; intros E;
        apply kind_eqb_eq in E; congruence).
  rewrite andb_false_r. reflexivity.
Qed.

(** X14: a string that is no integer literal leaves an integer variable as
    it is, and a string that is no boolean literal a bool variable:
    [SetRobust] returns false and the heap is the one before. *)
Theorem SetRobust_rejects_text (host : kit.Host) (to : reflect.iface)
        (h : reflect.heap) (typ : reflect.rtype) (dst : reflect.Value)
        (s : string) :
  prop.destination to h = Some (typ, dst) ->
  (reflect.kind_in reflect.Int reflect.Uint64 (reflect.kind_of typ)
   && negb (snd (kit.parse_int s)))
  || (reflect.kind_eqb (reflect.kind_of typ) reflect.Bool
      && negb (snd (kit.parse_bool s))) = true ->
  kit.SetRobust to (prop.of_string s) h = Ok (false, h, []).
Proof.
  intros Hdst Hk.
  assert (Hassign : kit.AssignableTo (reflect.TBasic reflect.String) typ
                    = false).
  { apply AssignableTo_other_kind;
      destruct (reflect.kind_of typ); try discriminate Hk; discriminate. }
  enter_SetRobust Hdst.
  change (kit.ToInt (prop.of_string s) h) with (Ok (kit.parse_int s)).
  change (kit.ToBool (prop.of_string s) h) with (Ok (kit.parse_bool s)).
  cbn [bind]. unfold kit.set_if_assignable.
  cbn [prop.of_string reflect.ValueOf reflect.type_of_value bind].
  rewrite Hassign.
  destruct (reflect.kind_of typ); try discriminate Hk;
    cbn in Hk |- *;
    try (destruct (snd (kit.parse_int s)); [discriminate Hk | reflexivity]);
    destruct (snd (kit.parse_bool s)); [discriminate Hk | reflexivity].
Qed.

Lemma SetRobust_rejects_text_witness :
  let h := [reflect.VInt 5] in
  let to := sample.ptr_to (reflect.TBasic reflect.Int16) 0%nat in
  (prop.destination to h
   = Some (reflect.TBasic reflect.Int16,
           reflect.Val (reflect.TBasic reflect.Int16) (reflect.VInt 5)
                       (Some 0%nat))
   /\ (reflect.kind_in reflect.Int reflect.Uint64
                       (reflect.kind_of (reflect.TBasic reflect.Int16))
       && negb (snd (kit.parse_int "12 apples")))
      || (reflect.kind_eqb (reflect.kind_of (reflect.TBasic reflect.Int16))
                           reflect.Bool
          && negb (snd (kit.parse_bool "12 apples"))) = true)
  /\ kit.SetRobust to (prop.of_string "12 apples") h = Ok (false, h, []).
Proof.
  split; [split; reflexivity |].
  apply (SetRobust_rejects_text
           sample.host _ _ (reflect.TBasic reflect.Int16)
           (reflect.Val (reflect.TBasic reflect.Int16) (reflect.VInt 5)
                        (Some 0%nat)));
    reflexivity.
Defined.

(** ** ValueIsZero *)

Lemma ValueIsZero_by_kind (t : reflect.rtype) (d : reflect.data)
      (loc : option reflect.addr) :
  kit.ValueIsZero (reflect.Val t d loc)
  = match reflect.kind_of t with
    | reflect.Array | reflect.String => reflect.Len (reflect.Val t d loc) =? 0
    | reflect.Bool => negb (reflect.as_bool d)
    | reflect.Int | reflect.Int8 | reflect.Int16 | reflect.Int32
    | reflect.Int64 => reflect.as_int d =? 0
    | reflect.Uint | reflect.Uint8 | reflect.Uint16 | reflect.Uint32
    | reflect.Uint64 | reflect.Uintptr => reflect.as_uint d =? 0
    | reflect.Float32 | reflect.Float64 => num.f_is_zero (reflect.as_float d)
    | reflect.Interface | reflect.Map | reflect.Ptr | reflect.Slice =>
        reflect.IsNil (reflect.Val t d loc)
    | reflect.Func =>
        reflect.data_is_nil d && negb (reflect.CanAddr (reflect.Val t d loc))
    | _ => false
    end.
Proof. reflexivity. Qed.

(** X15: for a bool, an integer, an unsigned integer other than [uintptr]
    and a float, of a predeclared or a defined type, [ToBool] succeeds and
    says false exactly when [ValueIsZero] says zero. *)
Theorem ToBool_is_not_ValueIsZero (t : reflect.rtype) (d : reflect.data)
        (h : reflect.heap) :
  reflect.kind_in reflect.Bool reflect.Uint64 (reflect.kind_of t)
  || reflect.kind_in reflect.Float32 reflect.Float64 (reflect.kind_of t)
  = true ->
  kit.ToBool (Some (t, d)) h
  = Ok (negb (kit.ValueIsZero (reflect.ValueOf (Some (t, d)))), true).
Proof.
  intros Hk. cbn [reflect.ValueOf]. rewrite ValueIsZero_by_kind.
  destruct t as [k | n u | | | | | | | |]; try discriminate Hk.
  - destruct k; try discriminate Hk; cbn; rewrite ?negb_involutive;
      reflexivity.
  - destruct (reflect.kind_of (reflect.TNamed n u)) eqn:Hkind;
      try discriminate Hk; by_kind Hkind; cbn; rewrite ?negb_involutive;
      reflexivity.
Qed.

Lemma ToBool_is_not_ValueIsZero_witness :
  let t := reflect.TNamed "Celsius" (reflect.TBasic reflect.Float64) in
  let d := reflect.VFloat (S754_zero true) in
  reflect.kind_in reflect.Bool reflect.Uint64 (reflect.kind_of t)
  || reflect.kind_in reflect.Float32 reflect.Float64 (reflect.kind_of t)
  = true
  /\ kit.ToBool (Some (t, d)) []
     = Ok (negb (kit.ValueIsZero (reflect.ValueOf (Some (t, d)))), true).
Proof.
  split; [reflexivity |].
  apply (ToBool_is_not_ValueIsZero
           (reflect.TNamed "Celsius" (reflect.TBasic reflect.Float64))).
  reflexivity.
Defined.

(** X16: what [IfaceIsNil] takes for nil, [ValueIsZero] takes for zero, with
    one exception: a nil channel is nil for the first and not zero for the
    second. *)
Theorem nil_is_zero_but_channels (it : reflect.iface) :
  kit.IfaceIsNil it = true ->
  kit.ValueIsZero (reflect.ValueOf it)
  = negb (reflect.kind_eqb (reflect.kind (reflect.ValueOf it)) reflect.Chan).
Proof.
  destruct it as [[t d] |]; [| reflexivity].
  rewrite IfaceIsNil_by_kind. cbn [reflect.ValueOf reflect.kind].
  rewrite ValueIsZero_by_kind. cbv zeta.
  unfold reflect.IsNil. cbn [reflect.kind reflect.val_data reflect.CanAddr].
  destruct (reflect.kind_of t); cbn; try discriminate; try (intros ->);
    try reflexivity.
Qed.

Lemma nil_is_zero_but_channels_witness :
  let ch := Some (reflect.TChan (reflect.TBasic reflect.Int),
                  reflect.VChan None) in
  kit.IfaceIsNil ch = true
  /\ kit.ValueIsZero (reflect.ValueOf ch)
     = negb (reflect.kind_eqb (reflect.kind (reflect.ValueOf ch))
                              reflect.Chan).
Proof.
  split; [reflexivity |].
  apply (nil_is_zero_but_channels
           (Some (reflect.TChan (reflect.TBasic reflect.Int),
                  reflect.VChan None))).
  reflexivity.
Defined.

Lemma kind_underlying (t : reflect.rtype) :
  reflect.kind_of (reflect.underlying t) = reflect.kind_of t.
Proof. induction t; cbn; try reflexivity. assumption. Qed.

Lemma Len_of_string_kind (t : reflect.rtype) (d : reflect.data)
      (loc : option reflect.addr) :
  reflect.kind_of t = reflect.String ->
  reflect.Len (reflect.Val t d loc)
  = Z.of_nat (String.length (reflect.as_string d)).
Proof.
  intros Hk. unfold reflect.Len.
  pose proof (kind_underlying t) as Hu. rewrite Hk in Hu.
  destruct (reflect.underlying t); try reflexivity. discriminate Hu.
Qed.

(** X17: [ValueIsZero] of the zero value of a type is true for bools,
    numbers, strings, pointers, slices, maps, interfaces, functions and
    empty arrays, and false for the zero complex numbers, the nil channel,
    every struct and the nil [unsafe.Pointer]. *)
Theorem ValueIsZero_of_zero_value (t : reflect.rtype) :
  kit.ValueIsZero (reflect.Val t (reflect.zero_data t) None)
  = match reflect.kind_of t with
    | reflect.Invalid | reflect.Complex64 | reflect.Complex128
    | reflect.Chan | reflect.Struct | reflect.UnsafePointer => false
    | reflect.Array =>
        reflect.Len (reflect.Val t (reflect.zero_data t) None) =? 0
    | _ => true
    end.
Proof.
  rewrite ValueIsZero_by_kind. unfold reflect.IsNil.
  cbn [reflect.kind reflect.val_data reflect.CanAddr].
  destruct (reflect.kind_of t) eqn:Hk; try reflexivity;
    try (unfold reflect.zero_data; rewrite Hk; reflexivity).
  rewrite (Len_of_string_kind t _ None Hk).
  unfold reflect.zero_data. rewrite Hk. reflexivity.
Qed.

(** ** Max32, Min32, MinPos and MinPos32 *)

Lemma SFcompare_antisym (a b : spec_float) :
  SFcompare b a = option_map CompOpp (SFcompare a b).
Proof.
  destruct a as [sa | sa | | sa ma ea]; destruct b as [sb | sb | | sb mb eb];
    cbn; try reflexivity;
    try (destruct sa; reflexivity); try (destruct sb; reflexivity);
    try (destruct sa, sb; reflexivity).
  destruct sa, sb; try reflexivity;
    rewrite (Z.compare_antisym ea eb);
    destruct (ea ?= eb); cbn; try reflexivity;
    change (Pos.compare_cont Eq mb ma) with (Pos.compare mb ma);
    change (Pos.compare_cont Eq ma mb) with (Pos.compare ma mb);
    rewrite (Pos.compare_antisym ma mb); try reflexivity.
Qed.

Lemma SFcompare_refl (a : spec_float) :
  math.IsNaN a = false -> SFcompare a a = Some Eq.
Proof.
  destruct a as [s | s | | s m e]; cbn; try discriminate; intros _;
    try (destruct s; reflexivity).
  rewrite Z.compare_refl.
  change (Pos.compare_cont Eq m m) with (Pos.compare m m).
  rewrite Pos.compare_refl. destruct s; reflexivity.
Qed.

Lemma SFcompare_total (a b : spec_float) :
  math.IsNaN a = false -> math.IsNaN b = false ->
  exists c, SFcompare a b = Some c.
Proof.
  destruct a, b; cbn; try discriminate; intros _ _; eexists; reflexivity.
Qed.

Lemma SFleb_refl (a : spec_float) :
  math.IsNaN a = false -> SFleb a a = true.
Proof. intros Ha. unfold SFleb. rewrite (SFcompare_refl a Ha). reflexivity. Qed.

Lemma SFltb_leb (a b : spec_float) : SFltb a b = true -> SFleb a b = true.
Proof.
  unfold SFltb, SFleb. destruct (SFcompare a b) as [[| |] |];
    try discriminate; reflexivity.
Qed.

Lemma SFltb_false_leb (a b : spec_float) :
  math.IsNaN a = false -> math.IsNaN b = false ->
  SFltb b a = false -> SFleb a b = true.
Proof.
  intros Ha Hb. unfold SFltb, SFleb. rewrite (SFcompare_antisym a b).
  destruct (SFcompare_total a b Ha Hb) as [c ->].
  destruct c; cbn; try reflexivity. discriminate.
Qed.

(** X18: when neither argument is a NaN, [Max32] is one of the two and at
    least both, and [Min32] is one of the two and at most both. *)
Theorem Max32_Min32_bounds (a b : spec_float) :
  math.IsNaN a = false -> math.IsNaN b = false ->
  (kit.Max32 a b = a \/ kit.Max32 a b = b)
  /\ SFleb a (kit.Max32 a b) = true /\ SFleb b (kit.Max32 a b) = true
  /\ (kit.Min32 a b = a \/ kit.Min32 a b = b)
  /\ SFleb (kit.Min32 a b) a = true /\ SFleb (kit.Min32 a b) b = true.
Proof.
  intros Ha Hb. unfold kit.Max32, kit.Min32.
  destruct (SFltb b a) eqn:Hba; destruct (SFltb a b) eqn:Hab;
    repeat split; try tauto;
    try (apply SFleb_refl; assumption);
    try (apply SFltb_leb; assumption);
    try (apply SFltb_false_leb; assumption).
Qed.

Lemma Max32_Min32_bounds_witness :
  let a := num.f32_of_Z 3 in
  let b := S754_infinity true in
  (math.IsNaN a = false /\ math.IsNaN b = false)
  /\ (kit.Max32 a b = a \/ kit.Max32 a b = b)
  /\ SFleb a (kit.Max32 a b) = true /\ SFleb b (kit.Max32 a b) = true
  /\ (kit.Min32 a b = a \/ kit.Min32 a b = b)
  /\ SFleb (kit.Min32 a b) a = true /\ SFleb (kit.Min32 a b) b = true.
Proof.
  split; [split; reflexivity |].
  apply (Max32_Min32_bounds (num.f32_of_Z 3) (S754_infinity true));
    reflexivity.
Defined.

Lemma SFltb_nan (a b : spec_float) :
  math.IsNaN a || math.IsNaN b = true -> SFltb a b = false.
Proof.
  unfold SFltb. destruct a, b; cbn; try discriminate; reflexivity.
Qed.

(** X19: with a NaN on either side the comparison is false and both
    [Max32] and [Min32] return their second argument: a NaN is returned
    when it comes second, and dropped when it comes first. *)
Theorem Max32_Min32_of_NaN (a b : spec_float) :
  math.IsNaN a || math.IsNaN b = true ->
  kit.Max32 a b = b /\ kit.Min32 a b = b.
Proof.
  intros Hnan. unfold kit.Max32, kit.Min32.
  rewrite (SFltb_nan a b Hnan).
  rewrite (SFltb_nan b a) by (rewrite orb_comm; exact Hnan).
  split; reflexivity.
Qed.

Lemma Max32_Min32_of_NaN_witness :
  math.IsNaN S754_nan || math.IsNaN (num.f32_of_Z 1) = true
  /\ kit.Max32 S754_nan (num.f32_of_Z 1) = num.f32_of_Z 1
  /\ kit.Min32 S754_nan (num.f32_of_Z 1) = num.f32_of_Z 1.
Proof.
  split; [reflexivity |].
  apply (Max32_Min32_of_NaN S754_nan (num.f32_of_Z 1)). reflexivity.
Defined.

Lemma positive_shape (x : spec_float) :
  SFltb num.fzero x = true ->
  math.IsNegInf x = false /\ math.IsNaN x = false
  /\ SFeqb x num.fzero = false.
Proof.
  unfold SFltb, SFeqb, num.fzero.
  destruct x as [s | [|] | | [|] m e]; cbn; try discriminate;
    intros _; repeat split.
Qed.

(** X20: [MinPos] and [MinPos32] give a positive number exactly when one of
    the arguments is positive, and always one of the two arguments; with no
    positive argument they give the first. *)
Theorem MinPos_is_positive (a b : spec_float) :
  SFltb num.fzero (kit.MinPos a b)
  = SFltb num.fzero a || SFltb num.fzero b
  /\ SFltb num.fzero (kit.MinPos32 a b)
     = SFltb num.fzero a || SFltb num.fzero b
  /\ (kit.MinPos a b = a \/ kit.MinPos a b = b)
  /\ (kit.MinPos32 a b = a \/ kit.MinPos32 a b = b)
  /\ (SFltb num.fzero a || SFltb num.fzero b = false ->
      kit.MinPos a b = a /\ kit.MinPos32 a b = a).
Proof.
  unfold kit.MinPos, kit.MinPos32, kit.Min32.
  destruct (SFltb num.fzero a) eqn:Ha; destruct (SFltb num.fzero b) eqn:Hb;
    cbn [andb orb]; rewrite ?Ha, ?Hb;
    try (repeat split; try tauto; discriminate).
  destruct (positive_shape a Ha) as [Hia [Hna Hza]].
  destruct (positive_shape b Hb) as [Hib [Hnb Hzb]].
  unfold math.Min. rewrite Hia, Hib, Hna, Hnb, Hza. cbn [orb andb].
  destruct (SFltb a b); rewrite ?Ha, ?Hb;
    repeat split; try tauto; discriminate.
Qed.

Lemma MinPos_is_positive_witness :
  let a := num.f64_of_Z (-2) in
  let b := num.fzero in
  SFltb num.fzero (kit.MinPos a b)
  = SFltb num.fzero a || SFltb num.fzero b
  /\ SFltb num.fzero (kit.MinPos32 a b)
     = SFltb num.fzero a || SFltb num.fzero b
  /\ (kit.MinPos a b = a \/ kit.MinPos a b = b)
  /\ (kit.MinPos32 a b = a \/ kit.MinPos32 a b = b)
  /\ (SFltb num.fzero a || SFltb num.fzero b = false ->
      kit.MinPos a b = a /\ kit.MinPos32 a b = a).
Proof. exact (MinPos_is_positive (num.f64_of_Z (-2)) num.fzero). Defined.

(** X21: of two positive numbers [MinPos] and [MinPos32] give one that is
    at most both. *)
Theorem MinPos_of_positives (a b : spec_float) :
  SFltb num.fzero a = true -> SFltb num.fzero b = true ->
  SFleb (kit.MinPos a b) a = true /\ SFleb (kit.MinPos a b) b = true
  /\ SFleb (kit.MinPos32 a b) a = true /\ SFleb (kit.MinPos32 a b) b = true.
Proof.
  intros Ha Hb. unfold kit.MinPos, kit.MinPos32, kit.Min32.
  rewrite Ha, Hb. cbn [andb].
  destruct (positive_shape a Ha) as [Hia [Hna Hza]].
  destruct (positive_shape b Hb) as [Hib [Hnb Hzb]].
  unfold math.Min. rewrite Hia, Hib, Hna, Hnb, Hza. cbn [orb andb].
  destruct (SFltb a b) eqn:Hab; repeat split;
    try (apply SFleb_refl; assumption);
    try (apply SFltb_leb; assumption);
    apply SFltb_false_leb; assumption.
Qed.

Lemma MinPos_of_positives_witness :
  let a := num.f64_of_Z 5 in
  let b := num.f64_of_Z 2 in
  (SFltb num.fzero a = true /\ SFltb num.fzero b = true)
  /\ SFleb (kit.MinPos a b) a = true /\ SFleb (kit.MinPos a b) b = true
  /\ SFleb (kit.MinPos32 a b) a = true /\ SFleb (kit.MinPos32 a b) b = true.
Proof.
  split; [split; reflexivity |].
  apply (MinPos_of_positives (num.f64_of_Z 5) (num.f64_of_Z 2)); reflexivity.
Defined.

(** ** The XML side of kit.Type *)

Lemma name_eqb_refl (n : kit.Name) : kit.name_eqb n n = true.
Proof. unfold kit.name_eqb. rewrite !String.eqb_refl. reflexivity. Qed.

(** X22: what [MarshalXML] hands to an encoder that takes every token is
    the start element, the name of the type (or [null]) as character data,
    and the end element; from the last two [UnmarshalXML] recovers the
    absent descriptor, and a registered one whose name has no white space at
    its ends and is not the text [null]. *)
Theorem Type_XML_roundtrip (registry : kit.Registry) (k : kit.Type_)
        (t : reflect.rtype) (name : kit.Name)
        (attr : list (kit.Name * string)) (rest : kit.Decoder) :
  kit.Types_Type (kit.Types_TypeName t) = Some t ->
  bytes.TrimSpace (kit.Types_TypeName t) = kit.Types_TypeName t ->
  kit.Types_TypeName t <> "null" ->
  kit.MarshalXML (enc := sample.recorder) {| kit.T := Some t |} [] name attr
  = ([kit.StartElement name attr; kit.CharData (kit.Types_TypeName t);
      kit.EndElement name], None)
  /\ kit.UnmarshalXML k (kit.Tok (kit.CharData (kit.Types_TypeName t))
                         :: kit.Tok (kit.EndElement name) :: rest) name
     = ({| kit.T := Some t |}, rest, None)
  /\ kit.MarshalXML (enc := sample.recorder) {| kit.T := None |} [] name attr
     = ([kit.StartElement name attr; kit.CharData "null";
         kit.EndElement name], None)
  /\ kit.UnmarshalXML k (kit.Tok (kit.CharData "null")
                         :: kit.Tok (kit.EndElement name) :: rest) name
     = ({| kit.T := None |}, rest, None).
Proof.
  intros Hreg Htrim Hnull. split; [reflexivity | split; [| split]].
  - unfold kit.UnmarshalXML. cbn [kit.next_token]. rewrite Htrim.
    destruct (String.eqb_spec (kit.Types_TypeName t) "null") as [E | E];
      [contradiction |].
    rewrite Hreg. cbn [kit.next_token]. rewrite name_eqb_refl. reflexivity.
  - reflexivity.
  - unfold kit.UnmarshalXML. cbn [kit.next_token].
    change (bytes.TrimSpace "null") with "null".
    cbn [String.eqb Ascii.eqb Bool.eqb andb]. cbn [kit.next_token].
    rewrite name_eqb_refl. reflexivity.
Qed.

Lemma Type_XML_roundtrip_witness :
  let t := reflect.TNamed "kit.Type" (reflect.TStruct "T") in
  let name := {| kit.Space := EmptyString; kit.Local := "Typ" |} in
  let k := {| kit.T := None |} in
  (kit.Types_Type (kit.Types_TypeName t) = Some t
   /\ bytes.TrimSpace (kit.Types_TypeName t) = kit.Types_TypeName t
   /\ kit.Types_TypeName t <> "null")
  /\ kit.MarshalXML (enc := sample.recorder) {| kit.T := Some t |} [] name []
     = ([kit.StartElement name []; kit.CharData (kit.Types_TypeName t);
         kit.EndElement name], None)
  /\ kit.UnmarshalXML k (kit.Tok (kit.CharData (kit.Types_TypeName t))
                         :: kit.Tok (kit.EndElement name) :: []) name
     = ({| kit.T := Some t |}, [], None)
  /\ kit.MarshalXML (enc := sample.recorder) {| kit.T := None |} [] name []
     = ([kit.StartElement name []; kit.CharData "null";
         kit.EndElement name], None)
  /\ kit.UnmarshalXML k (kit.Tok (kit.CharData "null")
                         :: kit.Tok (kit.EndElement name) :: []) name
     = ({| kit.T := None |}, [], None).
Proof.
  split; [repeat split; discriminate |].
  apply (Type_XML_roundtrip sample.registry);
    [reflexivity | reflexivity | discriminate].
Defined.

(** X23: when [UnmarshalXML] returns no error it has read exactly two
    tokens, character data and the end element of the start element's
    name, and the wrapper holds nothing if the trimmed text is [null] and
    otherwise the type the registry has for the text. *)
Theorem UnmarshalXML_success (registry : kit.Registry) (k k' : kit.Type_)
        (d d' : kit.Decoder) (start : kit.Name) :
  kit.UnmarshalXML k d start = (k', d', None) ->
  exists ct et,
    d = kit.Tok (kit.CharData ct) :: kit.Tok (kit.EndElement et) :: d'
    /\ kit.name_eqb et start = true
    /\ (if String.eqb (bytes.TrimSpace ct) "null"
        then kit.T k' = None
        else kit.T k' <> None
             /\ kit.Types_Type (bytes.TrimSpace ct) = kit.T k').
Proof.
  unfold kit.UnmarshalXML.
  destruct d as [| [t1 | e1] d1]; cbn [kit.next_token]; try discriminate.
  destruct t1 as [n1 a1 | n1 | ct | o1]; try discriminate.
  set (looked := if String.eqb (bytes.TrimSpace ct) "null" then _ else _).
  assert (Hl : forall kk, looked = inl kk ->
               if String.eqb (bytes.TrimSpace ct) "null"
               then kit.T kk = None
               else kit.T kk <> None
                    /\ kit.Types_Type (bytes.TrimSpace ct) = kit.T kk).
  { subst looked. intros kk.
    destruct (String.eqb (bytes.TrimSpace ct) "null").
    - intros H. injection H as <-. reflexivity.
    - destruct (kit.Types_Type (bytes.TrimSpace ct)) as [typ |];
        [| discriminate].
      intros H. injection H as <-. split; [discriminate | reflexivity]. }
  destruct looked as [kk | err]; [| discriminate].
  specialize (Hl kk eq_refl).
  destruct d1 as [| [t2 | e2] d2]; cbn [kit.next_token]; try discriminate.
  destruct t2 as [n2 a2 | et | c2 | o2]; try discriminate.
  destruct (kit.name_eqb et start) eqn:En; cbn [negb]; [| discriminate].
  intros H. injection H as <- <-.
  exists ct, et. repeat split; assumption.
Qed.

Lemma UnmarshalXML_success_witness :
  let name := {| kit.Space := EmptyString; kit.Local := "Typ" |} in
  let d := [kit.Tok (kit.CharData " int "); kit.Tok (kit.EndElement name);
            kit.Tok (kit.CharData "next")] in
  kit.UnmarshalXML {| kit.T := None |} d name
  = ({| kit.T := Some (reflect.TBasic reflect.Int) |},
     [kit.Tok (kit.CharData "next")], None)
  /\ exists ct et,
      d = kit.Tok (kit.CharData ct) :: kit.Tok (kit.EndElement et)
            :: [kit.Tok (kit.CharData "next")]
      /\ kit.name_eqb et name = true
      /\ (if String.eqb (bytes.TrimSpace ct) "null"
          then kit.T {| kit.T := Some (reflect.TBasic reflect.Int) |} = None
          else kit.T {| kit.T := Some (reflect.TBasic reflect.Int) |} <> None
               /\ kit.Types_Type (bytes.TrimSpace ct)
                  = kit.T {| kit.T := Some (reflect.TBasic reflect.Int) |}).
Proof.
  split; [reflexivity |].
  apply (UnmarshalXML_success sample.registry {| kit.T := None |}).
  reflexivity.
Defined.

(** X24: the errors of [UnmarshalXML] come at two stages.  When the name is
    not found the wrapper is as before and the name is not in the registry;
    when the end element does not match, the wrapper has already taken the
    type of the character data read before it. *)
Theorem UnmarshalXML_errors (registry : kit.Registry) (k k' : kit.Type_)
        (d d' : kit.Decoder) (start : kit.Name) (err : kit.xml_error) :
  kit.UnmarshalXML k d start = (k', d', Some err) ->
  (forall tn, err = kit.NameNotFound tn ->
              k' = k /\ kit.Types_Type tn = None /\ tn <> "null")
  /\ (forall et s, err = kit.EndElementMismatch et s ->
        s = start /\ kit.name_eqb et start = false
        /\ exists ct,
            d = kit.Tok (kit.CharData ct) :: kit.Tok (kit.EndElement et) :: d'
            /\ (if String.eqb (bytes.TrimSpace ct) "null"
                then kit.T k' = None
                else kit.T k' <> None
                     /\ kit.Types_Type (bytes.TrimSpace ct) = kit.T k')).
Proof.
  unfold kit.UnmarshalXML.
  destruct d as [| [t1 | e1] d1]; cbn [kit.next_token];
    try (intros H; injection H as <- <- <-; split; intros; discriminate).
  destruct t1 as [n1 a1 | n1 | ct | o1];
    try (intros H; injection H as <- <- <-; split; intros; discriminate).
  destruct (String.eqb_spec (bytes.TrimSpace ct) "null") as [En | En].
  - destruct d1 as [| [t2 | e2] d2]; cbn [kit.next_token];
      try (intros H; injection H as <- <- <-; split; intros; discriminate).
    destruct t2 as [n2 a2 | et | c2 | o2];
      try (intros H; injection H as <- <- <-; split; intros; discriminate).
    destruct (kit.name_eqb et start) eqn:Ee; cbn [negb]; [discriminate |].
    intros H. injection H as <- <- <-. split; [intros; discriminate |].
    intros et' s' H. injection H as <- <-.
    split; [reflexivity | split; [exact Ee |]].
    exists ct. split; [reflexivity |].
    rewrite En. reflexivity.
  - destruct (kit.Types_Type (bytes.TrimSpace ct)) as [typ |] eqn:Et.
    + destruct d1 as [| [t2 | e2] d2]; cbn [kit.next_token];
        try (intros H; injection H as <- <- <-; split; intros; discriminate).
      destruct t2 as [n2 a2 | et | c2 | o2];
        try (intros H; injection H as <- <- <-; split; intros; discriminate).
      destruct (kit.name_eqb et start) eqn:Ee; cbn [negb]; [discriminate |].
      intros H. injection H as <- <- <-. split; [intros; discriminate |].
      intros et' s' H. injection H as <- <-.
      split; [reflexivity | split; [exact Ee |]].
      exists ct. split; [reflexivity |].
      destruct (String.eqb_spec (bytes.TrimSpace ct) "null");
        [contradiction |].
      split; [discriminate | exact Et].
    + intros H. injection H as <- <- <-. split; [| intros; discriminate].
      intros tn H. injection H as <-. repeat split; assumption.
Qed.

(** X25: [UnmarshalJSON] either fails and leaves the wrapper as it was, or
    succeeds with the absent descriptor on the bytes [null] exactly, and
    with the type the registry has for the trimmed text on any other
    bytes; it puts no type of its own in the wrapper. *)
Theorem UnmarshalJSON_outcomes (registry : kit.Registry) (k k' : kit.Type_)
        (b : string) (err : option string) :
  kit.UnmarshalJSON k b = (k', err) ->
  match err with
  | Some _ =>
      k' = k /\ b <> "null"
      /\ kit.Types_Type (bytes.Trim (bytes.TrimSpace b) [kit.dquote]) = None
  | None =>
      (b = "null" /\ kit.T k' = None)
      \/ (b <> "null" /\ kit.T k' <> None
          /\ kit.Types_Type (bytes.Trim (bytes.TrimSpace b) [kit.dquote])
             = kit.T k')
  end.
Proof.
  unfold kit.UnmarshalJSON.
  destruct (String.eqb_spec b "null") as [E | E].
  - intros H. injection H as <- <-. left. split; [exact E | reflexivity].
  - destruct (kit.Types_Type (bytes.Trim (bytes.TrimSpace b) [kit.dquote]))
      as [typ |] eqn:Et; intros H; injection H as <- <-.
    + right. repeat split; [exact E | discriminate].
    + repeat split; assumption.
Qed.

Lemma UnmarshalJSON_outcomes_witness :
  let k := {| kit.T := Some (reflect.TBasic reflect.String) |} in
  kit.UnmarshalJSON k " null "
  = (k, Some "Type UnmarshalJSON: Types type name not found: null")
  /\ (k = k /\ " null " <> "null"
      /\ kit.Types_Type (bytes.Trim (bytes.TrimSpace " null ") [kit.dquote])
         = None).
Proof.
  split; [reflexivity |].
  exact (UnmarshalJSON_outcomes
           sample.registry
           {| kit.T := Some (reflect.TBasic reflect.String) |} _
           " null "
           (Some "Type UnmarshalJSON: Types type name not found: null")
           eq_refl).
Defined.

Lemma UnmarshalXML_errors_witness :
  let name := {| kit.Space := EmptyString; kit.Local := "Typ" |} in
  let other := {| kit.Space := EmptyString; kit.Local := "Other" |} in
  let d := [kit.Tok (kit.CharData "int"); kit.Tok (kit.EndElement other)] in
  let k' := {| kit.T := Some (reflect.TBasic reflect.Int) |} in
  kit.UnmarshalXML {| kit.T := None |} d name
  = (k', [], Some (kit.EndElementMismatch other name))
  /\ (forall tn, kit.EndElementMismatch other name = kit.NameNotFound tn ->
                 k' = {| kit.T := None |} /\ kit.Types_Type tn = None
                 /\ tn <> "null")
  /\ (forall et s, kit.EndElementMismatch other name
                   = kit.EndElementMismatch et s ->
        s = name /\ kit.name_eqb et name = false
        /\ exists ct,
            d = kit.Tok (kit.CharData ct) :: kit.Tok (kit.EndElement et) :: []
            /\ (if String.eqb (bytes.TrimSpace ct) "null"
                then kit.T k' = None
                else kit.T k' <> None
                     /\ kit.Types_Type (bytes.TrimSpace ct) = kit.T k')).
Proof.
  split; [reflexivity |].
  apply (UnmarshalXML_errors sample.registry {| kit.T := None |}).
  reflexivity.
Defined.

(** ** CloneToType *)

Lemma load_app_old (h : reflect.heap) (z : reflect.data) (a : reflect.addr) :
  (a < List.length h)%nat -> reflect.load (h ++ [z])%list a = reflect.load h a.
Proof. intros Ha. unfold reflect.load. apply app_nth1. exact Ha. Qed.

Lemma load_app_new (h : reflect.heap) (z : reflect.data) :
  reflect.load (h ++ [z])%list (List.length h) = z.
Proof.
  unfold reflect.load. rewrite app_nth2 by lia.
  rewrite Nat.sub_diag. reflexivity.
Qed.

(** X26: for a bool, number or string type, [CloneToType] returns a pointer
    that is not nil to a variable the heap did not have; the variables the
    heap had hold what they held, whatever [SetRobust] does with the value,
    and when it refuses the value the new variable holds the zero value of
    the type. *)
Theorem CloneToType_is_fresh (host : kit.Host) (typ : reflect.rtype)
        (val : reflect.iface) (h h' : reflect.heap) (vn : reflect.Value)
        (log : list kit.diagnostic) :
  kit.KindIsBasic (reflect.kind_of typ)
  || reflect.kind_eqb (reflect.kind_of typ) reflect.String = true ->
  kit.CloneToType typ val h = Ok (vn, h', log) ->
  vn = reflect.Val (reflect.TPtr typ) (reflect.VPtr (Some (List.length h)))
                   None
  /\ List.length h' = S (List.length h)
  /\ (forall a, (a < List.length h)%nat ->
                reflect.load h' a = reflect.load h a)
  /\ (kit.SetRobust (sample.ptr_to typ (List.length h)) val
                    (h ++ [reflect.zero_data typ])%list
      = Ok (false, h', log) ->
      reflect.load h' (List.length h) = reflect.zero_data typ).
Proof.
  intros Hk. unfold kit.CloneToType, reflect.New_.
  cbn [reflect.Interface_ bind].
  assert (Hnp : reflect.kind_of typ <> reflect.Ptr)
    by (destruct (reflect.kind_of typ); try discriminate Hk; discriminate).
  pose proof (destination_of_pointer
                host typ (List.length h)
                (h ++ [reflect.zero_data typ])%list Hnp) as Hdst.
  pose proof (SetRobust_frame host _ val _ _ _ _ _ Hdst Hk) as Hrob.
  destruct (kit.SetRobust
              (Some (reflect.TPtr typ, reflect.VPtr (Some (List.length h))))
              val (h ++ [reflect.zero_data typ])%list)
    as [[[ok h1] log1] |] eqn:Hrun; cbn [bind fst snd]; [| discriminate].
  intros H. injection H as <- <- <-.
  assert (Hframe : prop.frame_of (h ++ [reflect.zero_data typ])%list
                                 (List.length h) (Ok (ok, h1, log1)))
    by (rewrite <- Hrun; exact Hrob).
  cbv [prop.frame_of] in Hframe.
  destruct Hframe as [Hlen [Hother [Hfalse Hlog]]].
  split; [reflexivity | split; [| split]].
  - rewrite Hlen, length_app. cbn. lia.
  - intros a Ha. rewrite Hother by lia. apply load_app_old. exact Ha.
  - intros H. pose proof (eq_trans (eq_sym Hrun) H) as E.
    injection E as ->. rewrite (Hfalse eq_refl).
    apply load_app_new.
Qed.

Lemma CloneToType_is_fresh_witness :
  let typ := reflect.TBasic reflect.Int32 in
  let h := [reflect.VString "kept"] in
  let vn := reflect.Val (reflect.TPtr typ) (reflect.VPtr (Some 1%nat)) None in
  (kit.KindIsBasic (reflect.kind_of typ)
   || reflect.kind_eqb (reflect.kind_of typ) reflect.String = true
   /\ kit.CloneToType typ (prop.of_string "0x10") h
      = Ok (vn, [reflect.VString "kept"; reflect.VInt 16], []))
  /\ vn = reflect.Val (reflect.TPtr typ)
                      (reflect.VPtr (Some (List.length h))) None
  /\ List.length [reflect.VString "kept"; reflect.VInt 16]
     = S (List.length h)
  /\ (forall a, (a < List.length h)%nat ->
                reflect.load [reflect.VString "kept"; reflect.VInt 16] a
                = reflect.load h a)
  /\ (kit.SetRobust (sample.ptr_to typ (List.length h))
                    (prop.of_string "0x10")
                    (h ++ [reflect.zero_data typ])%list
      = Ok (false, [reflect.VString "kept"; reflect.VInt 16], []) ->
      reflect.load [reflect.VString "kept"; reflect.VInt 16] (List.length h)
      = reflect.zero_data typ).
Proof.
  split; [split; reflexivity |].
  apply (CloneToType_is_fresh sample.host (reflect.TBasic reflect.Int32)
                              (prop.of_string "0x10")
                              [reflect.VString "kept"]);
    reflexivity.
Defined.

(** ** StructTags *)

Lemma fields_from_word (w : string) :
  forall (rest word : string),
    prop.all_chars prop.no_space w = true ->
    strings.fields_from (w ++ rest) word = strings.fields_from rest (word ++ w).
Proof.
  induction w as [| c w IH]; intros rest word Hw.
  - cbn [append]. replace (word ++ EmptyString) with word; [reflexivity |].
    clear. induction word as [| a word IH]; cbn; [reflexivity |].
    rewrite <- IH. reflexivity.
  - cbn [prop.all_chars] in Hw. apply andb_true_iff in Hw.
    destruct Hw as [Hc Hw]. unfold prop.no_space in Hc.
    apply andb_true_iff in Hc. destruct Hc as [_ Hc].
    apply negb_true_iff in Hc.
    cbn [append strings.fields_from]. rewrite Hc.
    rewrite (IH rest _ Hw). f_equal.
    clear. induction word as [| a word IH]; cbn; [reflexivity |].
    rewrite IH. reflexivity.
Qed.

Lemma all_chars_app (f : ascii -> bool) (a b : string) :
  prop.all_chars f (a ++ b) = prop.all_chars f a && prop.all_chars f b.
Proof.
  induction a as [| c a IH]; cbn; [reflexivity |].
  rewrite IH. apply andb_assoc.
Qed.

Lemma all_chars_weaken (f g : ascii -> bool) (s : string) :
  (forall c, f c = true -> g c = true) ->
  prop.all_chars f s = true -> prop.all_chars g s = true.
Proof.
  intros Hfg. induction s as [| c s IH]; cbn; [reflexivity |].
  intros H. apply andb_true_iff in H. destruct H as [Hc Hs].
  rewrite (Hfg c Hc), (IH Hs). reflexivity.
Qed.

Lemma key_char_no_space (c : ascii) :
  prop.key_char c = true -> prop.no_space c = true.
Proof.
  unfold prop.key_char. intros H.
  apply andb_true_iff in H. tauto.
Qed.

Lemma render_tag_no_space (kv : string * string) :
  prop.plain_tag kv = true ->
  prop.all_chars prop.no_space (prop.render_tag kv) = true.
Proof.
  unfold prop.plain_tag, prop.render_tag. intros H.
  apply andb_true_iff in H. destruct H as [Hk Hv].
  rewrite all_chars_app. cbn [prop.all_chars].
  rewrite all_chars_app. cbn [prop.all_chars].
  rewrite (all_chars_weaken _ _ _ key_char_no_space Hk), Hv. reflexivity.
Qed.

Lemma render_tag_not_empty (kv : string * string) :
  exists c r, prop.render_tag kv = String c r.
Proof.
  unfold prop.render_tag. destruct (fst kv) as [| c k]; cbn;
    eexists; eexists; reflexivity.
Qed.

Lemma Fields_join_tags (kvs : list (string * string)) :
  forallb prop.plain_tag kvs = true ->
  strings.Fields (prop.join_tags kvs) = map prop.render_tag kvs.
Proof.
  unfold strings.Fields.
  induction kvs as [| kv rest IH]; intros Hwf; [reflexivity |].
  cbn [forallb] in Hwf. apply andb_true_iff in Hwf.
  destruct Hwf as [Hkv Hrest].
  pose proof (render_tag_no_space kv Hkv) as Hns.
  destruct (render_tag_not_empty kv) as [c [r Hr]].
  destruct rest as [| kv' rest'].
  - cbn [prop.join_tags map].
    replace (prop.render_tag kv) with (prop.render_tag kv ++ EmptyString)
      at 1
      by (clear; induction (prop.render_tag kv) as [| a w IH]; cbn;
          [reflexivity | rewrite IH; reflexivity]).
    rewrite (fields_from_word _ EmptyString EmptyString Hns).
    cbn [append strings.fields_from]. rewrite Hr. reflexivity.
  - change (prop.join_tags (kv :: kv' :: rest'))
      with (prop.render_tag kv
            ++ String " " (prop.join_tags (kv' :: rest'))).
    rewrite (fields_from_word _ _ EmptyString Hns).
    cbn [append strings.fields_from].
    change (bytes.isSpace " ") with true. cbv iota.
    rewrite Hr. rewrite (IH Hrest). rewrite <- Hr. reflexivity.
Qed.

Lemma IndexByte_after_key (k rest : string) :
  prop.all_chars prop.key_char k = true ->
  strings.IndexByte (k ++ String ":" rest) ":" = Z.of_nat (String.length k).
Proof.
  induction k as [| c k IH]; intros Hk; [reflexivity |].
  cbn [prop.all_chars] in Hk. apply andb_true_iff in Hk.
  destruct Hk as [Hc Hk]. unfold prop.key_char in Hc.
  apply andb_true_iff in Hc. destruct Hc as [_ Hc].
  apply negb_true_iff in Hc.
  cbn [append strings.IndexByte String.length]. rewrite Hc, (IH Hk).
  replace (Z.of_nat (String.length k) <? 0) with false by lia. lia.
Qed.

Lemma string_length_app (a b : string) :
  String.length (a ++ b) = (String.length a + String.length b)%nat.
Proof. induction a as [| c a IH]; cbn; [reflexivity | rewrite IH; reflexivity]. Qed.

Lemma take_app (k r : string) : strings.take (String.length k) (k ++ r) = k.
Proof.
  induction k as [| c k IH]; cbn.
  - destruct r; reflexivity.
  - rewrite IH. reflexivity.
Qed.

Lemma drop_app (k r : string) (n : nat) :
  strings.drop (String.length k + n) (k ++ r) = strings.drop n r.
Proof. induction k as [| c k IH]; cbn; [reflexivity | exact IH]. Qed.

Lemma TrimSuffixByte_snoc (v : string) (c : ascii) :
  strings.TrimSuffixByte (v ++ String c EmptyString) c = v.
Proof.
  induction v as [| a v IH].
  - cbn. rewrite Ascii.eqb_refl. reflexivity.
  - cbn [append]. cbn [strings.TrimSuffixByte].
    destruct (v ++ String c EmptyString) as [| b w] eqn:E.
    + destruct v; discriminate E.
    + rewrite IH. reflexivity.
Qed.

Lemma tag_field_render (m : kit.smap) (kv : string * string) :
  prop.plain_tag kv = true ->
  kit.tag_field m (prop.render_tag kv) = kit.smap_set m (fst kv) (snd kv).
Proof.
  intros Hwf. unfold prop.plain_tag in Hwf. apply andb_true_iff in Hwf.
  destruct Hwf as [Hk _]. destruct kv as [k v]. cbn [fst snd] in *.
  unfold kit.tag_field, prop.render_tag. cbn [fst snd].
  rewrite (IndexByte_after_key k _ Hk).
  rewrite string_length_app. cbn [String.length].
  rewrite string_length_app. cbn [String.length].
  assert (H0 : (Z.of_nat (String.length k) <? 0) = false)
    by (apply Z.ltb_ge; lia).
  assert (H3 : (Z.of_nat (String.length k + S (S (String.length v + 1)))
                <? Z.of_nat (String.length k) + 3) = false)
    by (apply Z.ltb_ge; lia).
  rewrite H0, H3. cbn [orb]. rewrite Nat2Z.id.
  replace (Z.to_nat (Z.of_nat (String.length k) + 2))
    with (String.length k + 2)%nat by lia.
  rewrite take_app, drop_app. cbn [strings.drop].
  rewrite TrimSuffixByte_snoc. reflexivity.
Qed.

Lemma find_filter_other (m : kit.smap) (k k' : string) :
  String.eqb k k' = false ->
  find (fun p => String.eqb (fst p) k')
       (filter (fun p => negb (String.eqb (fst p) k)) m)
  = find (fun p => String.eqb (fst p) k') m.
Proof.
  intros Hne. induction m as [| [a b] m IH]; [reflexivity |].
  cbn [filter find fst].
  destruct (String.eqb_spec a k) as [-> | Hak]; cbn [negb].
  - rewrite Hne. exact IH.
  - cbn [find fst]. rewrite IH. reflexivity.
Qed.

Lemma smap_get_set (m : kit.smap) (k v k' : string) :
  kit.smap_get (kit.smap_set m k v) k'
  = if String.eqb k k' then Some v else kit.smap_get m k'.
Proof.
  unfold kit.smap_get, kit.smap_set. cbn [find fst snd].
  destruct (String.eqb k k') eqn:E; [reflexivity |].
  rewrite (find_filter_other m k k' E). reflexivity.
Qed.

Lemma smap_get_snoc (l : kit.smap) (k v k' : string) :
  kit.smap_get (l ++ [(k, v)])%list k'
  = match kit.smap_get l k' with
    | Some x => Some x
    | None => if String.eqb k k' then Some v else None
    end.
Proof.
  unfold kit.smap_get.
  induction l as [| [a b] l IH]; cbn [app find fst snd].
  - destruct (String.eqb k k'); reflexivity.
  - destruct (String.eqb a k'); [reflexivity | exact IH].
Qed.

Lemma fold_tag_fields (kvs : list (string * string)) :
  forall (m : kit.smap) (k' : string),
    forallb prop.plain_tag kvs = true ->
    kit.smap_get (fold_left kit.tag_field (map prop.render_tag kvs) m) k'
    = match kit.smap_get (rev kvs) k' with
      | Some v => Some v
      | None => kit.smap_get m k'
      end.
Proof.
  induction kvs as [| [k v] rest IH]; intros m k' Hwf; [reflexivity |].
  cbn [forallb] in Hwf. apply andb_true_iff in Hwf.
  destruct Hwf as [Hkv Hrest].
  cbn [map fold_left rev]. rewrite (tag_field_render m (k, v) Hkv).
  rewrite (IH _ k' Hrest). cbn [fst snd].
  rewrite smap_get_snoc, smap_get_set.
  destruct (kit.smap_get (rev rest) k'); [reflexivity |].
  destruct (String.eqb k k'); reflexivity.
Qed.

(** X27: for ASCII tags written as a key, a colon and a value between
    double quotes, with one space between tags, keys without colon or white
    space and values without white space, [StructTags] gives the map that
    has for each key the value of its last tag. *)
Theorem StructTags_of_written_tags (kvs : list (string * string))
        (k : string) :
  kvs <> [] ->
  forallb prop.plain_tag kvs = true ->
  exists m,
    kit.StructTags (prop.join_tags kvs) = Some m
    /\ kit.smap_get m k = kit.smap_get (rev kvs) k.
Proof.
  intros Hne Hwf. unfold kit.StructTags.
  assert (Hlen : Nat.eqb (String.length (prop.join_tags kvs)) 0 = false).
  { destruct kvs as [| kv rest]; [contradiction |].
    destruct (render_tag_not_empty kv) as [c [r Hr]].
    destruct rest; cbn [prop.join_tags]; rewrite Hr; reflexivity. }
  rewrite Hlen. eexists. split; [reflexivity |].
  rewrite (Fields_join_tags kvs Hwf).
  rewrite (fold_tag_fields kvs [] k Hwf).
  destruct (kit.smap_get (rev kvs) k); reflexivity.
Qed.

Lemma StructTags_of_written_tags_witness :
  let kvs := [("json", "name"); ("xml", "n,attr"); ("json", "-")] in
  (kvs <> [] /\ forallb prop.plain_tag kvs = true)
  /\ exists m,
      kit.StructTags (prop.join_tags kvs) = Some m
      /\ kit.smap_get m "json" = kit.smap_get (rev kvs) "json".
Proof.
  split; [split; [discriminate | reflexivity] |].
  apply (StructTags_of_written_tags
           [("json", "name"); ("xml", "n,attr"); ("json", "-")] "json");
    [discriminate | reflexivity].
Defined.

Lemma fields_from_chars (s : string) :
  forall word : string,
    prop.all_chars prop.ascii_char s = true ->
    prop.all_chars prop.no_space word = true ->
    Forall (fun w => prop.all_chars prop.no_space w = true)
           (strings.fields_from s word).
Proof.
  induction s as [| c s IH]; intros word Hs Hword.
  - destruct word; cbn [strings.fields_from]; auto.
  - cbn [prop.all_chars] in Hs. apply andb_true_iff in Hs.
    destruct Hs as [Hc Hs]. cbn [strings.fields_from].
    destruct (bytes.isSpace c) eqn:Hsp.
    + destruct word; [apply IH; auto |].
      constructor; [exact Hword | apply IH; auto].
    + apply IH; [exact Hs |].
      rewrite all_chars_app, Hword. cbn [prop.all_chars].
      unfold prop.no_space. rewrite Hc, Hsp. reflexivity.
Qed.

Lemma take_chars (f : ascii -> bool) (n : nat) :
  forall s, prop.all_chars f s = true ->
            prop.all_chars f (strings.take n s) = true.
Proof.
  induction n as [| n IH]; intros [| a s] H; try reflexivity.
  cbn [prop.all_chars] in H. apply andb_true_iff in H.
  destruct H as [Ha Hs]. cbn [strings.take prop.all_chars].
  rewrite Ha, (IH s Hs). reflexivity.
Qed.

Lemma drop_chars (f : ascii -> bool) (n : nat) :
  forall s, prop.all_chars f s = true ->
            prop.all_chars f (strings.drop n s) = true.
Proof.
  induction n as [| n IH]; intros [| a s] H; try exact H.
  cbn [prop.all_chars] in H. apply andb_true_iff in H.
  destruct H as [_ Hs]. cbn [strings.drop]. exact (IH s Hs).
Qed.

Lemma TrimSuffixByte_chars (f : ascii -> bool) (c : ascii) (s : string) :
  prop.all_chars f s = true ->
  prop.all_chars f (strings.TrimSuffixByte s c) = true.
Proof.
  induction s as [| a s IH]; intros H; [reflexivity |].
  cbn [strings.TrimSuffixByte]. destruct s as [| b s'].
  - destruct (Ascii.eqb a c); [reflexivity | exact H].
  - cbn [prop.all_chars] in H. apply andb_true_iff in H.
    destruct H as [Ha Hs]. cbn [prop.all_chars] in IH |- *.
    rewrite Ha. cbn [andb]. exact (IH Hs).
Qed.

Lemma take_before_IndexByte (c : ascii) (s : string) :
  0 <= strings.IndexByte s c ->
  prop.all_chars (fun a => negb (Ascii.eqb a c))
                 (strings.take (Z.to_nat (strings.IndexByte s c)) s) = true.
Proof.
  induction s as [| a s IH]; cbn [strings.IndexByte]; [reflexivity |].
  destruct (Ascii.eqb a c) eqn:Ha; [reflexivity |].
  destruct (strings.IndexByte s c <? 0) eqn:Hi; [lia |].
  apply Z.ltb_ge in Hi. intros _.
  replace (Z.to_nat (strings.IndexByte s c + 1))
    with (S (Z.to_nat (strings.IndexByte s c))) by lia.
  cbn [strings.take prop.all_chars]. rewrite Ha, (IH Hi). reflexivity.
Qed.

Lemma all_chars_both (f g : ascii -> bool) (s : string) :
  prop.all_chars f s = true -> prop.all_chars g s = true ->
  prop.all_chars (fun c => f c && g c) s = true.
Proof.
  induction s as [| a s IH]; cbn [prop.all_chars]; [reflexivity |].
  intros Hf Hg. apply andb_true_iff in Hf. apply andb_true_iff in Hg.
  destruct Hf as [Hfa Hfs], Hg as [Hga Hgs].
  rewrite Hfa, Hga, (IH Hfs Hgs). reflexivity.
Qed.

Lemma tag_field_chars (m : kit.smap) (fld : string) :
  Forall (fun p => prop.plain_tag p = true) m ->
  prop.all_chars prop.no_space fld = true ->
  Forall (fun p => prop.plain_tag p = true) (kit.tag_field m fld).
Proof.
  intros Hm Hfld. unfold kit.tag_field.
  destruct (strings.IndexByte fld ":" <? 0) eqn:Hcli; [exact Hm |].
  cbn [orb].
  destruct (Z.of_nat (String.length fld) <? strings.IndexByte fld ":" + 3);
    [exact Hm |].
  apply Z.ltb_ge in Hcli. unfold kit.smap_set. constructor.
  - unfold prop.plain_tag. cbn [fst snd]. apply andb_true_iff. split.
    + exact (all_chars_both _ _ _ (take_chars _ _ _ Hfld)
                            (take_before_IndexByte ":" fld Hcli)).
    + apply TrimSuffixByte_chars, drop_chars, Hfld.
  - apply Forall_forall. intros p Hp. apply filter_In in Hp.
    destruct Hp as [Hp _]. rewrite Forall_forall in Hm. exact (Hm p Hp).
Qed.

Lemma fold_tag_field_chars (flds : list string) :
  forall m : kit.smap,
    Forall (fun p => prop.plain_tag p = true) m ->
    Forall (fun w => prop.all_chars prop.no_space w = true) flds ->
    Forall (fun p => prop.plain_tag p = true)
           (fold_left kit.tag_field flds m).
Proof.
  induction flds as [| fld flds IH]; intros m Hm Hflds; [exact Hm |].
  inversion Hflds as [| ? ? Hfld Hrest]; subst.
  cbn [fold_left]. apply IH; [apply tag_field_chars; assumption | exact Hrest].
Qed.

(** X28: of an ASCII tag string [StructTags] gives the nil map only when the
    string is empty, and in every map it gives no key has white space or a
    colon in it and no value has white space in it: a key is what stands
    before the first colon of a field, and a value written with a space in
    it is cut at the space. *)
Theorem StructTags_keys_and_values (tags : string) :
  prop.all_chars prop.ascii_char tags = true ->
  (kit.StructTags tags = None <-> tags = EmptyString)
  /\ forall m k v,
      kit.StructTags tags = Some m ->
      In (k, v) m ->
      prop.all_chars prop.key_char k = true
      /\ prop.all_chars prop.no_space v = true.
Proof.
  intros Hascii. split.
  - unfold kit.StructTags. destruct tags; cbn [String.length Nat.eqb];
      split; intros H; try reflexivity; discriminate H.
  - intros m k v Hrun Hin. unfold kit.StructTags in Hrun.
    destruct (Nat.eqb (String.length tags) 0); [discriminate Hrun |].
    injection Hrun as <-.
    assert (Hall : Forall (fun p => prop.plain_tag p = true)
                          (fold_left kit.tag_field (strings.Fields tags) [])).
    { apply fold_tag_field_chars; [constructor |].
      apply fields_from_chars; [exact Hascii | reflexivity]. }
    rewrite Forall_forall in Hall. specialize (Hall (k, v) Hin).
    unfold prop.plain_tag in Hall. cbn [fst snd] in Hall.
    apply andb_true_iff in Hall. exact Hall.
Qed.

Lemma StructTags_keys_and_values_witness :
  let tags := String "d" (String "e" (String "s" (String "c" (String ":"
                (String kit.dquote (String "a" (String " " (String "b"
                   (String kit.dquote EmptyString))))))))) in
  prop.all_chars prop.ascii_char tags = true
  /\ kit.StructTags tags = Some [("desc", "a")]
  /\ ((kit.StructTags tags = None <-> tags = EmptyString)
      /\ forall m k v,
          kit.StructTags tags = Some m ->
          In (k, v) m ->
          prop.all_chars prop.key_char k = true
          /\ prop.all_chars prop.no_space v = true).
Proof.
  split; [reflexivity |]. split; [reflexivity |].
  apply (StructTags_keys_and_values
           (String "d" (String "e" (String "s" (String "c" (String ":"
              (String kit.dquote (String "a" (String " " (String "b"
                 (String kit.dquote EmptyString)))))))))));
    reflexivity.
Defined.
